(** * mcp-client backend: connection registry and conversation engine

    A shallow embedding of the parts of the backend that own tool-server
    connections ([app/mcp/manager.py], [app/mcp/transports.py]) and that
    drive conversations ([app/agent/service.py], [app/ollama/manager.py],
    [app/ollama/service.py]), together with the properties of the
    specification that concern them.

    Python objects are mutable; here every function takes the object it
    works on and returns the updated one.  Everything outside the process
    (the MCP client session of a tool server, the Ollama chat endpoint)
    is an environment [Env]: a family of functions from the trace of
    requests made so far to the answer of the next request.  The
    development is stated for every environment. *)

From Stdlib Require Import ZArith NArith String Ascii List Bool Lia DecimalString.
From stdpp Require Import base option list gmap.

Local Open Scope Z_scope.
Set Warnings "-register-all".

(** ** Python values *)

Module Py.

(** A Python [str] is a sequence of code points. *)
Abbreviation str := (list N).

Definition lit (s : string) : str :=
  map N_of_ascii (list_ascii_of_string s).

(** [str(i)] and [f"{i}"] for an [int]. *)
Definition str_of_int (z : Z) : str :=
  lit (NilZero.string_of_int (Z.to_int z)).

(** [s.rstrip("/")]. *)
Fixpoint lstrip_slash (s : str) : str :=
  match s with
  | c :: s' => if N.eqb c 47 then lstrip_slash s' else s
  | [] => []
  end.

Definition rstrip_slash (s : str) : str :=
  rev (lstrip_slash (rev s)).

Definition str_eqb (a b : str) : bool := bool_decide (a = b).

(** Dynamically typed data: JSON-like values, and instances of pydantic
    models ([VModel], an object with named attributes and a [dict()]
    method). Dictionaries keep insertion order. *)
Inductive value : Type :=
| VNone
| VBool (b : bool)
| VInt (z : Z)
| VStr (s : str)
| VList (l : list value)
| VDict (d : list (str * value))
| VModel (fields : list (str * value)).

(** Truth value of an object in a condition. *)
Definition truthy (v : value) : bool :=
  match v with
  | VNone => false
  | VBool b => b
  | VInt z => negb (z =? 0)
  | VStr s => negb (Nat.eqb (length s) 0)
  | VList l => negb (Nat.eqb (length l) 0)
  | VDict d => negb (Nat.eqb (length d) 0)
  | VModel _ => true
  end.

(** Operations on the entries of a dictionary. *)
Section Dict.
Context {V : Type}.

Fixpoint dict_get (k : str) (d : list (str * V)) : option V :=
  match d with
  | [] => None
  | (k', v) :: d' => if str_eqb k k' then Some v else dict_get k d'
  end.

(** [k in d] *)
Definition dict_mem (k : str) (d : list (str * V)) : bool :=
  match dict_get k d with Some _ => true | None => false end.

(** [del d[k]] *)
Definition dict_del (k : str) (d : list (str * V)) : list (str * V) :=
  List.filter (fun kv => negb (str_eqb k (fst kv))) d.

(** [d[k] = v]: an existing key keeps its position. *)
Fixpoint dict_set (k : str) (v : V) (d : list (str * V)) : list (str * V) :=
  match d with
  | [] => [(k, v)]
  | (k', v') :: d' =>
      if str_eqb k k' then (k', v) :: d' else (k', v') :: dict_set k v d'
  end.
End Dict.

(** Exceptions, by the class the handlers distinguish and the text that
    [str(e)] gives. [HTTPException] carries its status code. *)
Inductive exn_class : Type :=
| RuntimeError
| ValueError
| TypeError
| KeyError
| NotImplementedError
| TimeoutError
| ValidationError
| HTTPException (status_code : Z)
| OtherException.

Record exn : Type := Exn { exn_cls : exn_class; exn_str : str }.

(** [except ValueError]: pydantic's [ValidationError] derives from it. *)
Definition is_ValueError (e : exn) : bool :=
  match exn_cls e with
  | ValueError | ValidationError => true
  | _ => false
  end.

(** What awaiting a coroutine gives: a value, an exception, or nothing
    yet ([Pending]: the awaited call has not completed; only a caller's
    timeout ends such a wait). *)
Inductive res (A : Type) : Type :=
| Ret (a : A)
| Raise (e : exn)
| Pending.
Arguments Ret {A} a.
Arguments Raise {A} e.
Arguments Pending {A}.

Definition returned {A} (r : res A) : bool :=
  match r with Ret _ => true | _ => false end.
Definition raised {A} (r : res A) : bool :=
  match r with Raise _ => true | _ => false end.

End Py.
Import Py.

(** ** The environment

    The MCP client library (a stdio session to a tool-server process) and
    the HTTP client of the Ollama endpoint are outside the repository.
    Each request to them is an [Event]; the answer may depend on all the
    requests made before. *)

Module World.

(** A tool as an MCP session lists it. *)
Record Tool : Type := MkTool {
  tool_name : str;
  tool_description : value;
  tool_inputSchema : value
}.

(** [client.ChatMessage], with the fields the chat request fills in. *)
Record ChatMessage : Type := MkChatMessage {
  chat_role : str;
  chat_content : str
}.

(** The JSON object that the chat endpoint answers with, by the keys the
    backend reads: [message], its [content] and [tool_calls], and the
    [function] of a tool call with its [name], [arguments] and [index].
    An absent key is [None]. *)
Record ChatFunction : Type := MkChatFunction {
  fn_name : option str;
  fn_arguments : option (list (str * value));
  fn_index : option Z
}.

Record ChatToolCall : Type := MkChatToolCall {
  tc_function : option ChatFunction
}.

Record ChatResultMessage : Type := MkChatResultMessage {
  msg_content : option str;
  msg_tool_calls : list ChatToolCall
}.

Record ChatResult : Type := MkChatResult {
  chat_message : option ChatResultMessage
}.

Inductive Event : Type :=
| StdioOpen (command : str) (args : list str)
| StdioClose (command : str) (args : list str)
| SessionListTools (command : str) (args : list str)
| SessionCallTool (command : str) (args : list str)
                  (tool : str) (arguments : list (str * value))
| ChatCompletion (model : str) (messages : list ChatMessage)
                 (tools : option (list value)).

Abbreviation Trace := (list Event).

Record Env : Type := MkEnv {
  (** [stdio_client], [ClientSession] and [session.initialize()];
      [None] when the session is up. *)
  stdio_open : Trace -> str -> list str -> option exn;
  (** [exit_stack.aclose()] *)
  stdio_close : Trace -> str -> list str -> option exn;
  (** [session.list_tools()] *)
  session_list_tools : Trace -> str -> list str -> exn + list Tool;
  (** [session.call_tool(name, arguments)]; the one request that callers
      bound by a timeout. *)
  session_call_tool :
    Trace -> str -> list str -> str -> list (str * value) -> res value;
  (** [OllamaClient.chat_completion] *)
  chat_completion :
    Trace -> str -> list ChatMessage -> option (list value) -> exn + ChatResult;
  (** The built-in [str()] on a value. *)
  py_str : value -> str
}.

Definition is_open (e : Event) : bool :=
  match e with StdioOpen _ _ => true | _ => false end.
Definition is_call (e : Event) : bool :=
  match e with SessionCallTool _ _ _ _ => true | _ => false end.
Definition is_chat (e : Event) : bool :=
  match e with ChatCompletion _ _ _ => true | _ => false end.

End World.
Import World.

(** ** [app/models/schemas.py] *)

Inductive ConnectionType : Type := STDIO | HTTP.

Inductive ServerStatus : Type :=
| DISCONNECTED | CONNECTING | CONNECTED | ERROR.

Definition ServerStatus_eqb (a b : ServerStatus) : bool :=
  match a, b with
  | DISCONNECTED, DISCONNECTED | CONNECTING, CONNECTING
  | CONNECTED, CONNECTED | ERROR, ERROR => true
  | _, _ => false
  end.

(** The configuration of a server, with the fields the registry reads. *)
Record MCPServerConfig : Type := MkConfig {
  name : str;
  connection_type : ConnectionType;
  command : option str;
  args : option (list str);
  url : option str;
  headers : option (list (str * str));
  timeout : Z;
  retry_count : Z;
  enabled : bool;
  id : Z
}.

Record ToolExecutionRequest : Type := MkRequest {
  server_id : Z;
  req_tool_name : str;
  req_arguments : list (str * value)
}.

(** The dictionary [{"success": .., "result": .., "error": ..}] that the
    execution functions of the registry return. *)
Record ExecutionDict : Type := MkExecution {
  success : bool;
  result : value;
  error : option str
}.

(** ** [app/mcp/transports.py] *)

Module Transports.

Inductive Transport : Type :=
| MCPStdioTransport (command : str) (args : list str) (session : bool)
| MCPHTTPTransport (url : str) (headers : list (str * str)).

Definition create_stdio_transport (command : str) (args : list str) : Transport :=
  MCPStdioTransport command args false.

Definition create_http_transport (url : str) (headers : list (str * str)) : Transport :=
  MCPHTTPTransport (rstrip_slash url) headers.

Definition not_connected : exn :=
  Exn RuntimeError (lit "Not connected to MCP server").
Definition no_bridge : exn :=
  Exn NotImplementedError (lit "HTTP transport requires custom bridge implementation").

(** [cleanup]: an error of the close is logged; the session is dropped. *)
Definition cleanup (env : Env) (tr : Trace) (t : Transport) : Transport * Trace :=
  match t with
  | MCPStdioTransport c a _ => (MCPStdioTransport c a false, tr ++ [StdioClose c a])
  | MCPHTTPTransport u h => (MCPHTTPTransport u h, tr)
  end.

(** [connect]: [None] on success; a failed stdio connect cleans up and
    re-raises. *)
Definition connect (env : Env) (tr : Trace) (t : Transport)
  : option exn * Transport * Trace :=
  match t with
  | MCPStdioTransport c a s =>
      let tr1 := tr ++ [StdioOpen c a] in
      match stdio_open env tr c a with
      | None => (None, MCPStdioTransport c a true, tr1)
      | Some e =>
          let '(t', tr2) := cleanup env tr1 t in
          (Some e, t', tr2)
      end
  | MCPHTTPTransport u h => (None, t, tr)
  end.

Definition list_tools (env : Env) (tr : Trace) (t : Transport)
  : (exn + list Tool) * Trace :=
  match t with
  | MCPStdioTransport c a false => (inl not_connected, tr)
  | MCPStdioTransport c a true =>
      (session_list_tools env tr c a, tr ++ [SessionListTools c a])
  | MCPHTTPTransport _ _ => (inl no_bridge, tr)
  end.

Definition call_tool (env : Env) (tr : Trace) (t : Transport)
    (tool : str) (arguments : list (str * value)) : res value * Trace :=
  match t with
  | MCPStdioTransport c a false => (Raise not_connected, tr)
  | MCPStdioTransport c a true =>
      (session_call_tool env tr c a tool arguments,
       tr ++ [SessionCallTool c a tool arguments])
  | MCPHTTPTransport _ _ => (Raise no_bridge, tr)
  end.

End Transports.

(** ** [app/mcp/manager.py]: one connection *)

Module MCPServerConnection.
Import Transports.

Record t : Type := Mk {
  config : MCPServerConfig;
  transport : option Transport;
  status : ServerStatus;
  last_error : option str;
  available_tools : list Tool
}.

(** [__init__] *)
Definition init (cfg : MCPServerConfig) : t :=
  {| config := cfg; transport := None; status := DISCONNECTED;
     last_error := None; available_tools := [] |}.

Definition set_transport (self : t) (x : option Transport) : t :=
  Mk (config self) x (status self) (last_error self) (available_tools self).
Definition set_status (self : t) (s : ServerStatus) : t :=
  Mk (config self) (transport self) s (last_error self) (available_tools self).
Definition set_last_error (self : t) (e : option str) : t :=
  Mk (config self) (transport self) (status self) e (available_tools self).
Definition set_available_tools (self : t) (l : list Tool) : t :=
  Mk (config self) (transport self) (status self) (last_error self) l.

(** The transport that [connect] builds from the configuration. *)
Definition build_transport (cfg : MCPServerConfig) : exn + Transport :=
  match connection_type cfg with
  | STDIO =>
      match command cfg with
      | Some (c :: cs) =>
          inr (create_stdio_transport (c :: cs) (default [] (args cfg)))
      | _ => inl (Exn ValueError (lit "Command is required for stdio connections"))
      end
  | HTTP =>
      match url cfg with
      | Some (c :: cs) =>
          inr (create_http_transport (c :: cs) (default [] (headers cfg)))
      | _ => inl (Exn ValueError (lit "URL is required for HTTP connections"))
      end
  end.

(** The handler of [connect]: [except Exception as e]. *)
Definition connect_failed (self : t) (e : exn) : t :=
  set_last_error (set_status self ERROR) (Some (exn_str e)).

Definition connect (env : Env) (tr : Trace) (self : t) : bool * t * Trace :=
  let self := set_status self CONNECTING in
  match build_transport (config self) with
  | inl e => (false, connect_failed self e, tr)
  | inr t0 =>
      match Transports.connect env tr t0 with
      | (Some e, t1, tr1) =>
          (false, connect_failed (set_transport self (Some t1)) e, tr1)
      | (None, t1, tr1) =>
          let self := set_transport self (Some t1) in
          let '(self, tr2) :=
            match connection_type (config self) with
            | STDIO =>
                match Transports.list_tools env tr1 t1 with
                | (inr tools, tr2) => (set_available_tools self tools, tr2)
                | (inl _, tr2) => (set_available_tools self [], tr2)
                end
            | HTTP => (self, tr1)
            end in
          (true, set_last_error (set_status self CONNECTED) None, tr2)
      end
  end.

Definition disconnect (env : Env) (tr : Trace) (self : t) : t * Trace :=
  let '(self, tr1) :=
    match transport self with
    | Some t0 =>
        let '(_, tr1) := Transports.cleanup env tr t0 in
        (set_transport self None, tr1)
    | None => (self, tr)
    end in
  (set_available_tools (set_status self DISCONNECTED) [], tr1).

(** [any(tool.name == tool_name for tool in self.available_tools)] *)
Definition has_tool (self : t) (tool : str) : bool :=
  existsb (fun x => str_eqb (tool_name x) tool) (available_tools self).

Definition not_connected_error (self : t) : exn :=
  Exn RuntimeError (lit "Server " ++ name (config self) ++ lit " is not connected").

Definition tool_not_available_error (self : t) (tool : str) : exn :=
  Exn ValueError
    (lit "Tool " ++ tool ++ lit " not available on server " ++ name (config self)).

Definition execute_tool (env : Env) (tr : Trace) (self : t)
    (tool : str) (arguments : list (str * value)) : res ExecutionDict * Trace :=
  match status self, transport self with
  | CONNECTED, Some t0 =>
      if negb (has_tool self tool) then
        (Raise (tool_not_available_error self tool), tr)
      else
        match Transports.call_tool env tr t0 tool arguments with
        | (Ret r, tr1) =>
            (Ret {| success := true; result := r; error := None |}, tr1)
        | (Raise e, tr1) =>
            (Ret {| success := false; result := VNone;
                    error := Some (exn_str e) |}, tr1)
        | (Pending, tr1) => (Pending, tr1)
        end
  | _, _ => (Raise (not_connected_error self), tr)
  end.

Definition health_check (env : Env) (tr : Trace) (self : t) : bool * t * Trace :=
  if negb (ServerStatus_eqb (status self) CONNECTED) then (false, self, tr)
  else
    match connection_type (config self), transport self with
    | STDIO, Some t0 =>
        match Transports.list_tools env tr t0 with
        | (inr _, tr1) => (true, self, tr1)
        | (inl e, tr1) =>
            (false, set_last_error (set_status self ERROR) (Some (exn_str e)), tr1)
        end
    | _, _ => (true, self, tr)
    end.

End MCPServerConnection.

(** ** [app/mcp/manager.py]: the registry of connections *)

Module MCPConnectionManager.

Record t : Type := Mk {
  connections : gmap Z MCPServerConnection.t
}.

Definition init : t := Mk ∅.

Definition remove_server (env : Env) (tr : Trace) (self : t) (sid : Z) : t * Trace :=
  match connections self !! sid with
  | Some c =>
      let '(_, tr1) := MCPServerConnection.disconnect env tr c in
      (Mk (delete sid (connections self)), tr1)
  | None => (self, tr)
  end.

Definition add_server (env : Env) (tr : Trace) (self : t) (server_config : MCPServerConfig)
  : bool * t * Trace :=
  let '(self, tr1) :=
    match connections self !! id server_config with
    | Some _ => remove_server env tr self (id server_config)
    | None => (self, tr)
    end in
  let connection := MCPServerConnection.init server_config in
  if enabled server_config then
    let '(ok, connection, tr2) := MCPServerConnection.connect env tr1 connection in
    (ok, Mk (<[id server_config := connection]> (connections self)), tr2)
  else
    (true, Mk (<[id server_config := connection]> (connections self)), tr1).

Definition reconnect_server (env : Env) (tr : Trace) (self : t) (sid : Z)
  : bool * t * Trace :=
  match connections self !! sid with
  | None => (false, self, tr)
  | Some c =>
      let '(c1, tr1) := MCPServerConnection.disconnect env tr c in
      let '(ok, c2, tr2) := MCPServerConnection.connect env tr1 c1 in
      (ok, Mk (<[sid := c2]> (connections self)), tr2)
  end.

Definition server_not_found (sid : Z) : ExecutionDict :=
  {| success := false; result := VNone;
     error := Some (lit "Server " ++ str_of_int sid ++ lit " not found") |}.

Definition execute_tool (env : Env) (tr : Trace) (self : t) (request : ToolExecutionRequest)
  : res ExecutionDict * Trace :=
  match connections self !! server_id request with
  | None => (Ret (server_not_found (server_id request)), tr)
  | Some connection =>
      MCPServerConnection.execute_tool env tr connection
        (req_tool_name request) (req_arguments request)
  end.

(** The dictionary of one tool in the answer of [list_all_tools]. *)
Record ToolInfo : Type := MkToolInfo {
  ti_name : str;
  ti_description : value;
  input_schema : value
}.

(** The body of the loop of [list_all_tools] for one tool: the schema
    as a plain dictionary, without its [$schema] field. *)
Definition tool_info (tool : Tool) : ToolInfo :=
  let schema :=
    if truthy (tool_inputSchema tool) then tool_inputSchema tool else VDict [] in
  let schema :=
    match schema with
    | VModel fields => VDict fields
    | VDict _ => schema
    | _ => VDict []
    end in
  let schema :=
    match schema with
    | VDict d => if dict_mem (lit "$schema") d then VDict (dict_del (lit "$schema") d)
                 else schema
    | _ => schema
    end in
  MkToolInfo (tool_name tool) (tool_description tool) schema.

Definition list_all_tools (self : t) : gmap Z (list ToolInfo) :=
  omap (fun connection =>
          if ServerStatus_eqb (MCPServerConnection.status connection) CONNECTED
          then Some (map tool_info (MCPServerConnection.available_tools connection))
          else None)
       (connections self).

End MCPConnectionManager.

(** ** [app/ollama/models.py]

    Fields that hold floating-point durations ([response_time],
    [execution_time]) and fields that the modelled code never fills in
    are left out. Clock readings ([datetime.utcnow()]) are integers, in
    seconds, handed to each function as [now]. *)

Inductive Role : Type := system | user | assistant.

Definition Role_str (r : Role) : str :=
  match r with
  | system => lit "system"
  | user => lit "user"
  | assistant => lit "assistant"
  end.

Definition is_system (r : Role) : bool :=
  match r with system => true | _ => false end.

Record ToolCall : Type := MkToolCall {
  tc_tool : str;
  tc_arguments : list (str * value);
  tc_id : option str
}.

Record ConversationMessage : Type := MkMessage {
  role : Role;
  content : str;
  timestamp : Z;
  tool_calls : option (list ToolCall)
}.

Record ToolResult : Type := MkToolResult {
  tool : str;
  arguments : list (str * value);
  tr_result : value;
  tr_success : bool;
  tr_error : option str
}.

Record AgentResponse : Type := MkAgentResponse {
  ar_content : str;
  ar_tool_calls : option (list ToolCall);
  model_used : str
}.

Record ModelCapability : Type := MkCapability {
  has_json_mode : bool;
  supports_tools : bool;
  context_length : option Z
}.

(** [ModelCapability()] *)
Definition default_capability : ModelCapability :=
  MkCapability false false None.

(** [ToolCall.dict()] *)
Definition ToolCall_dict (tc : ToolCall) : value :=
  VDict [(lit "tool", VStr (tc_tool tc));
         (lit "arguments", VDict (tc_arguments tc));
         (lit "id", match tc_id tc with Some i => VStr i | None => VNone end)].

(** Substring test [p in s], and lower-casing of the ASCII letters. The
    keywords searched in a lower-cased message are ASCII words. *)
Fixpoint starts_with (p s : str) : bool :=
  match p, s with
  | [], _ => true
  | _ :: _, [] => false
  | a :: p', b :: s' => N.eqb a b && starts_with p' s'
  end.

Fixpoint contains (p s : str) : bool :=
  starts_with p s ||
  match s with
  | [] => false
  | _ :: s' => contains p s'
  end.

Definition lower (s : str) : str :=
  map (fun c => if (N.leb 65 c && N.leb c 90)%bool then (c + 32)%N else c) s.

(** ** [app/ollama/manager.py] *)

Module OllamaModelManager.

(** [models.ConversationContext] *)
Record ConversationContext : Type := MkContext {
  messages : list ConversationMessage;
  system_prompt : option str;
  model : str;
  max_context_length : Z
}.

Record t : Type := Mk {
  model_capabilities : gmap str ModelCapability;
  active_conversations : gmap str ConversationContext
}.

Definition set_messages (c : ConversationContext) (l : list ConversationMessage)
  : ConversationContext :=
  MkContext l (system_prompt c) (model c) (max_context_length c).

Definition add_message (now : Z) (self : t) (conversation_id : str)
    (r : Role) (text : str) (calls : option (list ToolCall)) : t :=
  match active_conversations self !! conversation_id with
  | Some context =>
      let message := MkMessage r text now calls in
      Mk (model_capabilities self)
         (<[conversation_id := set_messages context (messages context ++ [message])]>
            (active_conversations self))
  | None => self
  end.

Definition empty_response (m : str) : AgentResponse :=
  MkAgentResponse (lit "I apologize, but I received an empty response.") None m.

Definition parse_tool_call (tc : ChatToolCall) : option ToolCall :=
  match tc_function tc with
  | Some func =>
      Some (MkToolCall (default [] (fn_name func))
                       (default [] (fn_arguments func))
                       (Some (str_of_int (default 0 (fn_index func)))))
  | None => None
  end.

Definition _parse_chat_response (response : ChatResult) (m : str) : AgentResponse :=
  match chat_message response with
  | None => empty_response m
  | Some message =>
      let calls := omap parse_tool_call (msg_tool_calls message) in
      MkAgentResponse (default [] (msg_content message))
        (match calls with [] => None | _ => Some calls end) m
  end.

Definition keywords : list str :=
  map lit ["list"; "show"; "which"; "what"; "folders"; "directories"; "files";
           "read"; "write"; "git"; "create"; "delete"; "search"]%string.

Definition needs_tools (user_message : str) : bool :=
  existsb (fun keyword => contains keyword (lower user_message)) keywords.

Definition has_path (user_message : str) : bool :=
  contains (lit "/") user_message.

Definition no_len : exn :=
  Exn TypeError (lit "object of type 'NoneType' has no len()").
Definition not_iterable : exn :=
  Exn TypeError (lit "'NoneType' object is not iterable").

Definition has_calls (r : AgentResponse) : bool :=
  match ar_tool_calls r with
  | Some (_ :: _) => true
  | _ => false
  end.

(** The [try] block of [generate_response], from the point where the
    user message is in the context. The log lines matter where they can
    raise: [len(system_prompt)] of a missing prompt, and the list of the
    available tools that is printed when a reply without tool calls
    answers a message that looks like a file request. *)
Definition generate (env : Env) (now : Z) (tr : Trace) (self : t)
    (conversation_id : str) (context : ConversationContext)
    (user_message : str) (available_tools : option (list value))
  : (exn + AgentResponse) * t * Trace :=
  match system_prompt context with
  | None => (inl no_len, self, tr)
  | Some prompt =>
      let head :=
        match prompt with
        | [] => []
        | _ => [MkChatMessage (lit "system") prompt]
        end in
      let history :=
        map (fun msg => MkChatMessage (Role_str (role msg)) (content msg))
            (removelast (messages context)) in
      let chat := head ++ history ++ [MkChatMessage (lit "user") user_message] in
      let capable :=
        supports_tools
          (default default_capability (model_capabilities self !! model context)) in
      let tools_for_ollama :=
        match available_tools with
        | Some (tl :: tls) => if capable then available_tools else None
        | _ => None
        end in
      let tr1 := tr ++ [ChatCompletion (model context) chat tools_for_ollama] in
      match chat_completion env tr (model context) chat tools_for_ollama with
      | inl e => (inl e, self, tr1)
      | inr response =>
          let agent_response := _parse_chat_response response (model context) in
          if (needs_tools user_message && has_path user_message
              && negb (has_calls agent_response))%bool
             && negb (bool_decide (is_Some available_tools))
          then (inl not_iterable, self, tr1)
          else
            (inr agent_response,
             add_message now self conversation_id assistant
               (ar_content agent_response) (ar_tool_calls agent_response),
             tr1)
      end
  end.

Definition apology (e : exn) (m : str) : AgentResponse :=
  MkAgentResponse
    (lit "I apologize, but I encountered an error while generating a response: "
       ++ exn_str e)
    None m.

Definition conversation_not_found (conversation_id : str) : exn :=
  Exn ValueError (lit "Conversation " ++ conversation_id ++ lit " not found").

Definition generate_response (env : Env) (now : Z) (tr : Trace) (self : t)
    (conversation_id : str) (user_message : str)
    (available_tools : option (list value))
  : (exn + AgentResponse) * t * Trace :=
  match active_conversations self !! conversation_id with
  | None => (inl (conversation_not_found conversation_id), self, tr)
  | Some context =>
      let self := add_message now self conversation_id user user_message None in
      let context :=
        set_messages context
          (messages context ++ [MkMessage user user_message now None]) in
      match generate env now tr self conversation_id context
              user_message available_tools with
      | (inr agent_response, self, tr1) => (inr agent_response, self, tr1)
      | (inl e, self, tr1) => (inr (apology e (model context)), self, tr1)
      end
  end.

End OllamaModelManager.

(** ** [app/ollama/service.py] *)

Module OllamaService.

Record t : Type := Mk {
  manager : OllamaModelManager.t;
  is_initialized : bool
}.

(** [HTTPException(status_code, detail)]; its text is
    ["{status_code}: {detail}"]. *)
Definition http_exception (status_code : Z) (detail : str) : exn :=
  Exn (HTTPException status_code) (str_of_int status_code ++ lit ": " ++ detail).

(** [check_initialized] *)
Definition not_initialized : exn :=
  http_exception 503
    (lit "Ollama service is not initialized. Please make sure Ollama is running.").

(** The dictionary that [send_message] returns: [tool_calls] and
    [requires_tool_execution] are set together, when the reply carries
    tool calls. *)
Record SendResult : Type := MkSendResult {
  sr_conversation_id : str;
  sr_response : AgentResponse;
  sr_tool_calls : option (list ToolCall)
}.

Definition send_message (env : Env) (now : Z) (tr : Trace) (self : t)
    (conversation_id message : str) (available_tools : option (list value))
  : (exn + SendResult) * t * Trace :=
  if negb (is_initialized self) then (inl not_initialized, self, tr)
  else
    match OllamaModelManager.generate_response env now tr (manager self)
            conversation_id message available_tools with
    | (inr response, m, tr1) =>
        (inr (MkSendResult conversation_id response
                (match ar_tool_calls response with
                 | Some (c :: cs) => Some (c :: cs)
                 | _ => None
                 end)),
         Mk m (is_initialized self), tr1)
    | (inl e, m, tr1) =>
        (inl (if is_ValueError e
              then http_exception 404 (exn_str e)
              else http_exception 500 (lit "Failed to send message: " ++ exn_str e)),
         Mk m (is_initialized self), tr1)
    end.

Definition delete_conversation (self : t) (conversation_id : str) : (exn + str) * t :=
  if negb (is_initialized self) then (inl not_initialized, self)
  else
    match OllamaModelManager.active_conversations (manager self) !! conversation_id with
    | Some _ =>
        (inr (lit "Conversation " ++ conversation_id ++ lit " deleted successfully"),
         Mk (OllamaModelManager.Mk
               (OllamaModelManager.model_capabilities (manager self))
               (delete conversation_id
                  (OllamaModelManager.active_conversations (manager self))))
            (is_initialized self))
    | None =>
        (inl (http_exception 404
                (lit "Conversation " ++ conversation_id ++ lit " not found")),
         self)
    end.

End OllamaService.

(** ** [app/agent/service.py]: the state of one conversation *)

(** [collections.deque(maxlen=n)]: appending to a full deque drops the
    element at the other end. *)
Record deque (A : Type) : Type := MkDeque {
  items : list A;
  maxlen : nat
}.
Arguments MkDeque {A} items maxlen.
Arguments items {A} d.
Arguments maxlen {A} d.

Definition deque_new {A} (n : nat) : deque A := MkDeque [] n.

Definition deque_append {A} (d : deque A) (x : A) : deque A :=
  let l := items d ++ [x] in
  MkDeque (if (maxlen d <? length l)%nat then tail l else l) (maxlen d).

(** The tool dictionary that [refresh_mcp_tools] builds; [server_id] is
    optional because the dispatch tests it against [None]. *)
Record AgentTool : Type := MkAgentTool {
  at_name : str;
  at_description : value;
  inputSchema : value;
  at_server_id : option Z;
  server_name : str;
  key : str
}.

Definition MAX_CONVERSATIONS : nat := 1000.
Definition MAX_MESSAGES_PER_CONVERSATION : nat := 500.
Definition MAX_CONVERSATION_AGE_HOURS : Z := 24.
Definition MAX_TOOL_EXECUTION_TIME : Z := 60.

Module ConversationContext.

Record t : Type := Mk {
  conversation_id : str;
  ollama_conversation_id : str;
  model : str;
  system_prompt : option str;
  available_tools : list AgentTool;
  messages : deque ConversationMessage;
  tool_results : deque ToolResult;
  created_at : Z;
  updated_at : Z
}.

(** [__init__] *)
Definition init (cid ocid m : str) (prompt : option str)
    (tools : list AgentTool) (created updated : Z) : t :=
  Mk cid ocid m prompt tools
     (deque_new MAX_MESSAGES_PER_CONVERSATION) (deque_new 100) created updated.

Definition set_messages (self : t) (d : deque ConversationMessage) : t :=
  Mk (conversation_id self) (ollama_conversation_id self) (model self)
     (system_prompt self) (available_tools self) d
     (tool_results self) (created_at self) (updated_at self).

Definition set_tool_results (self : t) (d : deque ToolResult) : t :=
  Mk (conversation_id self) (ollama_conversation_id self) (model self)
     (system_prompt self) (available_tools self) (messages self)
     d (created_at self) (updated_at self).

Definition set_updated_at (self : t) (now : Z) : t :=
  Mk (conversation_id self) (ollama_conversation_id self) (model self)
     (system_prompt self) (available_tools self) (messages self)
     (tool_results self) (created_at self) now.

Definition add_message (now : Z) (self : t) (r : Role) (text : str) : t :=
  let message := MkMessage r text now None in
  set_updated_at (set_messages self (deque_append (messages self) message)) now.

Definition add_tool_result (now : Z) (self : t) (r : ToolResult) : t :=
  set_updated_at (set_tool_results self (deque_append (tool_results self) r)) now.

Definition get_message_count (self : t) : nat :=
  length (items (messages self)).

End ConversationContext.

(** ** [app/agent/service.py]: the agent service *)

Module AgentService.

Record t : Type := Mk {
  active_conversations : gmap str ConversationContext.t;
  (** tool key to tool, in insertion order *)
  available_tools : list (str * AgentTool)
}.

Definition update_context (self : t) (cid : str)
    (f : ConversationContext.t -> ConversationContext.t) : t :=
  Mk (alter f cid (active_conversations self)) (available_tools self).

(** *** The periodic sweep *)

Definition expired (now : Z) (context : ConversationContext.t) : bool :=
  MAX_CONVERSATION_AGE_HOURS * 3600 <? now - ConversationContext.updated_at context.

(** [system_messages + recent_messages] *)
Definition trim_messages (l : list ConversationMessage) : list ConversationMessage :=
  List.filter (fun msg => is_system (role msg)) l
  ++ drop (length l - MAX_MESSAGES_PER_CONVERSATION) l.

(** The body of the first loop for one conversation: nothing for an
    expired one (it is removed by the second loop), and a trim for a
    history of more than [MAX_MESSAGES_PER_CONVERSATION] messages. *)
Definition sweep_context (now : Z) (context : ConversationContext.t)
  : ConversationContext.t :=
  if expired now context then context
  else
    let d := ConversationContext.messages context in
    if (MAX_MESSAGES_PER_CONVERSATION <? length (items d))%nat
    then ConversationContext.set_messages context
           (MkDeque (trim_messages (items d)) (maxlen d))
    else context.

(** The expired conversations. The stores that result from removing
    them do not depend on the order in which they are taken. *)
Definition conversations_to_remove (now : Z)
    (convs : gmap str ConversationContext.t) : list str :=
  omap (fun kv => if expired now (snd kv) then Some (fst kv) else None)
       (map_to_list convs).

(** The body of the second loop: pop, then a close of the Ollama
    conversation whose failure is only logged. *)
Definition remove_old (acc : t * OllamaService.t) (conv_id : str)
  : t * OllamaService.t :=
  let '(self, ollama) := acc in
  match active_conversations self !! conv_id with
  | Some context =>
      (Mk (delete conv_id (active_conversations self)) (available_tools self),
       snd (OllamaService.delete_conversation ollama
              (ConversationContext.ollama_conversation_id context)))
  | None => acc
  end.

Definition _cleanup_old_conversations (now : Z) (self : t) (ollama : OllamaService.t)
  : t * OllamaService.t :=
  let to_remove := conversations_to_remove now (active_conversations self) in
  let self := Mk (sweep_context now <$> active_conversations self)
                 (available_tools self) in
  foldl remove_old (self, ollama) to_remove.

(** *** The tool registry *)

Definition formatted_tool (sid : Z) (server : str)
    (tool : MCPConnectionManager.ToolInfo) : AgentTool :=
  MkAgentTool (MCPConnectionManager.ti_name tool)
    (MCPConnectionManager.ti_description tool)
    (MCPConnectionManager.input_schema tool)
    (Some sid) server
    (str_of_int sid ++ lit "_" ++ MCPConnectionManager.ti_name tool).

(** [refresh_mcp_tools], as far as [available_tools] goes. The servers
    are taken in the order in which the map enumerates them (the source
    takes them in the order of registration, see
    [refresh_mcp_tools_in]); the order only matters when two servers
    offer a tool of the same name. *)
Definition refresh_mcp_tools (mgr : MCPConnectionManager.t) (self : t) : t :=
  let tools :=
    flat_map
      (fun entry : Z * list MCPConnectionManager.ToolInfo =>
         match MCPConnectionManager.connections mgr !! fst entry with
         | Some connection =>
             if ServerStatus_eqb (MCPServerConnection.status connection) CONNECTED
             then map (formatted_tool (fst entry)
                         (name (MCPServerConnection.config connection)))
                      (snd entry)
             else []
         | None => []
         end)
      (map_to_list (MCPConnectionManager.list_all_tools mgr)) in
  Mk (active_conversations self)
     (foldl (fun d tool => dict_set (key tool) tool d) [] tools).

(** [refresh_mcp_tools] with the servers taken in the order [ids]. The
    source takes them in the order in which [self.connections] was
    filled (a Python dictionary keeps the order of insertion), which
    the map of the connection registry does not record: [ids] stands
    for the ids of the registry in that order. *)
Definition refresh_mcp_tools_in (ids : list Z) (mgr : MCPConnectionManager.t)
    (self : t) : t :=
  let all_tools := MCPConnectionManager.list_all_tools mgr in
  let tools :=
    flat_map
      (fun server_id : Z =>
         match all_tools !! server_id with
         | Some server_tools =>
             match MCPConnectionManager.connections mgr !! server_id with
             | Some connection =>
                 if ServerStatus_eqb (MCPServerConnection.status connection)
                      CONNECTED
                 then map (formatted_tool server_id
                             (name (MCPServerConnection.config connection)))
                          server_tools
                 else []
             | None => []
             end
         | None => []
         end)
      ids in
  Mk (active_conversations self)
     (foldl (fun d tool => dict_set (key tool) tool d) [] tools).

(** *** Tool schemas for the chat request *)

(** [if isinstance(parameters, dict) and k in parameters: copy; del] *)
Definition strip_key (k : str) (parameters : value) : value :=
  match parameters with
  | VDict d => if dict_mem k d then VDict (dict_del k d) else parameters
  | _ => parameters
  end.

Definition openai_tool (tool_name : str) (description parameters : value) : value :=
  VDict [(lit "type", VStr (lit "function"));
         (lit "function",
          VDict [(lit "name", VStr tool_name);
                 (lit "description", description);
                 (lit "parameters", parameters)])].

Definition _convert_mcp_tool_to_openai (tool : AgentTool) : value :=
  let parameters := inputSchema tool in
  let parameters := strip_key (lit "$schema") parameters in
  let parameters := strip_key (lit "additionalProperties") parameters in
  openai_tool (at_name tool) (at_description tool) parameters.

Definition get_tools_in_openai_format (self : t) : list value :=
  match available_tools self with
  | [] => []
  | tools => map (fun kv => _convert_mcp_tool_to_openai (snd kv)) tools
  end.

(** [input_schema.dict()] of a model, the dictionary itself, or [{}]. *)
Definition schema_dict (input_schema : value) : list (str * value) :=
  match input_schema with
  | VModel fields => fields
  | VDict d => d
  | _ => []
  end.

Definition ensure_required (cleaned : list (str * value)) : list (str * value) :=
  match dict_get (lit "required") cleaned with
  | Some (VList _) => cleaned
  | _ => dict_set (lit "required") (VList []) cleaned
  end.

Definition ensure_properties (cleaned : list (str * value)) : list (str * value) :=
  if dict_mem (lit "properties") cleaned then cleaned
  else dict_set (lit "properties") (VDict []) cleaned.

Definition clean_schema (input_schema : value) : list (str * value) :=
  let cleaned := schema_dict input_schema in
  let cleaned := dict_del (lit "$schema") cleaned in
  let cleaned := dict_del (lit "additionalProperties") cleaned in
  ensure_properties (ensure_required cleaned).

(** Nothing in the body of its [try] block raises for the tool
    dictionaries of the registry, so the fallback entry of the handler
    does not appear. *)
Definition _convert_to_openai_format (mcp_tools : list AgentTool) : list value :=
  map (fun tool =>
         openai_tool (at_name tool) (at_description tool)
           (VDict (clean_schema (inputSchema tool))))
      mcp_tools.

(** [tool["function"]["parameters"]] of a converted tool. *)
Definition parameters_of (tool : value) : option (list (str * value)) :=
  match tool with
  | VDict d =>
      match dict_get (lit "function") d with
      | Some (VDict f) =>
          match dict_get (lit "parameters") f with
          | Some (VDict p) => Some p
          | _ => None
          end
      | _ => None
      end
  | _ => None
  end.

(** *** Executing the tool calls of a reply *)

Definition fmt_opt (o : option str) : str := default (lit "None") o.

(** The loop of [_execute_tool_calls] searches the registry in insertion
    order and stops at the first tool of that name. *)
Definition find_tool (self : t) (tool_name : str) : option AgentTool :=
  snd <$> List.find (fun kv => str_eqb (at_name (snd kv)) tool_name)
                    (available_tools self).

(** The fallback chain that turns a raw tool payload into what is shown. *)
Definition display_result (env : Env) (tool_result : value) : value :=
  match tool_result with
  | VDict d =>
      match dict_get (lit "content") d with
      | Some c => c
      | None =>
          match dict_get (lit "data") d with
          | Some x => x
          | None => VStr (py_str env tool_result)
          end
      end
  | VModel fields =>
      match dict_get (lit "content") fields with
      | Some c => VStr (py_str env c)
      | None => VStr (py_str env tool_result)
      end
  | _ => VStr (py_str env tool_result)
  end.

(** [asyncio.wait_for(coro, timeout)]: a call that does not complete in
    time is cancelled and [TimeoutError] is raised in its place. *)
Definition wait_for {A} (r : res A) : exn + A :=
  match r with
  | Ret a => inr a
  | Raise e => inl e
  | Pending => inl (Exn TimeoutError [])
  end.

Definition is_timeout (e : exn) : bool :=
  match exn_cls e with TimeoutError => true | _ => false end.

(** The branch that sends a resolved call to the connection registry. *)
Definition dispatch (env : Env) (tr : Trace) (mgr : MCPConnectionManager.t)
    (tool_info : AgentTool) (tool_name : str) (args : list (str * value))
  : ToolResult * Trace :=
  match at_server_id tool_info with
  | Some sid =>
      let execution_request := MkRequest sid tool_name args in
      let '(r, tr1) := MCPConnectionManager.execute_tool env tr mgr execution_request in
      match wait_for r with
      | inr execution_result =>
          if success execution_result then
            (MkToolResult tool_name args
               (display_result env (result execution_result)) true None, tr1)
          else
            let error_msg := error execution_result in
            (MkToolResult tool_name args
               (VStr (lit "MCP tool execution failed: " ++ fmt_opt error_msg))
               false error_msg, tr1)
      | inl e =>
          if is_timeout e then
            (MkToolResult tool_name args
               (VStr (lit "Tool execution timed out after "
                        ++ str_of_int MAX_TOOL_EXECUTION_TIME ++ lit " seconds"))
               false (Some (lit "Tool execution timeout")), tr1)
          else
            (MkToolResult tool_name args
               (VStr (lit "Error executing tool via MCP: " ++ exn_str e))
               false (Some (exn_str e)), tr1)
      end
  | None =>
      (MkToolResult tool_name args
         (VStr (lit "Error: Tool '" ++ tool_name ++ lit "' has no server_id configured"))
         false
         (Some (lit "No server ID configured - tool discovery may be incomplete")),
       tr)
  end.

(** What one iteration of the loop does with a call. *)
Inductive step : Type :=
| Skipped (r : ToolResult)    (* appended to the results, then [continue] *)
| Executed (r : ToolResult)   (* appended, and added to the conversation *)
| Escaped.                    (* an exception left the loop *)

Definition invalid_format : ToolResult :=
  MkToolResult (lit "invalid") [] (VStr (lit "Error: Invalid tool call format"))
    false (Some (lit "Invalid tool call format")).

Definition invalid_name (args : list (str * value)) : ToolResult :=
  MkToolResult (lit "invalid") args
    (VStr (lit "Error: Tool name is required and must be a string"))
    false (Some (lit "Invalid tool name")).

Definition invalid_arguments (tool_name : str) : ToolResult :=
  MkToolResult tool_name []
    (VStr (lit "Error: Tool arguments must be a dictionary"))
    false (Some (lit "Invalid tool arguments")).

Definition not_found (tool_name : str) (args : list (str * value)) : ToolResult :=
  MkToolResult tool_name args
    (VStr (lit "Error: Tool '" ++ tool_name ++ lit "' not found in available tools"))
    false (Some (lit "Tool not found")).

(** [ToolResult] declares [arguments: Dict[str, Any]]: building one from
    arguments that are not a dictionary is refused by the model class,
    and nothing inside the loop handles that exception. This is the case
    of an invalid name that comes with such arguments. *)
Definition execute_one (env : Env) (tr : Trace) (self : t)
    (mgr : MCPConnectionManager.t) (tool_call : value) : step * Trace :=
  match tool_call with
  | VDict d =>
      let tool_name := dict_get (lit "tool") d in
      let args := default (VDict []) (dict_get (lit "arguments") d) in
      match tool_name with
      | Some (VStr (c :: cs)) =>
          let tool_name := c :: cs in
          match args with
          | VDict a =>
              match find_tool self tool_name with
              | None => (Executed (not_found tool_name a), tr)
              | Some tool_info =>
                  let '(r, tr1) := dispatch env tr mgr tool_info tool_name a in
                  (Executed r, tr1)
              end
          | _ => (Skipped (invalid_arguments tool_name), tr)
          end
      | _ =>
          match args with
          | VDict a => (Skipped (invalid_name a), tr)
          | _ => (Escaped, tr)
          end
      end
  | _ => (Skipped invalid_format, tr)
  end.

(** The [for] loop; [None] when an exception left it. *)
Fixpoint execute_loop (env : Env) (now : Z) (tr : Trace) (self : t)
    (mgr : MCPConnectionManager.t) (cid : str)
    (tool_calls : list value) (results : list ToolResult)
  : option (list ToolResult) * t * Trace :=
  match tool_calls with
  | [] => (Some results, self, tr)
  | tool_call :: rest =>
      match execute_one env tr self mgr tool_call with
      | (Skipped r, tr1) =>
          execute_loop env now tr1 self mgr cid rest (results ++ [r])
      | (Executed r, tr1) =>
          let self :=
            update_context self cid
              (fun context => ConversationContext.add_tool_result now context r) in
          execute_loop env now tr1 self mgr cid rest (results ++ [r])
      | (Escaped, tr1) => (None, self, tr1)
      end
  end.

(** The handler around the loop logs the exception and returns [[]]. *)
Definition _execute_tool_calls (env : Env) (now : Z) (tr : Trace) (self : t)
    (mgr : MCPConnectionManager.t) (cid : str) (tool_calls : list value)
  : list ToolResult * t * Trace :=
  let '(r, self, tr1) := execute_loop env now tr self mgr cid tool_calls [] in
  (default [] r, self, tr1).

(** *** The follow-up request *)

Definition nl : str := [10%N].
(** U+2705 and U+274C, the two marks of the status text. *)
Definition success_status : str := 9989%N :: lit " Success".
Definition failed_status : str := 10060%N :: lit " Failed".

Definition truncate (result_text : str) : str :=
  if (500 <? length result_text)%nat
  then take 500 result_text ++ lit "... (truncated)"
  else result_text.

(** What one iteration of the loop adds to [tool_results_message]. *)
Definition result_lines (env : Env) (i : Z) (r : ToolResult) : str :=
  let status := if tr_success r then success_status else failed_status in
  (str_of_int i ++ lit ". " ++ tool r ++ lit ": " ++ status ++ nl)
  ++ (if tr_success r
      then lit "   Result: " ++ truncate (py_str env (tr_result r)) ++ nl
      else lit "   Error: " ++ fmt_opt (tr_error r) ++ nl)
  ++ nl.

(** [for i, result in enumerate(tool_results, 1)] *)
Fixpoint message_loop (env : Env) (i : Z) (tool_results : list ToolResult)
    (tool_results_message : str) : str :=
  match tool_results with
  | [] => tool_results_message
  | r :: rest =>
      message_loop env (i + 1) rest (tool_results_message ++ result_lines env i r)
  end.

Definition tool_results_message (env : Env) (tool_results : list ToolResult) : str :=
  message_loop env 1 tool_results (lit "Tool execution completed. Results:" ++ nl).

Definition followup_message (env : Env) (tool_results : list ToolResult) : str :=
  lit "Please respond to the user based on these tool results:" ++ nl ++ nl
  ++ tool_results_message env tool_results.

(** The three dictionaries that [_get_followup_response] can return. *)
Inductive Followup : Type :=
| FollowupResponse (response : OllamaService.SendResult)
| FollowupNotFound
| FollowupError (text : str).

Definition followup_content (f : Followup) : str :=
  match f with
  | FollowupResponse response => ar_content (OllamaService.sr_response response)
  | FollowupNotFound => lit "Conversation not found"
  | FollowupError text => text
  end.

Definition _get_followup_response (env : Env) (now : Z) (tr : Trace) (self : t)
    (ollama : OllamaService.t) (cid : str) (tool_results : list ToolResult)
  : Followup * OllamaService.t * Trace :=
  match active_conversations self !! cid with
  | None => (FollowupNotFound, ollama, tr)
  | Some context =>
      match OllamaService.send_message env now tr ollama
              (ConversationContext.ollama_conversation_id context)
              (followup_message env tool_results) None with
      | (inr response, ollama1, tr1) => (FollowupResponse response, ollama1, tr1)
      | (inl e, ollama1, tr1) =>
          (FollowupError
             (lit "I encountered an error while processing the tool results: "
                ++ exn_str e),
           ollama1, tr1)
      end
  end.

(** *** One message turn *)

Record TurnResult : Type := MkTurn {
  turn_conversation_id : str;
  turn_response : OllamaService.SendResult;
  followup_response : option Followup;
  turn_tool_results : list ToolResult;
  has_tool_calls : bool
}.

Definition conversation_not_found (cid : str) : exn :=
  Exn ValueError (lit "Conversation " ++ cid ++ lit " not found").

Definition send_message (env : Env) (now : Z) (tr : Trace) (self : t)
    (ollama : OllamaService.t) (mgr : MCPConnectionManager.t)
    (cid message : str)
  : (exn + TurnResult) * t * OllamaService.t * Trace :=
  match active_conversations self !! cid with
  | None => (inl (conversation_not_found cid), self, ollama, tr)
  | Some context =>
      let tools_for_message :=
        match available_tools self with
        | [] => None
        | _ => Some (get_tools_in_openai_format self)
        end in
      match OllamaService.send_message env now tr ollama
              (ConversationContext.ollama_conversation_id context)
              message tools_for_message with
      | (inl e, ollama1, tr1) => (inl e, self, ollama1, tr1)
      | (inr response, ollama1, tr1) =>
          let self :=
            update_context self cid
              (fun c => ConversationContext.set_updated_at c now) in
          let '(tool_results, followup, self, ollama2, tr2) :=
            match OllamaService.sr_tool_calls response with
            | Some calls =>
                let '(tool_results, self, tr2) :=
                  _execute_tool_calls env now tr1 self mgr cid
                    (map ToolCall_dict calls) in
                match tool_results with
                | [] => ([], None, self, ollama1, tr2)
                | _ =>
                    let '(f, ollama2, tr3) :=
                      _get_followup_response env now tr2 self ollama1 cid
                        tool_results in
                    (tool_results, Some f, self, ollama2, tr3)
                end
            | None => ([], None, self, ollama1, tr1)
            end in
          let self :=
            update_context self cid
              (fun c =>
                 ConversationContext.add_message now
                   (ConversationContext.add_message now c user message)
                   assistant (ar_content (OllamaService.sr_response response))) in
          (inr (MkTurn cid response followup tool_results
                  (bool_decide (is_Some (OllamaService.sr_tool_calls response)))),
           self, ollama2, tr2)
      end
  end.

(** *** Deleting a conversation *)

Definition delete_conversation (self : t) (ollama : OllamaService.t) (cid : str)
  : bool * t * OllamaService.t :=
  match active_conversations self !! cid with
  | None => (false, self, ollama)
  | Some context =>
      match OllamaService.delete_conversation ollama
              (ConversationContext.ollama_conversation_id context) with
      | (inr _, ollama1) =>
          (true,
           Mk (delete cid (active_conversations self)) (available_tools self),
           ollama1)
      | (inl _, ollama1) => (false, self, ollama1)
      end
  end.

End AgentService.

(** ** The life of one conversation

    What can happen to the history of a stored conversation: a message is
    added, or the periodic sweep passes (which removes the conversation
    when it is too old and otherwise runs the trimming test on it). *)

Module History.

Inductive action : Type :=
| AddMessage (now : Z) (r : Role) (text : str)
| ReapPass (now : Z).

(** [None]: the conversation has been removed from the store. *)
Definition act (c : option ConversationContext.t) (a : action)
  : option ConversationContext.t :=
  match c, a with
  | None, _ => None
  | Some c, AddMessage now r text =>
      Some (ConversationContext.add_message now c r text)
  | Some c, ReapPass now =>
      if AgentService.expired now c then None
      else Some (AgentService.sweep_context now c)
  end.

(** The messages that were added, oldest first. *)
Definition added (l : list action) : list ConversationMessage :=
  omap (fun a =>
          match a with
          | AddMessage now r text => Some (MkMessage r text now None)
          | ReapPass _ => None
          end) l.

(** [l[-n:]] for a positive [n]. *)
Definition last_n {A} (n : nat) (l : list A) : list A :=
  drop (length l - n) l.

End History.

(** ** Tool calls and their results

    What the statements about [_execute_tool_calls] speak of: the name
    and arguments under which the result of a call is filed, and the
    requests that reach a tool server. *)

Module Calls.

Definition signature (tc : ToolCall) : str * list (str * value) :=
  (tc_tool tc, tc_arguments tc).

(** A call without a tool name is filed under ["invalid"]. *)
Definition filed_as (tc : ToolCall) : str :=
  match tc_tool tc with
  | [] => lit "invalid"
  | n => n
  end.

(** [r] is the result of the call [tc]. *)
Definition answers (tc : ToolCall) (r : ToolResult) : Prop :=
  tool r = filed_as tc /\ arguments r = tc_arguments tc.

(** The tool name of a call, when it is a non-empty string. *)
Definition valid_name (d : list (str * value)) : option str :=
  match dict_get (lit "tool") d with
  | Some (VStr (c :: cs)) => Some (c :: cs)
  | _ => None
  end.

Definition arguments_of (d : list (str * value)) : value :=
  default (VDict []) (dict_get (lit "arguments") d).

(** The same for a call of any shape, as the validation files it. *)
Definition filed (call : value) : str * list (str * value) :=
  match call with
  | VDict d =>
      match valid_name d, arguments_of d with
      | Some n, VDict a => (n, a)
      | Some n, _ => (n, [])
      | None, VDict a => (lit "invalid", a)
      | None, _ => (lit "invalid", [])
      end
  | _ => (lit "invalid", [])
  end.

(** The calls that pass the validation. *)
Definition dispatched (call : value) : option (str * list (str * value)) :=
  match call with
  | VDict d =>
      match valid_name d, arguments_of d with
      | Some n, VDict a => Some (n, a)
      | _, _ => None
      end
  | _ => None
  end.

(** A dictionary with an invalid name and arguments that are not a
    dictionary: the one shape for which no result can be built. *)
Definition escapes (call : value) : bool :=
  match call with
  | VDict d =>
      match valid_name d, arguments_of d with
      | None, VDict _ => false
      | None, _ => true
      | Some _, _ => false
      end
  | _ => false
  end.

(** The tool and arguments of a request to a tool server. *)
Definition called (e : Event) : option (str * list (str * value)) :=
  match e with
  | SessionCallTool _ _ t a => Some (t, a)
  | _ => None
  end.

(** At most one request, for the tool [t] with the arguments [a]. *)
Definition one_request (t : str) (a : list (str * value)) (evs : Trace) : Prop :=
  evs = [] \/ exists c a', evs = [SessionCallTool c a' t a].

(** The result [r] shows an answer of a tool server: among the requests
    [evs] made after [tr] there is one for the tool and the arguments of
    [r], and what the server returned to it is what [r] displays. *)
Definition answered (env : Env) (tr evs : Trace) (r : ToolResult) : Prop :=
  exists evs0 evs1 cmd args v,
    evs = evs0 ++ SessionCallTool cmd args (tool r) (arguments r) :: evs1
    /\ session_call_tool env (tr ++ evs0) cmd args (tool r) (arguments r) = Ret v
    /\ tr_result r = AgentService.display_result env v.

(** The registry of the agent service has a tool of the name [n]. *)
Definition offered (self : AgentService.t) (n : str) : bool :=
  existsb (fun kv => str_eqb (at_name (snd kv)) n)
          (AgentService.available_tools self).

(** The call [tc] reaches a tool server: it names a tool, the first
    tool of that name in the registry of the agent service belongs to a
    server that the connection registry holds as [CONNECTED], with an
    open stdio session, and that server lists the tool. *)
Definition reaches (self : AgentService.t) (mgr : MCPConnectionManager.t)
    (tc : ToolCall) : bool :=
  match tc_tool tc with
  | [] => false
  | n =>
      match List.find (fun kv => str_eqb (at_name (snd kv)) n)
                      (AgentService.available_tools self) with
      | Some (_, tool_info) =>
          match at_server_id tool_info with
          | Some sid =>
              match MCPConnectionManager.connections mgr !! sid with
              | Some c =>
                  ServerStatus_eqb (MCPServerConnection.status c) CONNECTED
                  && MCPServerConnection.has_tool c n
                  && match MCPServerConnection.transport c with
                     | Some (Transports.MCPStdioTransport _ _ true) => true
                     | _ => false
                     end
              | None => false
              end
          | None => false
          end
      | None => false
      end
  end.

(** The result [r] is what the tool server made of the call [tc]: among
    the requests [evs] made after [tr] there is the request for the
    tool and the arguments of [tc], and [r] reports its outcome: the
    payload that the server returned, the error that it raised, or the
    time-out when it did not answer. *)
Definition served (env : Env) (tr evs : Trace) (tc : ToolCall) (r : ToolResult)
  : Prop :=
  exists evs0 evs1 cmd args,
    evs = evs0 ++ SessionCallTool cmd args (tc_tool tc) (tc_arguments tc) :: evs1
    /\ r = match session_call_tool env (tr ++ evs0) cmd args
                   (tc_tool tc) (tc_arguments tc) with
           | Ret v =>
               MkToolResult (tc_tool tc) (tc_arguments tc)
                 (AgentService.display_result env v) true None
           | Raise e =>
               MkToolResult (tc_tool tc) (tc_arguments tc)
                 (VStr (lit "MCP tool execution failed: " ++ exn_str e))
                 false (Some (exn_str e))
           | Pending =>
               MkToolResult (tc_tool tc) (tc_arguments tc)
                 (VStr (lit "Tool execution timed out after 60 seconds"))
                 false (Some (lit "Tool execution timeout"))
           end.

(** Of the results [rs] of the calls [calls], those of the calls that
    pass the validation. *)
Definition validated (calls : list value) (rs : list ToolResult) : list ToolResult :=
  omap (fun p : value * ToolResult =>
          match dispatched (fst p) with
          | Some _ => Some (snd p)
          | None => None
          end)
       (zip calls rs).

(** The result [r] reports a failure: it carries an error text and
    displays a message. *)
Definition refused (r : ToolResult) : Prop :=
  tr_success r = false /\ is_Some (tr_error r)
  /\ exists text, tr_result r = VStr text.

End Calls.

(** ** More of the registry: the health-check loop and the tool route *)

Module HealthMonitoring.

(** The body of the [for] loop of [_health_check_loop] for one
    connection: a probe for an enabled, connected server, and a fresh
    [connect] when the probe fails. *)
Definition check_connection (env : Env) (tr : Trace) (c : MCPServerConnection.t)
  : MCPServerConnection.t * Trace :=
  if (enabled (MCPServerConnection.config c)
      && ServerStatus_eqb (MCPServerConnection.status c) CONNECTED)%bool
  then
    let '(is_healthy, c1, tr1) := MCPServerConnection.health_check env tr c in
    if is_healthy then (c1, tr1)
    else
      let '(_, c2, tr2) := MCPServerConnection.connect env tr1 c1 in
      (c2, tr2)
  else (c, tr).

Definition check_server (env : Env) (acc : MCPConnectionManager.t * Trace) (sid : Z)
  : MCPConnectionManager.t * Trace :=
  let '(mgr, tr) := acc in
  match MCPConnectionManager.connections mgr !! sid with
  | Some c =>
      let '(c', tr') := check_connection env tr c in
      (MCPConnectionManager.Mk (<[sid := c']> (MCPConnectionManager.connections mgr)),
       tr')
  | None => acc
  end.

(** One iteration of the [while] loop, over the ids of the snapshot
    [list(self.connections.items())] in its order. *)
Definition _health_check_loop (env : Env) (tr : Trace) (mgr : MCPConnectionManager.t)
    (ids : list Z) : MCPConnectionManager.t * Trace :=
  foldl (check_server env) (mgr, tr) ids.

(** What closing the connection registered under [sid] asks of its
    transport. *)
Definition closing (mgr : MCPConnectionManager.t) (sid : Z) : Trace :=
  match MCPConnectionManager.connections mgr !! sid with
  | Some old =>
      match MCPServerConnection.transport old with
      | Some (Transports.MCPStdioTransport cmd a _) => [StdioClose cmd a]
      | _ => []
      end
  | None => []
  end.

End HealthMonitoring.

(** [app/api/tools.py] *)
Module ToolsRoute.

(** The route [POST /execute]: the dictionary of the registry becomes a
    [ToolExecutionResult], and so does any exception. *)
Definition execute_tool (env : Env) (tr : Trace) (mgr : MCPConnectionManager.t)
    (request : ToolExecutionRequest) : res ExecutionDict * Trace :=
  match MCPConnectionManager.execute_tool env tr mgr request with
  | (Ret r, tr1) => (Ret (MkExecution (success r) (result r) (error r)), tr1)
  | (Raise e, tr1) => (Ret (MkExecution false VNone (Some (exn_str e))), tr1)
  | (Pending, tr1) => (Pending, tr1)
  end.

End ToolsRoute.

(** ** More of the conversation state *)

Module ConversationViews.

(** [l[start:]] for an integer [start]: a negative one counts from the
    end and is clamped at the beginning. *)
Definition slice_from {A} (start : Z) (l : list A) : list A :=
  if start <? 0
  then drop (Z.to_nat (Z.max 0 (Z.of_nat (length l) + start))) l
  else drop (Z.to_nat start) l.

(** [get_recent_messages(limit)]: [list(self.messages)[-limit:]]. *)
Definition get_recent_messages (self : ConversationContext.t) (limit : option Z)
  : list ConversationMessage :=
  match limit with
  | None => items (ConversationContext.messages self)
  | Some n => slice_from (- n) (items (ConversationContext.messages self))
  end.

(** What can happen to the tool results of a stored conversation. *)
Definition record_all (now : Z) (c : ConversationContext.t) (rs : list ToolResult)
  : ConversationContext.t :=
  foldl (ConversationContext.add_tool_result now) c rs.

End ConversationViews.

(** ** More of [app/ollama/manager.py] *)

Module OllamaModels.

Inductive ModelFamily : Type :=
| LLAMA | MISTRAL | PHI | CODELLAMA | DEEPSEEK | QWEN | GEMMA | NEURAL.

(** The [if]/[elif] chain of [_detect_model_family] on a text that is
    already in lower case. *)
Definition family_of (text : str) : option ModelFamily :=
  if contains (lit "llama") text then Some LLAMA
  else if contains (lit "mistral") text then Some MISTRAL
  else if contains (lit "phi") text then Some PHI
  else if contains (lit "codellama") text then Some CODELLAMA
  else if contains (lit "deepseek") text then Some DEEPSEEK
  else if contains (lit "qwen") text then Some QWEN
  else if contains (lit "gemma") text then Some GEMMA
  else if contains (lit "neural") text then Some NEURAL
  else None.

(** The loop over [families]: in the source every branch returns, so a
    family that matches no keyword lets the loop go on. [str_lower] is
    the method [str.lower]. *)
Fixpoint first_family (str_lower : str -> str) (families : list str)
  : option ModelFamily :=
  match families with
  | [] => None
  | family :: rest =>
      match family_of (str_lower family) with
      | Some f => Some f
      | None => first_family str_lower rest
      end
  end.

(** [model_info] by the two keys that are read, [families] and [name]. *)
Definition _detect_model_family (str_lower : str -> str)
    (families : list str) (model_name : str) : option ModelFamily :=
  match first_family str_lower families with
  | Some f => Some f
  | None => family_of (str_lower model_name)
  end.

(** [messages_by_role[msg.role] = messages_by_role.get(msg.role, 0) + 1] *)
Definition count_role (d : list (str * nat)) (msg : ConversationMessage)
  : list (str * nat) :=
  dict_set (Role_str (role msg))
    (default 0%nat (dict_get (Role_str (role msg)) d) + 1)%nat d.

Definition messages_by_role (msgs : list ConversationMessage) : list (str * nat) :=
  foldl count_role [] msgs.

(** The dictionary of [get_conversation_stats]; [None] stands for the
    empty dictionary of an unknown conversation. *)
Record Stats : Type := MkStats {
  message_count : nat;
  stats_model : str;
  by_role : list (str * nat);
  has_system_prompt : bool;
  stats_max_context_length : Z
}.

Definition get_conversation_stats (self : OllamaModelManager.t) (cid : str)
  : option Stats :=
  match OllamaModelManager.active_conversations self !! cid with
  | None => None
  | Some context =>
      Some (MkStats (length (OllamaModelManager.messages context))
              (OllamaModelManager.model context)
              (messages_by_role (OllamaModelManager.messages context))
              (match OllamaModelManager.system_prompt context with
               | Some (_ :: _) => true
               | _ => false
               end)
              (OllamaModelManager.max_context_length context))
  end.

(** The number of messages of a role. *)
Definition role_eqb (a b : Role) : bool :=
  match a, b with
  | system, system | user, user | assistant, assistant => true
  | _, _ => false
  end.

Definition role_count (r : Role) (msgs : list ConversationMessage) : nat :=
  length (List.filter (fun msg => role_eqb (role msg) r) msgs).

(** The preferences that [create_conversation] falls back on. *)
Record ModelPreferences : Type := MkPreferences {
  default_model : str;
  pref_system_prompt : option str
}.

(** [x or y] for optional strings. *)
Definition str_or (x y : option str) : option str :=
  match x with
  | Some (_ :: _) => x
  | _ => y
  end.

Definition create_conversation (preferences : ModelPreferences)
    (self : OllamaModelManager.t) (cid : str) (m prompt : option str)
  : OllamaModelManager.ConversationContext * OllamaModelManager.t :=
  let m :=
    match m with
    | Some (c :: cs) => c :: cs
    | _ => default_model preferences
    end in
  let capability :=
    default default_capability (OllamaModelManager.model_capabilities self !! m) in
  let context :=
    OllamaModelManager.MkContext []
      (str_or prompt (pref_system_prompt preferences)) m
      (match context_length capability with
       | Some n => if n =? 0 then 4000 else n
       | None => 4000
       end) in
  (context,
   OllamaModelManager.Mk (OllamaModelManager.model_capabilities self)
     (<[cid := context]> (OllamaModelManager.active_conversations self))).

End OllamaModels.

(** ** Sample data for the closed statements *)

Module Sample.

Definition echo : Tool :=
  MkTool (lit "echo") (VStr (lit "Echo the input"))
    (VDict [(lit "type", VStr (lit "object")); (lit "properties", VDict [])]).

Definition str_of_value (v : value) : str :=
  match v with
  | VStr s => s
  | VInt z => str_of_int z
  | VNone => lit "None"
  | VBool true => lit "True"
  | VBool false => lit "False"
  | _ => lit "<object>"
  end.

Definition reply (text : str) : ChatResult :=
  MkChatResult (Some (MkChatResultMessage (Some text) [])).

(** Every request succeeds. *)
Definition env_ok : Env :=
  MkEnv (fun _ _ _ => None) (fun _ _ _ => None)
        (fun _ _ _ => inr [echo])
        (fun _ _ _ _ a => Ret (VDict [(lit "content", VDict a)]))
        (fun _ _ _ _ => inr (reply (lit "Hello")))
        str_of_value.

(** The tool-server session and the chat endpoint fail. *)
Definition env_down : Env :=
  MkEnv (fun _ _ _ => Some (Exn OtherException (lit "spawn failed")))
        (fun _ _ _ => None)
        (fun _ _ _ => inl (Exn OtherException (lit "closed")))
        (fun _ _ _ _ _ => Raise (Exn OtherException (lit "broken pipe")))
        (fun _ _ _ _ => inl (Exn (HTTPException 500)
                               (lit "500: Error generating chat response: refused")))
        str_of_value.

Definition files_config (on : bool) : MCPServerConfig :=
  MkConfig (lit "files") STDIO (Some (lit "mcp-files")) (Some []) None None
    30 3 on 1.

(** A connection to [files_config] after a successful [connect]. *)
Definition files_connected : MCPServerConnection.t :=
  snd (fst (MCPServerConnection.connect env_ok [] (MCPServerConnection.init (files_config true)))).

(** A conversation as [create_conversation] stores it, bound to the
    Ollama conversation [o1]. *)
Definition conversation : ConversationContext.t :=
  ConversationContext.init (lit "c1") (lit "o1") (lit "qwen2.5:latest") None [] 0 0.

Definition rules : ConversationMessage := MkMessage system (lit "rules") 0 None.

(** A system message followed by 499, then 500 user messages. *)
Definition full_history : list History.action :=
  History.AddMessage 0 system (lit "rules")
  :: repeat (History.AddMessage 1 user (lit "hi")) 499.

Definition long_history : list History.action :=
  full_history ++ [History.AddMessage 1 user (lit "hi")].

Definition short_history : list History.action :=
  [History.AddMessage 0 system (lit "rules");
   History.AddMessage 1 user (lit "hi");
   History.ReapPass 2].

(** The agent service with that conversation and the tool [echo] of
    server 1 in its registry. *)
Definition echo_tool : AgentTool :=
  MkAgentTool (lit "echo") (tool_description echo) (tool_inputSchema echo)
    (Some 1) (lit "files") (lit "1_echo").

Definition agent : AgentService.t :=
  AgentService.Mk {[ lit "c1" := conversation ]} [(lit "1_echo", echo_tool)].

Definition ollama_context : OllamaModelManager.ConversationContext :=
  OllamaModelManager.MkContext [] (Some (lit "You are a helpful AI assistant."))
    (lit "qwen2.5:latest") 8192.

Definition capabilities : gmap str ModelCapability :=
  {[ lit "qwen2.5:latest" := MkCapability true true (Some 8192) ]}.

(** The Ollama service, holding the conversation [o1] ... *)
Definition ollama : OllamaService.t :=
  OllamaService.Mk
    (OllamaModelManager.Mk capabilities {[ lit "o1" := ollama_context ]}) true.

(** ... and after [o1] was deleted through the Ollama endpoint. *)
Definition ollama_lost : OllamaService.t :=
  snd (OllamaService.delete_conversation ollama (lit "o1")).

Definition registry : MCPConnectionManager.t :=
  MCPConnectionManager.Mk {[ 1 := files_connected ]}.

End Sample.

(** ** Further sample data *)

Module Cases.

(** A bridge server reached over HTTP. *)
Definition bridge_config : MCPServerConfig :=
  MkConfig (lit "bridge") HTTP None None (Some (lit "http://localhost:9000/"))
    None 30 3 true 2.

(** A stdio server whose configuration lacks the command. *)
Definition broken_config : MCPServerConfig :=
  MkConfig (lit "broken") STDIO None (Some []) None None 30 3 true 3.

(** The session comes up, but it cannot list its tools. *)
Definition env_mute : Env :=
  MkEnv (fun _ _ _ => None) (fun _ _ _ => None)
        (fun _ _ _ => inl (Exn OtherException (lit "Method not found")))
        (fun _ _ _ _ _ => Raise (Exn OtherException (lit "Method not found")))
        (fun _ _ _ _ => inr (Sample.reply (lit "Hello")))
        Sample.str_of_value.

(** Tool calls do not complete. *)
Definition env_slow : Env :=
  MkEnv (fun _ _ _ => None) (fun _ _ _ => None)
        (fun _ _ _ => inr [Sample.echo])
        (fun _ _ _ _ _ => Pending)
        (fun _ _ _ _ => inr (Sample.reply (lit "Hello")))
        Sample.str_of_value.

(** The registry with the connected server 1, and with a disabled
    server 4 beside it. *)
Definition two_servers : MCPConnectionManager.t :=
  MCPConnectionManager.Mk
    (<[ 4 := MCPServerConnection.init
               (MkConfig (lit "off") STDIO (Some (lit "mcp-off")) (Some []) None
                  None 30 3 false 4) ]>
       (MCPConnectionManager.connections Sample.registry)).

(** Two connected servers that both offer the tool [echo]. *)
Definition twin_servers : MCPConnectionManager.t :=
  MCPConnectionManager.Mk
    (<[ 2 := snd (fst (MCPServerConnection.connect Sample.env_ok []
                         (MCPServerConnection.init
                            (MkConfig (lit "notes") STDIO (Some (lit "mcp-notes"))
                               (Some []) None None 30 3 true 2)))) ]>
       (MCPConnectionManager.connections Sample.registry)).

End Cases.

(** Two different literals. *)
Ltac lit_ne := let H := fresh in intros H; vm_compute in H; discriminate H.

(** * Properties *)

(** ** The connection registry *)

Section Registry.
Variable env : Env.

Import MCPServerConnection.

Lemma ServerStatus_eqb_eq (a b : ServerStatus) :
  ServerStatus_eqb a b = true <-> a = b.
Proof. destruct a, b; simpl; split; congruence. Qed.

(** [connect] ends in [CONNECTED] or [ERROR], with the matching answer. *)
Lemma connect_status (tr : Trace) (c : t) :
  let '(ok, c', _) := connect env tr c in
  (ok = true /\ status c' = CONNECTED /\ last_error c' = None)
  \/ (ok = false /\ status c' = ERROR /\ is_Some (last_error c')).
Proof.
  unfold connect.
  destruct (build_transport _) as [e|t0]; [right; simpl; eauto|].
  destruct (Transports.connect env tr t0) as [[[e|] t1] tr1];
    [right; simpl; eauto|].
  simpl. destruct (connection_type (config c)).
  - destruct (Transports.list_tools env tr1 t1) as [[e|l] tr2];
      left; simpl; eauto.
  - left; simpl; eauto.
Qed.

(** [disconnect] closes at most the session; it opens none. *)
Lemma disconnect_trace (tr : Trace) (c : t) :
  exists evs, snd (disconnect env tr c) = tr ++ evs
              /\ Forall (fun e => is_open e = false) evs.
Proof.
  unfold disconnect. destruct (transport c) as [[cmd a s|u h]|]; simpl.
  - exists [StdioClose cmd a]. split; [done|]. by repeat constructor.
  - exists []. by rewrite app_nil_r.
  - exists []. by rewrite app_nil_r.
Qed.

(** C1, as amended. [execute_tool] of a connection raises for its two
    preconditions: [RuntimeError] when the status is not [CONNECTED] or
    there is no transport, [ValueError] when the tool is not in the
    catalog; in both cases the transport is not called. Past these
    checks it raises nothing: an exception of the transport call comes
    back as [{success: False, result: None, error: str(e)}] and a
    completed call as [{success: True, result, error: None}]. *)
Theorem execute_tool_raises_only_for_preconditions
    (tr : Trace) (c : t) (tool : str) (args : list (str * value)) :
  (status c <> CONNECTED \/ transport c = None ->
     execute_tool env tr c tool args = (Raise (not_connected_error c), tr))
  /\ (forall t0, status c = CONNECTED -> transport c = Some t0 ->
        has_tool c tool = false ->
        execute_tool env tr c tool args = (Raise (tool_not_available_error c tool), tr))
  /\ (forall t0, status c = CONNECTED -> transport c = Some t0 ->
        has_tool c tool = true ->
        raised (fst (execute_tool env tr c tool args)) = false
        /\ (forall e tr1,
              Transports.call_tool env tr t0 tool args = (Raise e, tr1) ->
              execute_tool env tr c tool args =
                (Ret {| success := false; result := VNone;
                        error := Some (exn_str e) |}, tr1))
        /\ (forall r tr1,
              Transports.call_tool env tr t0 tool args = (Ret r, tr1) ->
              execute_tool env tr c tool args =
                (Ret {| success := true; result := r; error := None |}, tr1))).
Proof.
  unfold execute_tool. repeat split.
  - intros [H|H].
    + destruct (status c); try done; by destruct (transport c).
    + rewrite H. by destruct (status c).
  - intros t0 Hs Ht Hn. by rewrite Hs, Ht, Hn.
  - rewrite H, H0, H1. simpl.
    by destruct (Transports.call_tool env tr t0 tool args) as [[r|e|] tr1].
  - intros e tr1 E. by rewrite H, H0, H1, E.
  - intros r tr1 E. by rewrite H, H0, H1, E.
Qed.

(** C10. [health_check] on a connection whose status is not [CONNECTED]
    answers [False]; the connection (status, last error, transport,
    catalog) is the same afterwards and the transport is not probed. *)
Theorem health_check_not_connected (tr : Trace) (c : t) :
  status c <> CONNECTED ->
  health_check env tr c = (false, c, tr).
Proof.
  intros H. unfold health_check.
  destruct (ServerStatus_eqb (status c) CONNECTED) eqn:E; [|done].
  by apply ServerStatus_eqb_eq in E.
Qed.

(** A check that changes the connection started from [CONNECTED]. *)
Lemma health_check_changes_only_connected (tr : Trace) (c : t) :
  snd (fst (health_check env tr c)) <> c -> status c = CONNECTED.
Proof.
  unfold health_check. destruct (status c) eqn:S; simpl; intros H; done.
Qed.

Import MCPConnectionManager.

(** C6. [execute_tool] of the registry, for a server id that has no
    connection, returns a dictionary with [success = False] and the
    error text ["Server {id} not found"]; it raises nothing and calls
    no transport. *)
Theorem execute_tool_unknown_server
    (tr : Trace) (mgr : MCPConnectionManager.t) (request : ToolExecutionRequest) :
  connections mgr !! server_id request = None ->
  exists r,
    MCPConnectionManager.execute_tool env tr mgr request = (Ret r, tr)
    /\ success r = false
    /\ error r = Some (lit "Server " ++ str_of_int (server_id request)
                          ++ lit " not found").
Proof.
  intros H. unfold MCPConnectionManager.execute_tool. rewrite H.
  eexists; split; [reflexivity|]. by split.
Qed.

Lemma remove_server_trace (tr : Trace) (mgr : MCPConnectionManager.t) (sid : Z) :
  exists evs, snd (remove_server env tr mgr sid) = tr ++ evs
              /\ Forall (fun e => is_open e = false) evs.
Proof.
  unfold remove_server. destruct (connections mgr !! sid) as [c|].
  - destruct (disconnect_trace tr c) as (evs & E & F).
    destruct (disconnect env tr c) as [c' tr1]. simpl in *. eauto.
  - exists []. by rewrite app_nil_r.
Qed.

(** C9. [add_server] with a configuration whose [enabled] flag is off
    returns [True] and registers a connection that is as [__init__]
    left it: status [DISCONNECTED], no transport. [connect] has not run
    on it: no session is opened on the way (the only requests are those
    of closing a connection that was registered under the same id), and
    the registered connection is not what a [connect] leaves behind,
    which has the status [CONNECTED] or [ERROR]. *)
Theorem add_server_disabled
    (tr : Trace) (mgr : MCPConnectionManager.t) (cfg : MCPServerConfig) :
  enabled cfg = false ->
  exists mgr' evs c,
    add_server env tr mgr cfg = (true, mgr', tr ++ evs)
    /\ connections mgr' !! id cfg = Some c
    /\ c = MCPServerConnection.init cfg
    /\ status c = DISCONNECTED
    /\ transport c = None
    /\ Forall (fun e => is_open e = false) evs
    /\ forall tr0 c0, snd (fst (connect env tr0 c0)) <> c.
Proof.
  intros H.
  assert (N : forall tr0 c0,
             snd (fst (connect env tr0 c0)) <> MCPServerConnection.init cfg).
  { intros tr0 c0 E. pose proof (connect_status tr0 c0) as S.
    destruct (connect env tr0 c0) as [[ok c'] tr']. simpl in E. subst c'.
    destruct S as [(_ & S & _)|(_ & S & _)]; discriminate S. }
  unfold add_server.
  destruct (connections mgr !! id cfg) as [old|] eqn:E.
  - destruct (remove_server_trace tr mgr (id cfg)) as (evs & Etr & F).
    destruct (remove_server env tr mgr (id cfg)) as [mgr1 tr1].
    simpl in Etr. subst tr1. rewrite H.
    eexists _, evs, _. split; [reflexivity|]. simpl.
    rewrite lookup_insert_eq. by repeat split.
  - rewrite H. eexists _, [], _. rewrite app_nil_r.
    split; [reflexivity|]. simpl.
    rewrite lookup_insert_eq. by repeat split.
Qed.

End Registry.

(** A freshly registered, never connected server: the call raises. *)
Lemma execute_tool_disconnected_raises :
  let c := MCPServerConnection.init (Sample.files_config true) in
  MCPServerConnection.execute_tool Sample.env_ok [] c (lit "echo") []
  = (Raise (Exn RuntimeError (lit "Server files is not connected")), [])
  /\ returned (fst (MCPServerConnection.execute_tool Sample.env_ok [] c (lit "echo") []))
     = false.
Proof. by vm_compute. Qed.

Lemma execute_tool_raises_only_for_preconditions_witness :
  MCPServerConnection.status Sample.files_connected = CONNECTED
  /\ MCPServerConnection.has_tool Sample.files_connected (lit "echo") = true
  /\ MCPServerConnection.execute_tool Sample.env_down [] Sample.files_connected
       (lit "echo") []
     = (Ret {| success := false; result := VNone;
               error := Some (lit "broken pipe") |},
        [SessionCallTool (lit "mcp-files") [] (lit "echo") []]).
Proof.
  split; [reflexivity|]. split; [reflexivity|].
  refine (proj1 (proj2 (proj2 (proj2
    (execute_tool_raises_only_for_preconditions Sample.env_down []
       Sample.files_connected (lit "echo") []))
    (Transports.MCPStdioTransport (lit "mcp-files") [] true) _ _ _))
    (Exn OtherException (lit "broken pipe"))
    [SessionCallTool (lit "mcp-files") [] (lit "echo") []] _);
    reflexivity.
Defined.

Lemma health_check_not_connected_witness :
  MCPServerConnection.health_check Sample.env_ok []
    (MCPServerConnection.init (Sample.files_config true))
  = (false, MCPServerConnection.init (Sample.files_config true), []).
Proof.
  apply (health_check_not_connected Sample.env_ok []
           (MCPServerConnection.init (Sample.files_config true))).
  simpl. discriminate.
Defined.

Lemma execute_tool_unknown_server_witness :
  exists r,
    MCPConnectionManager.execute_tool Sample.env_ok [] MCPConnectionManager.init
      (MkRequest 7 (lit "echo") []) = (Ret r, [])
    /\ success r = false
    /\ error r = Some (lit "Server 7 not found").
Proof.
  apply (execute_tool_unknown_server Sample.env_ok [] MCPConnectionManager.init
           (MkRequest 7 (lit "echo") [])).
  reflexivity.
Defined.

Lemma add_server_disabled_witness :
  exists mgr' evs c,
    MCPConnectionManager.add_server Sample.env_ok [] MCPConnectionManager.init
      (Sample.files_config false) = (true, mgr', [] ++ evs)
    /\ MCPConnectionManager.connections mgr' !! 1 = Some c
    /\ c = MCPServerConnection.init (Sample.files_config false)
    /\ MCPServerConnection.status c = DISCONNECTED
    /\ MCPServerConnection.transport c = None
    /\ Forall (fun e => is_open e = false) evs
    /\ forall tr0 c0,
         snd (fst (MCPServerConnection.connect Sample.env_ok tr0 c0)) <> c.
Proof.
  apply (add_server_disabled Sample.env_ok [] MCPConnectionManager.init
           (Sample.files_config false)).
  reflexivity.
Defined.

(** ** The bounded history of a conversation *)

Section Histories.
Import History.

Lemma tail_drop {A} (l : list A) : tail l = drop 1 l.
Proof. by destruct l. Qed.

Lemma deque_append_maxlen {A} (d : deque A) (x : A) :
  maxlen (deque_append d x) = maxlen d.
Proof. reflexivity. Qed.

(** A deque never holds more than [maxlen] elements. *)
Lemma deque_append_bound {A} (d : deque A) (x : A) :
  (length (items d) <= maxlen d)%nat ->
  (length (items (deque_append d x)) <= maxlen d)%nat.
Proof.
  intros H. unfold deque_append. simpl.
  destruct (Nat.ltb_spec (maxlen d) (length (items d ++ [x]))) as [L|L];
    [|done].
  rewrite tail_drop, length_drop, length_app. simpl. lia.
Qed.

(** Appending keeps the last [maxlen] elements of what was appended. *)
Lemma deque_append_last_n {A} (d : deque A) (x : A) (L : list A) :
  items d = last_n (maxlen d) L ->
  items (deque_append d x) = last_n (maxlen d) (L ++ [x]).
Proof.
  intros H. unfold deque_append, last_n in *. simpl.
  rewrite H, !length_app, length_drop. simpl.
  destruct (Nat.ltb_spec (maxlen d)
              (length L - (length L - maxlen d) + 1)) as [Lt|Ge].
  - rewrite tail_drop.
    destruct (decide (maxlen d = 0%nat)) as [Z0|NZ].
    + rewrite Z0, Nat.sub_0_r, drop_all. simpl.
      replace (length L + 1 - 0)%nat with (length (L ++ [x])).
      * by rewrite drop_all.
      * rewrite length_app. simpl. lia.
    + rewrite <- drop_app_le by lia.
      rewrite drop_drop. f_equal. lia.
  - replace (length L - maxlen d)%nat with 0%nat by lia.
    replace (length L + 1 - maxlen d)%nat with 0%nat by lia.
    reflexivity.
Qed.

Lemma length_last_n {A} (n : nat) (l : list A) :
  (length (last_n n l) <= n)%nat.
Proof. unfold last_n. rewrite length_drop. lia. Qed.

(** The trimming test of the sweep fails on a history within bounds. *)
Lemma sweep_context_bounded (now : Z) (c : ConversationContext.t) :
  (length (items (ConversationContext.messages c))
     <= MAX_MESSAGES_PER_CONVERSATION)%nat ->
  AgentService.sweep_context now c = c.
Proof.
  intros H. unfold AgentService.sweep_context.
  destruct (AgentService.expired now c); [done|].
  destruct (Nat.ltb_spec MAX_MESSAGES_PER_CONVERSATION
              (length (items (ConversationContext.messages c)))); [lia|done].
Qed.

(** When the trim does run it keeps every system message. *)
Lemma trim_messages_keeps_system (l : list ConversationMessage) (msg : ConversationMessage) :
  In msg l -> is_system (role msg) = true ->
  In msg (AgentService.trim_messages l).
Proof.
  intros Hin Hs. unfold AgentService.trim_messages.
  apply in_or_app. left. apply filter_In. by split.
Qed.

Lemma history_invariant (c0 : ConversationContext.t) (l : list action)
    (c : ConversationContext.t) :
  items (ConversationContext.messages c0) = [] ->
  maxlen (ConversationContext.messages c0) = MAX_MESSAGES_PER_CONVERSATION ->
  foldl act (Some c0) l = Some c ->
  items (ConversationContext.messages c)
    = last_n MAX_MESSAGES_PER_CONVERSATION (added l)
  /\ maxlen (ConversationContext.messages c) = MAX_MESSAGES_PER_CONVERSATION.
Proof.
  intros H0 M0. revert c.
  induction l as [|a l IH] using rev_ind; intros c.
  - simpl. intros [= <-]. by rewrite H0.
  - rewrite foldl_app. simpl.
    destruct (foldl act (Some c0) l) as [c1|] eqn:E; [|done].
    destruct (IH c1 eq_refl) as [I M].
    unfold added. rewrite omap_app. fold (added l).
    destruct a as [now r text|now]; simpl.
    + intros [= <-]. simpl. split; [|done].
      rewrite <- M. apply deque_append_last_n. by rewrite M.
    + destruct (AgentService.expired now c1); [done|].
      intros [= <-]. rewrite sweep_context_bounded.
      * by rewrite app_nil_r.
      * rewrite I. apply length_last_n.
Qed.

(** The history of a conversation is a queue of at most
    [MAX_MESSAGES_PER_CONVERSATION] messages: after any sequence of
    [add_message] calls and sweeps that leaves the conversation in the
    store, it holds the last 500 messages that were added, in order,
    whatever their role. Appending to a full history therefore drops
    its oldest message, and a system message stays for as long as it is
    among the last 500. *)
Theorem history_is_last_messages
    (cid ocid m : str) (prompt : option str) (tools : list AgentTool)
    (created updated : Z) (l : list action) (c : ConversationContext.t) :
  foldl act (Some (ConversationContext.init cid ocid m prompt tools created updated)) l
    = Some c ->
  items (ConversationContext.messages c)
    = last_n MAX_MESSAGES_PER_CONVERSATION (added l).
Proof.
  intros H. by apply (history_invariant _ l c) in H as [H _].
Qed.

End Histories.

(** A system message is the first of 501 messages: the history is full
    after 500 of them, with the system message as its oldest entry and
    499 user messages behind it; the next [add_message] drops the system
    message. *)
Lemma system_message_evicted :
  exists c c',
    foldl History.act (Some Sample.conversation) Sample.full_history = Some c
    /\ foldl History.act (Some Sample.conversation) Sample.long_history = Some c'
    /\ length (items (ConversationContext.messages c)) = MAX_MESSAGES_PER_CONVERSATION
    /\ head (items (ConversationContext.messages c)) = Some Sample.rules
    /\ In Sample.rules (History.added Sample.long_history)
    /\ existsb (fun msg => is_system (role msg))
         (items (ConversationContext.messages c')) = false.
Proof.
  eexists _, _. split; [by vm_compute|]. split; [by vm_compute|].
  split; [by vm_compute|]. split; [by vm_compute|].
  split; [by left|]. by vm_compute.
Qed.

Lemma history_is_last_messages_witness :
  items (ConversationContext.messages
           (ConversationContext.add_message 1
              (ConversationContext.add_message 0 Sample.conversation
                 system (lit "rules"))
              user (lit "hi")))
  = History.last_n MAX_MESSAGES_PER_CONVERSATION
      (History.added Sample.short_history).
Proof.
  apply (history_is_last_messages (lit "c1") (lit "o1") (lit "qwen2.5:latest")
           None [] 0 0 Sample.short_history).
  reflexivity.
Defined.


(** ** The sweep over the store *)

Section Sweep.
Import AgentService.

Lemma remove_old_lookup (l : list str) (self : AgentService.t)
    (ollama : OllamaService.t) (cid : str) :
  active_conversations (fst (foldl remove_old (self, ollama) l)) !! cid
  = if decide (cid ∈ l) then None else active_conversations self !! cid.
Proof.
  revert self ollama. induction l as [|x l IH]; intros self ollama.
  - done.
  - cbn [foldl]. unfold remove_old at 2.
    destruct (active_conversations self !! x) as [context|] eqn:E;
      rewrite IH; cbn [active_conversations];
      destruct (decide (cid = x)) as [->|Ne];
      destruct (decide (_ ∈ l)) as [I|NI];
      destruct (decide (_ ∈ x :: l)) as [I'|NI'];
      rewrite ?lookup_delete_eq, ?lookup_delete_ne by done;
      try done;
      try (exfalso; apply NI'; by (left || right));
      try (exfalso; apply elem_of_cons in I' as [?|?]; done).
Qed.

Lemma elem_of_conversations_to_remove (now : Z)
    (convs : gmap str ConversationContext.t) (cid : str) :
  cid ∈ conversations_to_remove now convs
  <-> exists context, convs !! cid = Some context /\ expired now context = true.
Proof.
  unfold conversations_to_remove. rewrite list_elem_of_omap. split.
  - intros ([k v] & Hin & Hx). apply elem_of_map_to_list in Hin.
    simpl in Hx. destruct (expired now v) eqn:E; [|done].
    injection Hx as ->. eauto.
  - intros (context & Hl & Hx). exists (cid, context).
    split; [by apply elem_of_map_to_list|]. simpl. by rewrite Hx.
Qed.

(** What a sweep does to each stored conversation: the step [ReapPass]
    of [History.act]. *)
Lemma cleanup_lookup (now : Z) (self : AgentService.t)
    (ollama : OllamaService.t) (cid : str) :
  active_conversations (fst (_cleanup_old_conversations now self ollama)) !! cid
  = History.act (active_conversations self !! cid) (History.ReapPass now).
Proof.
  unfold _cleanup_old_conversations. rewrite remove_old_lookup. simpl.
  rewrite lookup_fmap.
  destruct (active_conversations self !! cid) as [context|] eqn:E; simpl.
  - destruct (expired now context) eqn:X.
    + rewrite decide_True; [done|].
      apply elem_of_conversations_to_remove. eauto.
    + rewrite decide_False; [done|].
      rewrite elem_of_conversations_to_remove.
      intros (c' & Hc & Hx). congruence.
  - destruct (decide _) as [Hin|]; [|done].
    apply elem_of_conversations_to_remove in Hin as (c' & Hc & _). congruence.
Qed.

End Sweep.

(** ** Deleting a conversation *)

Section Deletion.
Import AgentService.

(** [delete_conversation] closes the Ollama conversation before it
    touches the store: when the close raises, the handler answers
    [False] and the conversation is still stored. *)
Lemma delete_conversation_close_fails (self : AgentService.t)
    (ollama ollama1 : OllamaService.t) (cid : str)
    (context : ConversationContext.t) (e : exn) :
  active_conversations self !! cid = Some context ->
  OllamaService.delete_conversation ollama
    (ConversationContext.ollama_conversation_id context) = (inl e, ollama1) ->
  delete_conversation self ollama cid = (false, self, ollama1).
Proof. intros H E. unfold delete_conversation. by rewrite H, E. Qed.

(** The sweep removes first and closes afterwards: its removal does
    not depend on the close. *)
Lemma remove_old_removes (self : AgentService.t) (ollama : OllamaService.t)
    (cid : str) :
  active_conversations (fst (remove_old (self, ollama) cid)) !! cid = None.
Proof.
  unfold remove_old.
  destruct (active_conversations self !! cid) eqn:E; simpl; [|done].
  apply lookup_delete_eq.
Qed.

End Deletion.

(** C5, at an input where the code departs from it. The conversation
    [c1] is bound to the Ollama conversation [o1], which the Ollama
    service no longer holds: the close answers 404,
    [delete_conversation] returns [False] and [c1] stays in the store. *)
Theorem delete_conversation_keeps_conversation_when_close_fails :
  fst (OllamaService.delete_conversation Sample.ollama_lost (lit "o1"))
    = inl (OllamaService.http_exception 404 (lit "Conversation o1 not found"))
  /\ AgentService.delete_conversation Sample.agent Sample.ollama_lost (lit "c1")
     = (false, Sample.agent, Sample.ollama_lost)
  /\ AgentService.active_conversations Sample.agent !! lit "c1"
     = Some Sample.conversation.
Proof.
  split; [by vm_compute|]. split; [|by vm_compute].
  apply (delete_conversation_close_fails _ _ _ _ Sample.conversation
           (OllamaService.http_exception 404 (lit "Conversation o1 not found")));
    by vm_compute.
Qed.

(** ** Tool schemas *)

Section Dictionaries.
Context {V : Type}.
Implicit Types (k : str) (d : list (str * V)).

Lemma str_eqb_eq (a b : str) : str_eqb a b = true <-> a = b.
Proof. unfold str_eqb. apply bool_decide_eq_true. Qed.

Lemma str_eqb_refl (a : str) : str_eqb a a = true.
Proof. by apply str_eqb_eq. Qed.

Lemma str_eqb_ne (a b : str) : a <> b -> str_eqb a b = false.
Proof. intros H. unfold str_eqb. by apply bool_decide_eq_false. Qed.

Lemma dict_get_del_eq k d : dict_get k (dict_del k d) = None.
Proof.
  induction d as [|[k' v] d IH]; [done|]. simpl.
  destruct (str_eqb k k') eqn:E; simpl; [done|]. by rewrite E.
Qed.

Lemma dict_get_del_ne k k' d :
  k <> k' -> dict_get k (dict_del k' d) = dict_get k d.
Proof.
  intros Ne. induction d as [|[k2 v] d IH]; [done|]. simpl.
  destruct (str_eqb k' k2) eqn:E; simpl.
  - apply str_eqb_eq in E as <-. by rewrite (str_eqb_ne k k').
  - by rewrite IH.
Qed.

Lemma dict_get_set_eq k (v : V) d : is_Some (dict_get k (dict_set k v d)).
Proof.
  induction d as [|[k' v'] d IH]; simpl.
  - rewrite str_eqb_refl. eauto.
  - destruct (str_eqb k k') eqn:E; simpl; rewrite E; eauto.
Qed.

Lemma dict_get_set_ne k k' (v : V) d :
  k <> k' -> dict_get k (dict_set k' v d) = dict_get k d.
Proof.
  intros Ne. induction d as [|[k2 v2] d IH]; simpl.
  - by rewrite (str_eqb_ne k k').
  - destruct (str_eqb k' k2) eqn:E; simpl.
    + apply str_eqb_eq in E as <-. by rewrite (str_eqb_ne k k').
    + by rewrite IH.
Qed.

Lemma dict_mem_del_eq k d : dict_mem k (dict_del k d) = false.
Proof. unfold dict_mem. by rewrite dict_get_del_eq. Qed.

Lemma dict_mem_del_ne k k' d :
  k <> k' -> dict_mem k (dict_del k' d) = dict_mem k d.
Proof. intros Ne. unfold dict_mem. by rewrite dict_get_del_ne. Qed.

Lemma dict_mem_set_eq k (v : V) d : dict_mem k (dict_set k v d) = true.
Proof. unfold dict_mem. by destruct (dict_get_set_eq k v d) as [x ->]. Qed.

Lemma dict_mem_set_ne k k' (v : V) d :
  k <> k' -> dict_mem k (dict_set k' v d) = dict_mem k d.
Proof. intros Ne. unfold dict_mem. by rewrite dict_get_set_ne. Qed.

End Dictionaries.

Section Schemas.
Import AgentService.

Lemma parameters_of_openai_tool (n : str) (d p : value) :
  parameters_of (openai_tool n d p)
  = match p with VDict x => Some x | _ => None end.
Proof. reflexivity. Qed.

Lemma strip_key_dict (k : str) (d : list (str * value)) :
  exists d', strip_key k (VDict d) = VDict d' /\ dict_mem k d' = false
             /\ forall k', k' <> k -> dict_mem k' d' = dict_mem k' d.
Proof.
  unfold strip_key. destruct (dict_mem k d) eqn:E.
  - exists (dict_del k d). split; [done|]. split.
    + apply dict_mem_del_eq.
    + intros k' Ne. by apply dict_mem_del_ne.
  - by exists d.
Qed.

(** The conversion that [send_message] uses removes the two fields. *)
Lemma convert_mcp_tool_strips (tool : AgentTool) (p : list (str * value)) :
  parameters_of (_convert_mcp_tool_to_openai tool) = Some p ->
  dict_mem (lit "$schema") p = false
  /\ dict_mem (lit "additionalProperties") p = false.
Proof.
  unfold _convert_mcp_tool_to_openai. rewrite parameters_of_openai_tool.
  destruct (inputSchema tool) as [| | | | |d|]; try done.
  destruct (strip_key_dict (lit "$schema") d) as (d1 & -> & M1 & K1).
  destruct (strip_key_dict (lit "additionalProperties") d1) as (d2 & -> & M2 & K2).
  intros [= <-]. split; [|done]. rewrite K2; [done|lit_ne].
Qed.

(** It changes nothing else: a schema without the two fields is handed
    on as it is, with or without [properties] and [required]. *)
Lemma convert_mcp_tool_keeps (tool : AgentTool) (d : list (str * value)) :
  inputSchema tool = VDict d ->
  dict_mem (lit "$schema") d = false ->
  dict_mem (lit "additionalProperties") d = false ->
  parameters_of (_convert_mcp_tool_to_openai tool) = Some d.
Proof.
  intros E H1 H2. unfold _convert_mcp_tool_to_openai.
  rewrite parameters_of_openai_tool, E. unfold strip_key. by rewrite H1, H2.
Qed.

(** [_convert_to_openai_format], which nothing calls, removes the two
    fields and also supplies [properties] and [required]. *)
Lemma clean_schema_well_formed (input_schema : value) :
  let p := clean_schema input_schema in
  dict_mem (lit "$schema") p = false
  /\ dict_mem (lit "additionalProperties") p = false
  /\ dict_mem (lit "properties") p = true
  /\ dict_mem (lit "required") p = true.
Proof.
  unfold clean_schema, ensure_properties, ensure_required.
  set (d := dict_del (lit "additionalProperties")
              (dict_del (lit "$schema") (schema_dict input_schema))).
  assert (D1 : dict_mem (lit "$schema") d = false).
  { unfold d. rewrite dict_mem_del_ne by lit_ne. apply dict_mem_del_eq. }
  assert (D2 : dict_mem (lit "additionalProperties") d = false)
    by apply dict_mem_del_eq.
  set (r := match dict_get (lit "required") d with
            | Some (VList _) => d
            | _ => dict_set (lit "required") (VList []) d
            end).
  assert (R : dict_mem (lit "required") r = true).
  { unfold r, dict_mem at 1.
    destruct (dict_get (lit "required") d) as [[]|] eqn:E;
      rewrite ?E; try done;
      by destruct (dict_get_set_eq (lit "required") (VList []) d) as [x ->]. }
  assert (K : forall k, k <> lit "required" -> dict_mem k r = dict_mem k d).
  { intros k Ne. unfold r.
    destruct (dict_get (lit "required") d) as [[]|]; try done;
      by apply dict_mem_set_ne. }
  simpl. destruct (dict_mem (lit "properties") r) eqn:P.
  - repeat split; try done; by rewrite K by lit_ne.
  - repeat split.
    + rewrite dict_mem_set_ne by lit_ne. by rewrite K by lit_ne.
    + rewrite dict_mem_set_ne by lit_ne. by rewrite K by lit_ne.
    + apply dict_mem_set_eq.
    + by rewrite dict_mem_set_ne by lit_ne.
Qed.

End Schemas.

(** C4, at an input where the code departs from it. The tool [echo] of
    the connected server 1 has the schema
    [{"type": "object", "properties": {}}], and a refresh puts it in the
    registry of the agent service with that schema. The schema that
    [get_tools_in_openai_format] hands to the chat request is that same
    dictionary: it has no [required] key. [_convert_to_openai_format]
    gives [required: []] for the same tool. *)
Theorem live_conversion_omits_required :
  AgentService.available_tools
    (AgentService.refresh_mcp_tools Sample.registry (AgentService.Mk ∅ []))
    = AgentService.available_tools Sample.agent
  /\ map AgentService.parameters_of (AgentService.get_tools_in_openai_format Sample.agent)
    = [Some [(lit "type", VStr (lit "object")); (lit "properties", VDict [])]]
  /\ map (fun t => dict_mem (lit "required") <$> AgentService.parameters_of t)
         (AgentService.get_tools_in_openai_format Sample.agent)
     = [Some false]
  /\ map (fun t => dict_mem (lit "required") <$> AgentService.parameters_of t)
         (AgentService._convert_to_openai_format [Sample.echo_tool])
     = [Some true].
Proof. by vm_compute. Qed.

(** ** Executing tool calls *)

Section Execution.
Variable env : Env.
Import AgentService Calls.

Lemma call_tool_trace (tr : Trace) (t0 : Transports.Transport)
    (t : str) (a : list (str * value)) :
  exists evs, snd (Transports.call_tool env tr t0 t a) = tr ++ evs
              /\ one_request t a evs.
Proof.
  destruct t0 as [c a' [|]|u h]; simpl.
  - exists [SessionCallTool c a' t a]. split; [done|]. right. eauto.
  - exists []. rewrite app_nil_r. split; [done|]. by left.
  - exists []. rewrite app_nil_r. split; [done|]. by left.
Qed.

Lemma registry_execute_tool_trace (tr : Trace) (mgr : MCPConnectionManager.t)
    (request : ToolExecutionRequest) :
  exists evs, snd (MCPConnectionManager.execute_tool env tr mgr request) = tr ++ evs
              /\ one_request (req_tool_name request) (req_arguments request) evs.
Proof.
  assert (N : exists evs : Trace, tr = tr ++ evs
                /\ one_request (req_tool_name request) (req_arguments request) evs).
  { exists []. rewrite app_nil_r. split; [done|]. by left. }
  unfold MCPConnectionManager.execute_tool.
  destruct (MCPConnectionManager.connections mgr !! server_id request) as [c|];
    [|done].
  unfold MCPServerConnection.execute_tool.
  destruct (MCPServerConnection.status c); try done.
  destruct (MCPServerConnection.transport c) as [t0|]; [|done].
  destruct (negb _); [done|].
  destruct (call_tool_trace tr t0 (req_tool_name request) (req_arguments request))
    as (evs & E & O).
  destruct (Transports.call_tool env tr t0 _ _) as [[r|e|] tr1];
    simpl in *; eauto.
Qed.

(** A dispatched call gives a result under its own name and arguments,
    after at most one request to a tool server. *)
Lemma dispatch_spec (tr : Trace) (mgr : MCPConnectionManager.t)
    (tool_info : AgentTool) (n : str) (a : list (str * value)) :
  exists r evs,
    dispatch env tr mgr tool_info n a = (r, tr ++ evs)
    /\ tool r = n /\ arguments r = a /\ one_request n a evs.
Proof.
  unfold dispatch. destruct (at_server_id tool_info) as [sid|].
  - destruct (registry_execute_tool_trace tr mgr (MkRequest sid n a))
      as (evs & E & O).
    destruct (MCPConnectionManager.execute_tool env tr mgr (MkRequest sid n a))
      as [x tr1].
    simpl in E. subst tr1.
    destruct (wait_for x) as [e|d].
    + destruct (is_timeout e); eexists _, evs; by repeat split.
    + destruct (success d); eexists _, evs; by repeat split.
  - eexists _, []. rewrite app_nil_r. repeat split. by left.
Qed.

(** One iteration: unless the call is of the escaping shape, it leaves
    one result, filed under the name and arguments of the call. *)
Lemma execute_one_spec (tr : Trace) (self : AgentService.t)
    (mgr : MCPConnectionManager.t) (call : value) :
  escapes call = false ->
  exists r evs,
    (execute_one env tr self mgr call = (Skipped r, tr ++ evs)
     \/ execute_one env tr self mgr call = (Executed r, tr ++ evs))
    /\ (tool r, arguments r) = filed call
    /\ (evs = []
        \/ exists c a' n a,
             dispatched call = Some (n, a) /\ evs = [SessionCallTool c a' n a]).
Proof.
  intros H.
  assert (S : forall r0, filed call = (tool r0, arguments r0) ->
              execute_one env tr self mgr call = (Skipped r0, tr) ->
              exists r evs,
                (execute_one env tr self mgr call = (Skipped r, tr ++ evs)
                 \/ execute_one env tr self mgr call = (Executed r, tr ++ evs))
                /\ (tool r, arguments r) = filed call
                /\ (evs = []
                    \/ exists c a' n a,
                         dispatched call = Some (n, a)
                         /\ evs = [SessionCallTool c a' n a])).
  { intros r0 F E. exists r0, []. rewrite app_nil_r. eauto. }
  destruct call as [|b|z|s|l|d|f]; try (by eapply (S invalid_format)).
  revert H S. unfold escapes, filed, dispatched, execute_one, valid_name, arguments_of.
  destruct (dict_get (lit "tool") d) as [[|b|z|[|c cs]|l|d'|f]|];
    destruct (default (VDict []) (dict_get (lit "arguments") d))
      as [|b'|z'|s'|l'|a|f'];
    intros H S; try done;
    try (by eapply (S (invalid_name _)));
    try (by eapply (S (invalid_arguments _))).
  destruct (find_tool self (c :: cs)) as [tool_info|].
  - destruct (dispatch_spec tr mgr tool_info (c :: cs) a)
      as (r & evs & -> & T & A & [->|(c0 & a' & ->)]).
    + exists r, []. rewrite T, A. eauto.
    + exists r, [SessionCallTool c0 a' (c :: cs) a]. rewrite T, A.
      split; [eauto|]. split; [done|]. right. eauto 10.
  - exists (not_found (c :: cs) a), []. rewrite app_nil_r. eauto.
Qed.

Variables (now : Z) (mgr : MCPConnectionManager.t) (cid : str).

(** The loop: one result per call, in the order of the calls, and the
    requests to the tool servers in that order too. *)
Lemma execute_loop_spec (calls : list value) :
  forall (tr : Trace) (self : AgentService.t) (acc : list ToolResult),
    Forall (fun call => escapes call = false) calls ->
    exists rs evs self',
      execute_loop env now tr self mgr cid calls acc
        = (Some (acc ++ rs), self', tr ++ evs)
      /\ Forall2 (fun call r => (tool r, arguments r) = filed call) calls rs
      /\ sublist (omap called evs) (omap dispatched calls)
      /\ Forall (fun e => is_call e = true) evs.
Proof.
  induction calls as [|call calls IH]; intros tr self acc F.
  - exists [], [], self. simpl. rewrite !app_nil_r.
    split; [done|]. split; [constructor|]. split; constructor.
  - apply Forall_cons in F as [Fc F].
    destruct (execute_one_spec tr self mgr call Fc) as (r & evs1 & E & Fr & Ev).
    assert (K : forall self1,
              exists rs evs self',
                execute_loop env now (tr ++ evs1) self1 mgr cid calls (acc ++ [r])
                  = (Some (acc ++ rs), self', tr ++ evs)
                /\ Forall2 (fun call r => (tool r, arguments r) = filed call)
                     (call :: calls) rs
                /\ sublist (omap called evs) (omap dispatched (call :: calls))
                /\ Forall (fun e => is_call e = true) evs).
    { intros self1.
      destruct (IH (tr ++ evs1) self1 (acc ++ [r]) F)
        as (rs & evs2 & self' & El & F2 & Sub & Fe).
      exists (r :: rs), (evs1 ++ evs2), self'.
      rewrite El, <- !app_assoc. split; [done|].
      split; [by constructor|].
      rewrite omap_app.
      destruct Ev as [->|(c & a' & n & a & D & ->)]; simpl.
      - split; [|done]. destruct (dispatched call); [by constructor|done].
      - rewrite D. split; [by constructor|]. by constructor. }
    simpl. destruct E as [-> | ->]; apply K.
Qed.

Lemma escapes_ToolCall_dict (tc : ToolCall) : escapes (ToolCall_dict tc) = false.
Proof. by destruct tc as [[|c n] a i]. Qed.

Lemma filed_ToolCall_dict (tc : ToolCall) :
  filed (ToolCall_dict tc) = (filed_as tc, tc_arguments tc).
Proof. by destruct tc as [[|c n] a i]. Qed.

Lemma dispatched_ToolCall_dict (tcs : list ToolCall) :
  sublist (omap dispatched (map ToolCall_dict tcs)) (map signature tcs).
Proof.
  induction tcs as [|[[|c n] a i] tcs IH]; simpl.
  - constructor.
  - by constructor.
  - change (sublist ((c :: n, a) :: omap dispatched (map ToolCall_dict tcs))
              ((c :: n, a) :: map signature tcs)).
    by constructor.
Qed.

End Execution.

(** Outside what a turn passes: a hand-built call with no tool name and
    arguments that are not a dictionary. No result can be built for it,
    and the handler around the loop answers with the empty list, also
    for the call before it. *)
Example escaping_call_empties_the_results :
  fst (fst (AgentService._execute_tool_calls Sample.env_ok 5 [] Sample.agent
              Sample.registry (lit "c1")
              [ToolCall_dict (MkToolCall (lit "echo") [] None);
               VDict [(lit "arguments", VStr (lit "oops"))]]))
  = [].
Proof. by vm_compute. Qed.

(** A reply with three calls: to [echo], without a tool name, and to a
    tool that no server offers. *)
Example three_calls_three_results :
  let calls :=
    [MkToolCall (lit "echo") [(lit "text", VStr (lit "hi"))] (Some (lit "0"));
     MkToolCall [] [] (Some (lit "0"));
     MkToolCall (lit "grep") [] (Some (lit "0"))] in
  let '(rs, _, tr) :=
    AgentService._execute_tool_calls Sample.env_ok 5 [] Sample.agent
      Sample.registry (lit "c1") (map ToolCall_dict calls) in
  map tool rs = [lit "echo"; lit "invalid"; lit "grep"]
  /\ map tr_success rs = [true; false; false]
  /\ map tr_error rs
     = [None; Some (lit "Invalid tool name"); Some (lit "Tool not found")]
  /\ tr = [SessionCallTool (lit "mcp-files") [] (lit "echo")
             [(lit "text", VStr (lit "hi"))]].
Proof. by vm_compute. Qed.

(** ** The follow-up message *)

Section FollowUp.
Variable env : Env.
Import AgentService.

Lemma message_loop_spec (rs : list ToolResult) :
  forall (i : Z) (acc : str),
    message_loop env i rs acc
    = acc ++ concat (imap (fun k r => result_lines env (i + Z.of_nat k) r) rs).
Proof.
  induction rs as [|r rs IH]; intros i acc; simpl.
  - by rewrite app_nil_r.
  - rewrite IH, Z.add_0_r, <- app_assoc. do 3 f_equal.
    apply imap_ext. intros k x _. simpl. f_equal. lia.
Qed.

End FollowUp.

(** ** Failures of the chat request *)

Section Turn.
Variable env : Env.
Import AgentService.

(** A chat request that fails is answered by [generate_response] with
    an apology, not with an exception. *)
Lemma generate_response_chat_fails (now : Z) (tr : Trace)
    (m : OllamaModelManager.t) (ocid text : str) (tools : option (list value))
    (octx : OllamaModelManager.ConversationContext) (prompt : str) (e : exn) :
  OllamaModelManager.active_conversations m !! ocid = Some octx ->
  OllamaModelManager.system_prompt octx = Some prompt ->
  (forall model chat tools', chat_completion env tr model chat tools' = inl e) ->
  exists m' evs,
    OllamaModelManager.generate_response env now tr m ocid text tools
      = (inr (OllamaModelManager.apology e (OllamaModelManager.model octx)),
         m', tr ++ evs)
    /\ Forall (fun ev => is_chat ev = true) evs.
Proof.
  intros L P F. unfold OllamaModelManager.generate_response. rewrite L.
  unfold OllamaModelManager.generate. simpl. rewrite P, F.
  eexists _, [_]. split; [reflexivity|]. by repeat constructor.
Qed.

(** Before the chat request, the service does raise: when it was not
    initialised, and when it does not know the conversation. *)
Lemma send_message_not_initialized (now : Z) (tr : Trace)
    (ollama : OllamaService.t) (ocid text : str) (tools : option (list value)) :
  OllamaService.is_initialized ollama = false ->
  OllamaService.send_message env now tr ollama ocid text tools
    = (inl OllamaService.not_initialized, ollama, tr).
Proof. intros H. unfold OllamaService.send_message. by rewrite H. Qed.

(** C3, as amended. A failure of the chat request does not reach the
    caller of the turn as an error. [generate_response] catches it and
    answers with an apology that quotes the error; the Ollama service
    and the turn return that answer as a normal result: no tool is
    run, no follow-up is asked for, and the apology is stored as the
    assistant message of the turn, after the user message. *)
Theorem chat_failure_becomes_reply
    (now : Z) (tr : Trace) (self : AgentService.t) (ollama : OllamaService.t)
    (mgr : MCPConnectionManager.t) (cid message : str)
    (context : ConversationContext.t)
    (octx : OllamaModelManager.ConversationContext) (prompt : str) (e : exn) :
  active_conversations self !! cid = Some context ->
  OllamaService.is_initialized ollama = true ->
  OllamaModelManager.active_conversations (OllamaService.manager ollama)
    !! ConversationContext.ollama_conversation_id context = Some octx ->
  OllamaModelManager.system_prompt octx = Some prompt ->
  (forall model chat tools, chat_completion env tr model chat tools = inl e) ->
  let apology := OllamaModelManager.apology e (OllamaModelManager.model octx) in
  exists result self' ollama' tr',
    send_message env now tr self ollama mgr cid message
      = (inr result, self', ollama', tr')
    /\ OllamaService.sr_response (turn_response result) = apology
    /\ ar_content apology
       = lit "I apologize, but I encountered an error while generating a response: "
         ++ exn_str e
    /\ turn_tool_results result = []
    /\ followup_response result = None
    /\ active_conversations self' !! cid
       = Some (ConversationContext.add_message now
                 (ConversationContext.add_message now
                    (ConversationContext.set_updated_at context now)
                    user message)
                 assistant (ar_content apology)).
Proof.
  intros L I OL P F apology.
  destruct (generate_response_chat_fails now tr (OllamaService.manager ollama)
              (ConversationContext.ollama_conversation_id context) message
              (match available_tools self with
               | [] => None
               | _ => Some (get_tools_in_openai_format self)
               end) octx prompt e OL P F) as (m' & evs & G & _).
  unfold send_message. rewrite L.
  unfold OllamaService.send_message. rewrite I. simpl. rewrite G. simpl.
  eexists _, _, _, _. split; [reflexivity|]. simpl.
  rewrite !lookup_alter_eq, L. by repeat split.
Qed.

(** The request of the follow-up carries [followup_message] as its last
    message, from the user, and offers no tools. *)
Lemma followup_message_is_sent (now : Z) (tr : Trace) (self : AgentService.t)
    (ollama : OllamaService.t) (cid : str) (rs : list ToolResult)
    (context : ConversationContext.t)
    (octx : OllamaModelManager.ConversationContext) (prompt : str) :
  active_conversations self !! cid = Some context ->
  OllamaService.is_initialized ollama = true ->
  OllamaModelManager.active_conversations (OllamaService.manager ollama)
    !! ConversationContext.ollama_conversation_id context = Some octx ->
  OllamaModelManager.system_prompt octx = Some prompt ->
  exists chat,
    snd (_get_followup_response env now tr self ollama cid rs)
      = tr ++ [ChatCompletion (OllamaModelManager.model octx) chat None]
    /\ last chat = Some (MkChatMessage (lit "user") (followup_message env rs)).
Proof.
  intros L I OL P. unfold _get_followup_response. rewrite L.
  unfold OllamaService.send_message. rewrite I. simpl.
  unfold OllamaModelManager.generate_response. rewrite OL.
  unfold OllamaModelManager.generate. simpl. rewrite P.
  eexists. split.
  - destruct (chat_completion env tr _ _ _) as [e|response]; [reflexivity|].
    by destruct (_ && _).
  - by rewrite !app_assoc, last_snoc.
Qed.

End Turn.

(** The chat endpoint refuses the request: the turn returns normally,
    its reply is the apology, and the apology is the last message of the
    stored history. *)
Lemma chat_failure_is_returned_as_reply :
  exists result self' ollama' tr' c,
    chat_completion Sample.env_down [] (lit "qwen2.5:latest")
      [MkChatMessage (lit "system") (lit "You are a helpful AI assistant.");
       MkChatMessage (lit "user") (lit "hello")]
      (Some (AgentService.get_tools_in_openai_format Sample.agent))
    = inl (Exn (HTTPException 500)
             (lit "500: Error generating chat response: refused"))
    /\ AgentService.send_message Sample.env_down 5 [] Sample.agent Sample.ollama
         Sample.registry (lit "c1") (lit "hello")
       = (inr result, self', ollama', tr')
    /\ ar_content (OllamaService.sr_response (AgentService.turn_response result))
       = lit "I apologize, but I encountered an error while generating a response: 500: Error generating chat response: refused"
    /\ AgentService.active_conversations self' !! lit "c1" = Some c
    /\ last (items (ConversationContext.messages c))
       = Some (MkMessage assistant
                 (lit "I apologize, but I encountered an error while generating a response: 500: Error generating chat response: refused")
                 5 None).
Proof.
  eexists _, _, _, _, _. split; [reflexivity|].
  split; [by vm_compute|]. split; [by vm_compute|].
  split; by vm_compute.
Qed.

Lemma chat_failure_becomes_reply_witness :
  exists result self' ollama' tr',
    AgentService.send_message Sample.env_down 5 [] Sample.agent Sample.ollama
      Sample.registry (lit "c1") (lit "hello")
    = (inr result, self', ollama', tr')
    /\ OllamaService.sr_response (AgentService.turn_response result)
       = OllamaModelManager.apology
           (Exn (HTTPException 500)
              (lit "500: Error generating chat response: refused"))
           (lit "qwen2.5:latest")
    /\ AgentService.turn_tool_results result = [].
Proof.
  destruct (chat_failure_becomes_reply Sample.env_down 5 [] Sample.agent
              Sample.ollama Sample.registry (lit "c1") (lit "hello")
              Sample.conversation Sample.ollama_context
              (lit "You are a helpful AI assistant.")
              (Exn (HTTPException 500)
                 (lit "500: Error generating chat response: refused")))
    as (result & self' & ollama' & tr' & E & R & _ & T & _);
    [reflexivity|reflexivity|reflexivity|reflexivity|reflexivity|].
  exists result, self', ollama', tr'. by repeat split.
Defined.

(** Two results, the first a success with a payload of 2000 characters,
    the second a failure. *)
Example followup_message_of_two_results :
  AgentService.tool_results_message Sample.env_ok
    [MkToolResult (lit "read") [] (VStr (repeat 97%N 2000)) true None;
     MkToolResult (lit "write") [] (VStr (lit "Error: Tool 'write' not found in available tools"))
       false (Some (lit "Tool not found"))]
  = lit "Tool execution completed. Results:" ++ [10%N]
    ++ lit "1. read: " ++ [9989%N] ++ lit " Success" ++ [10%N]
    ++ lit "   Result: " ++ repeat 97%N 500 ++ lit "... (truncated)" ++ [10%N]
    ++ [10%N]
    ++ lit "2. write: " ++ [10060%N] ++ lit " Failed" ++ [10%N]
    ++ lit "   Error: Tool not found" ++ [10%N]
    ++ [10%N].
Proof. by vm_compute. Qed.

(** ** The follow-up request *)

Section FollowUpRequest.
Variable env : Env.
Import AgentService.

(** C8. The follow-up request that [_get_followup_response] sends to
    the model for the tool results [rs] is one chat request, without
    tools, whose last message is a user message with this text: the two
    fixed opening lines, then one block per result, in the order of the
    results and numbered from 1. A block starts with the number, the
    tool name and the mark of success (U+2705) or failure (U+274C). For
    a success the next line gives the text of the payload: all of it
    when it has at most 500 characters, otherwise its first 500
    characters followed by ["... (truncated)"]. For a failure the next
    line gives the error text. *)
Theorem followup_lists_results (now : Z) (tr : Trace) (self : AgentService.t)
    (ollama : OllamaService.t) (cid : str) (rs : list ToolResult)
    (context : ConversationContext.t)
    (octx : OllamaModelManager.ConversationContext) (prompt : str) :
  active_conversations self !! cid = Some context ->
  OllamaService.is_initialized ollama = true ->
  OllamaModelManager.active_conversations (OllamaService.manager ollama)
    !! ConversationContext.ollama_conversation_id context = Some octx ->
  OllamaModelManager.system_prompt octx = Some prompt ->
  let payload (r : ToolResult) := py_str env (tr_result r) in
  let shown (r : ToolResult) :=
    if (500 <? length (payload r))%nat
    then take 500 (payload r) ++ lit "... (truncated)"
    else payload r in
  let block (k : nat) (r : ToolResult) :=
    str_of_int (Z.of_nat k + 1) ++ lit ". " ++ tool r ++ lit ": "
    ++ (if tr_success r then 9989%N :: lit " Success"
        else 10060%N :: lit " Failed")
    ++ [10%N]
    ++ (if tr_success r then lit "   Result: " ++ shown r
        else lit "   Error: " ++ default (lit "None") (tr_error r))
    ++ [10%N] ++ [10%N] in
  exists chat,
    snd (_get_followup_response env now tr self ollama cid rs)
      = tr ++ [ChatCompletion (OllamaModelManager.model octx) chat None]
    /\ last chat
       = Some (MkChatMessage (lit "user")
                 (lit "Please respond to the user based on these tool results:"
                  ++ [10%N] ++ [10%N]
                  ++ lit "Tool execution completed. Results:" ++ [10%N]
                  ++ concat (imap block rs))).
Proof.
  intros L I OL P payload shown block.
  destruct (followup_message_is_sent env now tr self ollama cid rs context octx
              prompt L I OL P) as (chat & E & Lc).
  exists chat. split; [exact E|]. rewrite Lc. do 2 f_equal.
  unfold followup_message, tool_results_message, nl.
  rewrite message_loop_spec, <- !app_assoc. do 6 f_equal.
  apply imap_ext. intros k r _. unfold block, shown, payload, result_lines.
  unfold truncate, fmt_opt, success_status, failed_status, nl.
  replace (1 + Z.of_nat k) with (Z.of_nat k + 1) by lia.
  destruct (tr_success r); by rewrite <- !app_assoc.
Qed.

End FollowUpRequest.

(** The scenario of two results, the first a success with a payload of
    2000 characters, the second a failure. *)
Lemma followup_lists_results_witness :
  exists chat,
    snd (AgentService._get_followup_response Sample.env_ok 5 [] Sample.agent
           Sample.ollama (lit "c1")
           [MkToolResult (lit "read") [] (VStr (repeat 97%N 2000)) true None;
            MkToolResult (lit "write") []
              (VStr (lit "Error: Tool 'write' not found in available tools"))
              false (Some (lit "Tool not found"))])
      = [] ++ [ChatCompletion (lit "qwen2.5:latest") chat None]
    /\ last chat
       = Some (MkChatMessage (lit "user")
                 (lit "Please respond to the user based on these tool results:"
                  ++ [10%N] ++ [10%N]
                  ++ lit "Tool execution completed. Results:" ++ [10%N]
                  ++ lit "1. read: " ++ [9989%N] ++ lit " Success" ++ [10%N]
                  ++ lit "   Result: " ++ repeat 97%N 500
                  ++ lit "... (truncated)" ++ [10%N] ++ [10%N]
                  ++ lit "2. write: " ++ [10060%N] ++ lit " Failed" ++ [10%N]
                  ++ lit "   Error: Tool not found" ++ [10%N] ++ [10%N])).
Proof.
  destruct (followup_lists_results Sample.env_ok 5 [] Sample.agent Sample.ollama
              (lit "c1")
              [MkToolResult (lit "read") [] (VStr (repeat 97%N 2000)) true None;
               MkToolResult (lit "write") []
                 (VStr (lit "Error: Tool 'write' not found in available tools"))
                 false (Some (lit "Tool not found"))]
              Sample.conversation Sample.ollama_context
              (lit "You are a helpful AI assistant.")
              eq_refl eq_refl eq_refl eq_refl) as (chat & E & L).
  exists chat. split; [exact E|]. rewrite L. by vm_compute.
Defined.

(** * Further properties of the code *)

(** ** Connections: [connect], [disconnect], [health_check] *)

Section Connections.
Variable env : Env.
Import MCPServerConnection.

Lemma connect_config (tr : Trace) (c : t) :
  config (snd (fst (connect env tr c))) = config c.
Proof.
  unfold connect. simpl.
  destruct (build_transport (config c)) as [e|t0]; [done|].
  destruct (Transports.connect env tr t0) as [[[e|] t1] tr1]; [done|].
  simpl. destruct (connection_type (config c)); [|done].
  by destruct (Transports.list_tools env tr1 t1) as [[e|l] tr2].
Qed.

(** X1. [connect] answers [True] exactly when it leaves the connection
    [CONNECTED], and then the last error is cleared and a transport is
    held; otherwise it leaves it in [ERROR] with the error text
    recorded. The configuration is never changed, and the status is
    never left at [DISCONNECTED] or [CONNECTING]. *)
Theorem connect_outcome (tr : Trace) (c : t) :
  let '(ok, c', _) := connect env tr c in
  config c' = config c
  /\ ((ok = true /\ status c' = CONNECTED /\ last_error c' = None
       /\ is_Some (transport c'))
      \/ (ok = false /\ status c' = ERROR /\ is_Some (last_error c'))).
Proof.
  pose proof (connect_config tr c) as C. revert C.
  unfold connect.
  destruct (build_transport _) as [e|t0]; [intros C; split; [done|]; right; simpl; eauto|].
  destruct (Transports.connect env tr t0) as [[[e|] t1] tr1];
    [intros C; split; [done|]; right; simpl; eauto|].
  simpl. destruct (connection_type (config c)).
  - destruct (Transports.list_tools env tr1 t1) as [[e|l] tr2];
      intros C; (split; [done|]); left; simpl; eauto.
  - intros C. split; [done|]. left; simpl; eauto.
Qed.

(** X2. A stdio configuration without a command, or an HTTP one without
    a URL, makes [connect] fail before any transport is built or asked:
    the answer is [False], the status [ERROR], the error text names the
    missing field, and transport, catalog and trace are as before. *)
Theorem connect_needs_command_or_url (tr : Trace) (c : t) :
  (connection_type (config c) = STDIO ->
   command (config c) = None \/ command (config c) = Some [] ->
   connect env tr c
   = (false,
      Mk (config c) (transport c) ERROR
         (Some (lit "Command is required for stdio connections"))
         (available_tools c),
      tr))
  /\ (connection_type (config c) = HTTP ->
      url (config c) = None \/ url (config c) = Some [] ->
      connect env tr c
      = (false,
         Mk (config c) (transport c) ERROR
            (Some (lit "URL is required for HTTP connections"))
            (available_tools c),
         tr)).
Proof.
  split; intros T [H|H]; unfold connect, build_transport; simpl;
    by rewrite T, H.
Qed.

(** X3. Listing the tools is best effort: when the session comes up but
    [list_tools] raises, [connect] still answers [True]; the connection
    is [CONNECTED] with an empty catalog and no error recorded. *)
Theorem connect_tolerates_listing_failure
    (tr : Trace) (c : t) (cmd : str) (e : exn) :
  connection_type (config c) = STDIO ->
  command (config c) = Some cmd -> cmd <> [] ->
  let a := default [] (args (config c)) in
  stdio_open env tr cmd a = None ->
  session_list_tools env (tr ++ [StdioOpen cmd a]) cmd a = inl e ->
  connect env tr c
  = (true,
     Mk (config c) (Some (Transports.MCPStdioTransport cmd a true))
        CONNECTED None [],
     tr ++ [StdioOpen cmd a] ++ [SessionListTools cmd a]).
Proof.
  intros T C N a O L. unfold connect, build_transport. simpl.
  rewrite T, C. destruct cmd as [|x cmd]; [done|].
  unfold Transports.create_stdio_transport, Transports.connect.
  fold a. rewrite O. simpl. rewrite ?T. simpl. rewrite L.
  by rewrite <- ?app_assoc.
Qed.

(** X4. [disconnect] always ends in [DISCONNECTED] with no transport and
    an empty catalog; it keeps the configuration and also the last
    error. It opens no session, and a second [disconnect] changes
    nothing and asks nothing of the transport. *)
Theorem disconnect_resets (tr : Trace) (c : t) :
  let '(c', tr') := disconnect env tr c in
  status c' = DISCONNECTED /\ transport c' = None /\ available_tools c' = []
  /\ config c' = config c /\ last_error c' = last_error c
  /\ (exists evs, tr' = tr ++ evs /\ Forall (fun ev => is_open ev = false) evs)
  /\ forall tr2, disconnect env tr2 c' = (c', tr2).
Proof.
  unfold disconnect. destruct (transport c) as [[cmd a s|u h]|] eqn:E; simpl;
    rewrite ?E; (do 5 (split; [done|])); (split; [|done]).
  - exists [StdioClose cmd a]. split; [done|]. by repeat constructor.
  - exists []. by rewrite app_nil_r.
  - exists []. by rewrite app_nil_r.
Qed.

(** X5. A probe that answers [True] leaves the connection as it was. A
    probe that fails on a connected server happens for stdio servers
    only; it sets the status [ERROR] and records the error, and keeps the
    transport and the catalog. *)
Theorem health_check_outcome (tr : Trace) (c : t) :
  let '(ok, c', _) := health_check env tr c in
  (ok = true -> c' = c /\ status c = CONNECTED)
  /\ (ok = false -> status c = CONNECTED ->
      connection_type (config c) = STDIO
      /\ status c' = ERROR /\ is_Some (last_error c')
      /\ transport c' = transport c /\ available_tools c' = available_tools c
      /\ config c' = config c).
Proof.
  unfold health_check. destruct (status c) eqn:S; simpl; try done.
  destruct (connection_type (config c)); [|done].
  destruct (transport c) as [t0|] eqn:E; [|done].
  destruct (Transports.list_tools env tr t0) as [[e|l] tr1]; [|done].
  split; [done|]. intros _ _. simpl. repeat split; eauto.
Qed.

End Connections.

Lemma connect_needs_command_or_url_witness :
  MCPServerConnection.connect Sample.env_ok []
    (MCPServerConnection.init Cases.broken_config)
  = (false,
     MCPServerConnection.Mk Cases.broken_config None ERROR
       (Some (lit "Command is required for stdio connections")) [],
     []).
Proof.
  apply (proj1 (connect_needs_command_or_url Sample.env_ok []
                  (MCPServerConnection.init Cases.broken_config)));
    [reflexivity|by left].
Defined.

Lemma connect_tolerates_listing_failure_witness :
  MCPServerConnection.connect Cases.env_mute []
    (MCPServerConnection.init (Sample.files_config true))
  = (true,
     MCPServerConnection.Mk (Sample.files_config true)
       (Some (Transports.MCPStdioTransport (lit "mcp-files") [] true))
       CONNECTED None [],
     [StdioOpen (lit "mcp-files") []; SessionListTools (lit "mcp-files") []]).
Proof.
  apply (connect_tolerates_listing_failure Cases.env_mute []
           (MCPServerConnection.init (Sample.files_config true))
           (lit "mcp-files") (Exn OtherException (lit "Method not found")));
    [reflexivity|reflexivity|discriminate|reflexivity|reflexivity].
Defined.

Lemma health_check_outcome_witness :
  let c := Sample.files_connected in
  let r := MCPServerConnection.health_check Cases.env_mute [] c in
  fst (fst r) = false
  /\ MCPServerConnection.status (snd (fst r)) = ERROR
  /\ MCPServerConnection.transport (snd (fst r)) = MCPServerConnection.transport c.
Proof.
  intros c r.
  pose proof (health_check_outcome Cases.env_mute [] c) as H.
  change (MCPServerConnection.health_check Cases.env_mute [] c) with r in H.
  destruct r as [[ok c'] tr'] eqn:E.
  assert (O : ok = false) by (by injection E).
  destruct H as [_ H]. destruct (H O eq_refl) as (_ & S & _ & T & _).
  by repeat split.
Defined.

(** ** The registry: [add_server], [remove_server], [reconnect_server],
    [list_all_tools], the health-check loop, the tool route *)

Section RegistryOperations.
Variable env : Env.
Import MCPConnectionManager HealthMonitoring.

Lemma connect_trace (tr : Trace) (c : MCPServerConnection.t) :
  exists evs, snd (MCPServerConnection.connect env tr c) = tr ++ evs.
Proof.
  unfold MCPServerConnection.connect.
  destruct (MCPServerConnection.build_transport _) as [e|t0];
    [exists []; by rewrite app_nil_r|].
  destruct t0 as [cmd a s|u h]; simpl.
  - destruct (stdio_open env tr cmd a) as [e|]; simpl.
    + eexists. by rewrite <- app_assoc.
    + destruct (connection_type _); simpl.
      * destruct (session_list_tools env _ cmd a); simpl;
          eexists; by rewrite <- app_assoc.
      * by eexists.
  - destruct (connection_type _); simpl; exists []; by rewrite app_nil_r.
Qed.

Lemma connect_ok_iff (tr : Trace) (c : MCPServerConnection.t) :
  let '(ok, c', _) := MCPServerConnection.connect env tr c in
  (ok = true <-> MCPServerConnection.status c' = CONNECTED)
  /\ (MCPServerConnection.status c' = CONNECTED
      \/ MCPServerConnection.status c' = ERROR)
  /\ MCPServerConnection.config c' = MCPServerConnection.config c.
Proof.
  pose proof (connect_status env tr c) as H.
  pose proof (connect_config env tr c) as C.
  destruct (MCPServerConnection.connect env tr c) as [[ok c'] tr'].
  destruct H as [(-> & S & _)|(-> & S & _)]; rewrite S;
    repeat split; eauto; discriminate.
Qed.

(** X6. [remove_server] leaves no entry under the id and touches no
    other entry; it opens no session; removing again, or removing an id
    that was never registered, changes nothing and asks nothing. *)
Theorem remove_server_frame (tr : Trace) (mgr : t) (sid : Z) :
  let '(mgr', tr') := remove_server env tr mgr sid in
  connections mgr' !! sid = None
  /\ (forall j, j <> sid -> connections mgr' !! j = connections mgr !! j)
  /\ (exists evs, tr' = tr ++ evs /\ Forall (fun ev => is_open ev = false) evs)
  /\ (forall tr2, remove_server env tr2 mgr' sid = (mgr', tr2))
  /\ (connections mgr !! sid = None -> mgr' = mgr /\ tr' = tr).
Proof.
  pose proof (remove_server_trace env tr mgr sid) as T.
  unfold remove_server in *.
  destruct (connections mgr !! sid) as [c|] eqn:E.
  - destruct (MCPServerConnection.disconnect env tr c) as [c' tr1].
    simpl in *. split; [apply lookup_delete_eq|].
    split; [intros j N; by apply lookup_delete_ne|].
    split; [done|]. split; [|done].
    intros tr2. by rewrite lookup_delete_eq.
  - split; [done|]. split; [done|]. split; [done|].
    split; [|done]. intros tr2. by rewrite E.
Qed.

(** X7. [add_server] replaces: whatever was registered under the id,
    the entry afterwards is a connection built from the new
    configuration, and no other entry is touched. The transport of a
    replaced connection is closed before anything else is asked. For an
    enabled configuration the answer is that of [connect]: [True]
    exactly when the new connection is [CONNECTED], and otherwise it is
    in [ERROR]. *)
Theorem add_server_replaces (tr : Trace) (mgr : t) (cfg : MCPServerConfig) :
  let '(ok, mgr', tr') := add_server env tr mgr cfg in
  exists c evs,
    connections mgr' !! id cfg = Some c
    /\ MCPServerConnection.config c = cfg
    /\ (forall j, j <> id cfg -> connections mgr' !! j = connections mgr !! j)
    /\ tr' = tr ++ closing mgr (id cfg) ++ evs
    /\ (enabled cfg = true ->
        (ok = true <-> MCPServerConnection.status c = CONNECTED)
        /\ (MCPServerConnection.status c = CONNECTED
            \/ MCPServerConnection.status c = ERROR)).
Proof.
  unfold add_server, closing.
  assert (R : exists mgr1,
            (match connections mgr !! id cfg with
             | Some _ => remove_server env tr mgr (id cfg)
             | None => (mgr, tr)
             end) = (mgr1, tr ++ closing mgr (id cfg))
            /\ forall j, j <> id cfg ->
                 connections mgr1 !! j = connections mgr !! j).
  { unfold remove_server, closing.
    destruct (connections mgr !! id cfg) as [old|] eqn:E.
    - unfold MCPServerConnection.disconnect.
      destruct (MCPServerConnection.transport old) as [[cmd a s|u h]|]; simpl;
        rewrite ?app_nil_r; eexists; (split; [reflexivity|]);
        intros j N; by apply lookup_delete_ne.
    - rewrite app_nil_r. by eexists. }
  destruct R as (mgr1 & -> & Fr). fold (closing mgr (id cfg)).
  destruct (enabled cfg) eqn:En.
  - pose proof (connect_ok_iff (tr ++ closing mgr (id cfg))
                  (MCPServerConnection.init cfg)) as O.
    destruct (connect_trace (tr ++ closing mgr (id cfg))
                (MCPServerConnection.init cfg)) as (evs & T).
    destruct (MCPServerConnection.connect env _ _) as [[ok c'] tr2].
    simpl in T. subst tr2. destruct O as (I & S & C).
    exists c', evs. simpl. rewrite lookup_insert_eq.
    split; [done|]. split; [done|].
    split; [intros j N; rewrite lookup_insert_ne by done; by apply Fr|].
    split; [by rewrite app_assoc|]. done.
  - exists (MCPServerConnection.init cfg), []. simpl.
    rewrite lookup_insert_eq, !app_nil_r.
    split; [done|]. split; [done|].
    split; [intros j N; rewrite lookup_insert_ne by done; by apply Fr|].
    split; [done|]. discriminate.
Qed.

(** X8. [reconnect_server] of an id that is not registered answers
    [False] and does nothing. For a registered id it keeps the
    configuration, touches no other entry, closes the old transport
    first, and answers [True] exactly when the connection ends up
    [CONNECTED]. *)
Theorem reconnect_server_outcome (tr : Trace) (mgr : t) (sid : Z) :
  (connections mgr !! sid = None ->
   reconnect_server env tr mgr sid = (false, mgr, tr))
  /\ (forall c, connections mgr !! sid = Some c ->
      let '(ok, mgr', tr') := reconnect_server env tr mgr sid in
      exists c' evs,
        connections mgr' !! sid = Some c'
        /\ MCPServerConnection.config c' = MCPServerConnection.config c
        /\ (forall j, j <> sid -> connections mgr' !! j = connections mgr !! j)
        /\ tr' = tr ++ closing mgr sid ++ evs
        /\ (ok = true <-> MCPServerConnection.status c' = CONNECTED)).
Proof.
  unfold reconnect_server, closing. split; [by intros ->|].
  intros c ->.
  assert (D : MCPServerConnection.config
                (fst (MCPServerConnection.disconnect env tr c))
              = MCPServerConnection.config c).
  { unfold MCPServerConnection.disconnect.
    destruct (MCPServerConnection.transport c) as [t0|]; [|done].
    by destruct (Transports.cleanup env tr t0). }
  assert (T : snd (MCPServerConnection.disconnect env tr c)
              = tr ++ match MCPServerConnection.transport c with
                      | Some (Transports.MCPStdioTransport cmd a _) =>
                          [StdioClose cmd a]
                      | _ => []
                      end).
  { unfold MCPServerConnection.disconnect.
    destruct (MCPServerConnection.transport c) as [[cmd a s|u h]|]; simpl;
      by rewrite ?app_nil_r. }
  destruct (MCPServerConnection.disconnect env tr c) as [c1 tr1].
  simpl in T, D. subst tr1. rename D into C1.
  pose proof (connect_ok_iff (tr ++ match MCPServerConnection.transport c with
                      | Some (Transports.MCPStdioTransport cmd a _) =>
                          [StdioClose cmd a]
                      | _ => []
                      end) c1) as O.
  destruct (connect_trace (tr ++ match MCPServerConnection.transport c with
                      | Some (Transports.MCPStdioTransport cmd a _) =>
                          [StdioClose cmd a]
                      | _ => []
                      end) c1) as (evs & T).
  destruct (MCPServerConnection.connect env _ c1) as [[ok c2] tr2].
  simpl in T. subst tr2. destruct O as (I & _ & C2).
  exists c2, evs. simpl. rewrite lookup_insert_eq.
  split; [done|]. split; [congruence|].
  split; [intros j N; by rewrite lookup_insert_ne|].
  split; [by rewrite app_assoc|done].
Qed.

(** X9. [list_all_tools] has an entry for a server exactly when that
    server is registered and [CONNECTED], and the entry lists its catalog
    tool by tool; every schema in it is a dictionary without a
    [$schema] key. *)
Theorem list_all_tools_connected (mgr : t) (sid : Z) :
  (forall infos,
     list_all_tools mgr !! sid = Some infos
     <-> exists c, connections mgr !! sid = Some c
                   /\ MCPServerConnection.status c = CONNECTED
                   /\ infos = map tool_info (MCPServerConnection.available_tools c))
  /\ (forall infos, list_all_tools mgr !! sid = Some infos ->
      Forall (fun i => exists d, input_schema i = VDict d
                                 /\ dict_mem (lit "$schema") d = false) infos).
Proof.
  assert (A : forall infos,
     list_all_tools mgr !! sid = Some infos
     <-> exists c, connections mgr !! sid = Some c
                   /\ MCPServerConnection.status c = CONNECTED
                   /\ infos = map tool_info (MCPServerConnection.available_tools c)).
  { intros infos. unfold list_all_tools. rewrite lookup_omap.
    destruct (connections mgr !! sid) as [c|]; simpl.
    - destruct (ServerStatus_eqb (MCPServerConnection.status c) CONNECTED) eqn:S.
      + apply ServerStatus_eqb_eq in S. split.
        * intros [= <-]. eauto.
        * intros (c0 & [= <-] & _ & ->). done.
      + split; [done|]. intros (c0 & [= <-] & S' & _).
        apply ServerStatus_eqb_eq in S'. congruence.
    - split; [done|]. by intros (c0 & ? & _). }
  split; [exact A|].
  intros infos (c & _ & _ & ->)%A. apply Forall_forall.
  intros i [tool [-> _]]%list_elem_of_fmap. unfold tool_info. simpl.
  set (s0 := if truthy (tool_inputSchema tool) then tool_inputSchema tool
             else VDict []).
  destruct s0 as [|b|z|s|l|d|f]; simpl;
    try (by exists []);
    match goal with
    | |- context [dict_mem (lit "$schema") ?x] =>
        destruct (dict_mem (lit "$schema") x) eqn:M;
          [exists (dict_del (lit "$schema") x); split;
             [done|apply dict_mem_del_eq]
          |by exists x]
    end.
Qed.

(** X10. The route [POST /execute] raises nothing. What the registry
    returns is passed on field by field, and what the registry raises
    comes back as a result with [success = False], no payload and the
    text of the exception. So an unknown server gives
    ["Server {id} not found"], a server that is registered but not
    connected gives ["Server {name} is not connected"], a tool that the
    server does not list gives
    ["Tool {tool} not available on server {name}"], all without a
    request; and for a tool of a connected server with an open session
    the one request is made and its answer comes back: the payload
    with [success = True], or the text of the error that the server
    raised with [success = False]. *)
Theorem route_never_raises (tr : Trace) (mgr : t) (request : ToolExecutionRequest) :
  raised (fst (ToolsRoute.execute_tool env tr mgr request)) = false
  /\ (forall c,
        connections mgr !! server_id request = Some c ->
        MCPServerConnection.status c <> CONNECTED
        \/ MCPServerConnection.transport c = None ->
        ToolsRoute.execute_tool env tr mgr request
        = (Ret (MkExecution false VNone
                  (Some (lit "Server " ++ name (MCPServerConnection.config c)
                           ++ lit " is not connected"))), tr))
  /\ match execute_tool env tr mgr request with
     | (Ret r, tr') =>
         ToolsRoute.execute_tool env tr mgr request
         = (Ret (MkExecution (success r) (result r) (error r)), tr')
     | (Raise e, tr') =>
         ToolsRoute.execute_tool env tr mgr request
         = (Ret (MkExecution false VNone (Some (exn_str e))), tr')
     | (Pending, tr') =>
         ToolsRoute.execute_tool env tr mgr request = (Pending, tr')
     end
  /\ (connections mgr !! server_id request = None ->
      ToolsRoute.execute_tool env tr mgr request
      = (Ret (MkExecution false VNone
                (Some (lit "Server " ++ str_of_int (server_id request)
                         ++ lit " not found"))), tr))
  /\ (forall c t0,
        connections mgr !! server_id request = Some c ->
        MCPServerConnection.status c = CONNECTED ->
        MCPServerConnection.transport c = Some t0 ->
        MCPServerConnection.has_tool c (req_tool_name request) = false ->
        ToolsRoute.execute_tool env tr mgr request
        = (Ret (MkExecution false VNone
                  (Some (lit "Tool " ++ req_tool_name request
                           ++ lit " not available on server "
                           ++ name (MCPServerConnection.config c)))), tr))
  /\ (forall c cmd a,
        connections mgr !! server_id request = Some c ->
        MCPServerConnection.status c = CONNECTED ->
        MCPServerConnection.transport c
          = Some (Transports.MCPStdioTransport cmd a true) ->
        MCPServerConnection.has_tool c (req_tool_name request) = true ->
        ToolsRoute.execute_tool env tr mgr request
        = (match session_call_tool env tr cmd a (req_tool_name request)
                   (req_arguments request) with
           | Ret v => Ret (MkExecution true v None)
           | Raise e => Ret (MkExecution false VNone (Some (exn_str e)))
           | Pending => Pending
           end,
           tr ++ [SessionCallTool cmd a (req_tool_name request)
                    (req_arguments request)])).
Proof.
  unfold ToolsRoute.execute_tool. split; [|split; [|split; [|split; [|split]]]].
  - by destruct (execute_tool env tr mgr request) as [[r|e|] tr1].
  - intros c L H. unfold execute_tool. rewrite L.
    unfold MCPServerConnection.execute_tool. destruct H as [H|H].
    + destruct (MCPServerConnection.status c); try done;
        by destruct (MCPServerConnection.transport c).
    + rewrite H. by destruct (MCPServerConnection.status c).
  - by destruct (execute_tool env tr mgr request) as [[r|e|] tr1].
  - intros L. unfold execute_tool. by rewrite L.
  - intros c t0 L S T H. unfold execute_tool. rewrite L.
    unfold MCPServerConnection.execute_tool. by rewrite S, T, H.
  - intros c cmd a L S T H. unfold execute_tool. rewrite L.
    unfold MCPServerConnection.execute_tool. rewrite S, T, H. simpl.
    by destruct (session_call_tool env tr cmd a _ _).
Qed.

End RegistryOperations.

Section HealthLoop.
Variable env : Env.
Import MCPConnectionManager HealthMonitoring.

Lemma health_check_config (tr : Trace) (c : MCPServerConnection.t) :
  MCPServerConnection.config (snd (fst (MCPServerConnection.health_check env tr c)))
  = MCPServerConnection.config c.
Proof.
  unfold MCPServerConnection.health_check.
  destruct (negb _); [done|].
  destruct (connection_type _); [|done].
  destruct (MCPServerConnection.transport c) as [t0|]; [|done].
  by destruct (Transports.list_tools env tr t0) as [[e|l] tr1].
Qed.

Lemma check_connection_spec (tr : Trace) (c : MCPServerConnection.t) :
  MCPServerConnection.config (fst (check_connection env tr c))
    = MCPServerConnection.config c
  /\ (enabled (MCPServerConnection.config c) = false
      \/ MCPServerConnection.status c <> CONNECTED ->
      check_connection env tr c = (c, tr)).
Proof.
  unfold check_connection. split.
  - destruct (_ && _); [|done].
    pose proof (health_check_config tr c) as C1.
    destruct (MCPServerConnection.health_check env tr c) as [[ok c1] tr1].
    simpl in C1. destruct ok; [done|].
    pose proof (connect_config env tr1 c1) as C2.
    destruct (MCPServerConnection.connect env tr1 c1) as [[ok2 c2] tr2].
    simpl in *. congruence.
  - intros [H|H].
    + by rewrite H.
    + destruct (ServerStatus_eqb _ CONNECTED) eqn:S.
      * by apply ServerStatus_eqb_eq in S.
      * by rewrite andb_false_r.
Qed.

(** X11. One iteration of the health-check loop adds and drops no
    entry and changes no configuration; a server that is disabled, or
    not [CONNECTED] when its turn comes, is left exactly as it was. *)
Theorem health_check_loop_frame (ids : list Z) :
  forall (tr : Trace) (mgr : t),
    let '(mgr', _) := _health_check_loop env tr mgr ids in
    (forall j, connections mgr' !! j = None <-> connections mgr !! j = None)
    /\ (forall j c, connections mgr !! j = Some c ->
        exists c', connections mgr' !! j = Some c'
                   /\ MCPServerConnection.config c' = MCPServerConnection.config c
                   /\ (enabled (MCPServerConnection.config c) = false
                       \/ MCPServerConnection.status c <> CONNECTED -> c' = c)).
Proof.
  unfold _health_check_loop.
  induction ids as [|sid ids IH]; intros tr mgr.
  - simpl. split; [done|]. intros j c L. exists c. eauto.
  - cbn [foldl]. unfold check_server at 2.
    destruct (connections mgr !! sid) as [c0|] eqn:E; [|apply IH].
    pose proof (check_connection_spec tr c0) as [C0 U0].
    destruct (check_connection env tr c0) as [c1 tr1]. simpl in C0.
    specialize (IH tr1 (Mk (<[sid := c1]> (connections mgr)))).
    destruct (foldl (check_server env) _ ids) as [mgr' tr'].
    destruct IH as [N S]. simpl in N, S. split.
    + intros j. rewrite N. destruct (decide (sid = j)) as [->|Ne].
      * rewrite lookup_insert_eq, E. done.
      * by rewrite lookup_insert_ne.
    + intros j c L. destruct (decide (sid = j)) as [->|Ne].
      * assert (c = c0) as -> by congruence.
        destruct (S j c1) as (c' & L' & C' & U'); [apply lookup_insert_eq|].
        exists c'. split; [done|]. split; [congruence|].
        intros H. specialize (U0 H). injection U0 as -> _. by apply U'.
      * apply S. by rewrite lookup_insert_ne.
Qed.

End HealthLoop.

Section HttpServers.
Variable env : Env.
Import MCPConnectionManager HealthMonitoring.

(** X12. An enabled HTTP server is added without any request to the
    outside (beyond closing what it replaces): [add_server] answers
    [True] and the connection is [CONNECTED] with an empty catalog. No
    tool can then be run on it, since every [execute_tool] for it raises
    [ValueError] (tool not available), while its health check always
    answers [True]. *)
Theorem http_server_offers_no_tools
    (tr : Trace) (mgr : t) (cfg : MCPServerConfig) (u : str) :
  connection_type cfg = HTTP -> url cfg = Some u -> u <> [] ->
  enabled cfg = true ->
  exists mgr' c,
    add_server env tr mgr cfg = (true, mgr', tr ++ closing mgr (id cfg))
    /\ connections mgr' !! id cfg = Some c
    /\ MCPServerConnection.status c = CONNECTED
    /\ MCPServerConnection.available_tools c = []
    /\ (forall tr1 tool a,
          execute_tool env tr1 mgr' (MkRequest (id cfg) tool a)
          = (Raise (MCPServerConnection.tool_not_available_error c tool), tr1))
    /\ (forall tr1, MCPServerConnection.health_check env tr1 c = (true, c, tr1)).
Proof.
  intros T U N En. destruct u as [|x u]; [done|].
  unfold add_server, closing.
  assert (R : exists mgr1,
            (match connections mgr !! id cfg with
             | Some _ => remove_server env tr mgr (id cfg)
             | None => (mgr, tr)
             end) = (mgr1, tr ++ closing mgr (id cfg))).
  { unfold remove_server, closing.
    destruct (connections mgr !! id cfg) as [old|] eqn:E.
    - unfold MCPServerConnection.disconnect.
      destruct (MCPServerConnection.transport old) as [[cmd a s|u' h]|]; simpl;
        rewrite ?app_nil_r; by eexists.
    - rewrite app_nil_r. by eexists. }
  destruct R as (mgr1 & ->). fold (closing mgr (id cfg)). rewrite En.
  unfold MCPServerConnection.connect, MCPServerConnection.build_transport.
  simpl. rewrite T, U. simpl. rewrite ?T. simpl.
  eexists _, _. split; [reflexivity|]. simpl. rewrite lookup_insert_eq.
  split; [reflexivity|]. split; [done|]. split; [done|]. split.
  - intros tr1 tool a. unfold execute_tool. simpl. by rewrite lookup_insert_eq.
  - intros tr1. unfold MCPServerConnection.health_check. simpl. by rewrite T.
Qed.

End HttpServers.

Lemma http_server_offers_no_tools_witness :
  exists mgr' c,
    MCPConnectionManager.add_server Sample.env_ok [] Sample.registry Cases.bridge_config
    = (true, mgr', [] ++ HealthMonitoring.closing Sample.registry 2)
    /\ MCPConnectionManager.connections mgr' !! 2 = Some c
    /\ MCPServerConnection.status c = CONNECTED
    /\ MCPServerConnection.available_tools c = []
    /\ (forall tr1 tool a,
          MCPConnectionManager.execute_tool Sample.env_ok tr1 mgr' (MkRequest 2 tool a)
          = (Raise (MCPServerConnection.tool_not_available_error c tool), tr1))
    /\ (forall tr1,
          MCPServerConnection.health_check Sample.env_ok tr1 c = (true, c, tr1)).
Proof.
  apply (http_server_offers_no_tools Sample.env_ok [] Sample.registry
           Cases.bridge_config (lit "http://localhost:9000/"));
    [reflexivity|reflexivity|discriminate|reflexivity].
Defined.

Lemma add_server_replaces_witness :
  exists c,
    MCPConnectionManager.connections
      (snd (fst (MCPConnectionManager.add_server Sample.env_down [] Sample.registry
                   (Sample.files_config true)))) !! 1 = Some c
    /\ MCPServerConnection.config c = Sample.files_config true
    /\ MCPServerConnection.status c = ERROR
    /\ fst (fst (MCPConnectionManager.add_server Sample.env_down [] Sample.registry
                   (Sample.files_config true))) = false.
Proof.
  pose proof (add_server_replaces Sample.env_down [] Sample.registry
                (Sample.files_config true)) as H.
  destruct (MCPConnectionManager.add_server Sample.env_down [] Sample.registry
              (Sample.files_config true)) as [[ok mgr'] tr'] eqn:E.
  destruct H as (c & evs & L & C & _ & _ & S).
  destruct (S eq_refl) as [I [S1|S1]].
  - exfalso. apply I in S1. subst ok.
    vm_compute in E. discriminate E.
  - exists c. simpl. repeat split; try done.
    destruct ok; [|done]. destruct I as [I _].
    rewrite (I eq_refl) in S1. discriminate S1.
Defined.

Lemma reconnect_server_outcome_witness :
  MCPConnectionManager.reconnect_server Sample.env_ok [] Sample.registry 9
  = (false, Sample.registry, []).
Proof.
  apply (proj1 (reconnect_server_outcome Sample.env_ok [] Sample.registry 9)).
  reflexivity.
Defined.

Lemma list_all_tools_connected_witness :
  exists c,
    MCPConnectionManager.connections Cases.two_servers !! 1 = Some c
    /\ MCPServerConnection.status c = CONNECTED
    /\ [MCPConnectionManager.tool_info Sample.echo]
       = map MCPConnectionManager.tool_info (MCPServerConnection.available_tools c).
Proof.
  apply (proj1 (list_all_tools_connected Cases.two_servers 1)
           [MCPConnectionManager.tool_info Sample.echo]).
  reflexivity.
Defined.

Lemma route_never_raises_witness :
  ToolsRoute.execute_tool Sample.env_ok [] Cases.two_servers
    (MkRequest 1 (lit "echo") [(lit "text", VStr (lit "hi"))])
  = (Ret (MkExecution true
            (VDict [(lit "content", VDict [(lit "text", VStr (lit "hi"))])])
            None),
     [SessionCallTool (lit "mcp-files") [] (lit "echo")
        [(lit "text", VStr (lit "hi"))]]).
Proof.
  apply (proj2 (proj2 (proj2 (proj2 (proj2
           (route_never_raises Sample.env_ok [] Cases.two_servers
              (MkRequest 1 (lit "echo") [(lit "text", VStr (lit "hi"))]))))))
           Sample.files_connected (lit "mcp-files") []);
    reflexivity.
Defined.

Lemma health_check_loop_frame_witness :
  exists c',
    MCPConnectionManager.connections
      (fst (HealthMonitoring._health_check_loop Cases.env_mute []
              Cases.two_servers [1; 4])) !! 4 = Some c'
    /\ c' = MCPServerConnection.init
              (MkConfig (lit "off") STDIO (Some (lit "mcp-off")) (Some []) None
                 None 30 3 false 4).
Proof.
  pose proof (health_check_loop_frame Cases.env_mute [1; 4] [] Cases.two_servers) as H.
  destruct (HealthMonitoring._health_check_loop Cases.env_mute []
              Cases.two_servers [1; 4]) as [mgr' tr'].
  destruct H as [_ H].
  destruct (H 4 (MCPServerConnection.init
              (MkConfig (lit "off") STDIO (Some (lit "mcp-off")) (Some []) None
                 None 30 3 false 4)) eq_refl) as (c' & L & _ & U).
  exists c'. split; [exact L|]. apply U. by left.
Defined.

(** ** Conversations: views, deletion, the sweep *)

Section ConversationStore.
Import AgentService ConversationViews.

(** X13. [get_recent_messages]: without a limit, and also with the limit
    0, the whole history is returned; a positive limit [n] gives the
    last [n] messages (all of them when there are fewer); a negative
    limit [-k] gives the history without its first [k] messages. *)
Theorem get_recent_messages_limits (c : ConversationContext.t) :
  let l := items (ConversationContext.messages c) in
  get_recent_messages c None = l
  /\ get_recent_messages c (Some 0) = l
  /\ (forall n, 0 < n ->
        get_recent_messages c (Some n) = History.last_n (Z.to_nat n) l
        /\ length (get_recent_messages c (Some n)) = Nat.min (Z.to_nat n) (length l))
  /\ (forall k, 0 < k ->
        get_recent_messages c (Some (- k)) = drop (Z.to_nat k) l).
Proof.
  intros l. unfold get_recent_messages, slice_from. fold l.
  split; [done|]. split; [done|]. split.
  - intros n H. destruct (Z.ltb_spec (- n) 0) as [_|G]; [|lia].
    unfold History.last_n.
    replace (Z.to_nat (Z.max 0 (Z.of_nat (length l) + - n)))
      with (length l - Z.to_nat n)%nat by lia.
    split; [done|]. rewrite length_drop. lia.
  - intros k H. rewrite Z.opp_involutive.
    by destruct (Z.ltb_spec k 0) as [G|_]; [lia|].
Qed.

(** X14. [delete_conversation] answers [False] and does nothing for an
    id that is not stored. When the conversation is stored and the
    Ollama service holds its session, the answer is [True], the
    conversation is gone from the store, the session is gone from the
    Ollama service, and no other conversation is touched. *)
Theorem delete_conversation_outcome
    (self : AgentService.t) (ollama : OllamaService.t) (cid : str) :
  (active_conversations self !! cid = None ->
   delete_conversation self ollama cid = (false, self, ollama))
  /\ (forall c,
        active_conversations self !! cid = Some c ->
        OllamaService.is_initialized ollama = true ->
        is_Some (OllamaModelManager.active_conversations
                   (OllamaService.manager ollama)
                   !! ConversationContext.ollama_conversation_id c) ->
        exists self' ollama',
          delete_conversation self ollama cid = (true, self', ollama')
          /\ active_conversations self' !! cid = None
          /\ (forall j, j <> cid ->
                active_conversations self' !! j = active_conversations self !! j)
          /\ available_tools self' = available_tools self
          /\ OllamaModelManager.active_conversations (OllamaService.manager ollama')
               !! ConversationContext.ollama_conversation_id c = None).
Proof.
  unfold delete_conversation. split; [by intros ->|].
  intros c -> I [x X]. unfold OllamaService.delete_conversation.
  rewrite I, X. simpl. eexists _, _. split; [reflexivity|]. simpl.
  split; [apply lookup_delete_eq|].
  split; [intros j N; by apply lookup_delete_ne|].
  split; [done|apply lookup_delete_eq].
Qed.

Lemma ollama_delete_shrinks (ollama : OllamaService.t) (oid j : str) :
  let o' := snd (OllamaService.delete_conversation ollama oid) in
  OllamaService.is_initialized o' = OllamaService.is_initialized ollama
  /\ (OllamaModelManager.active_conversations (OllamaService.manager ollama) !! j
        = None ->
      OllamaModelManager.active_conversations (OllamaService.manager o') !! j = None)
  /\ (OllamaService.is_initialized ollama = true ->
      OllamaModelManager.active_conversations (OllamaService.manager o') !! oid = None).
Proof.
  unfold OllamaService.delete_conversation.
  destruct (OllamaService.is_initialized ollama) eqn:I; simpl.
  - destruct (OllamaModelManager.active_conversations _ !! oid) eqn:E; simpl.
    + split; [done|]. split; [|intros _; apply lookup_delete_eq].
      intros N. destruct (decide (oid = j)) as [->|Ne].
      * apply lookup_delete_eq.
      * by rewrite lookup_delete_ne.
    + by rewrite I.
  - by rewrite I.
Qed.

Lemma remove_old_ollama (l : list str) :
  forall (self : AgentService.t) (ollama : OllamaService.t),
    OllamaService.is_initialized (snd (foldl remove_old (self, ollama) l))
      = OllamaService.is_initialized ollama
    /\ (forall j,
          OllamaModelManager.active_conversations (OllamaService.manager ollama) !! j
            = None ->
          OllamaModelManager.active_conversations
            (OllamaService.manager (snd (foldl remove_old (self, ollama) l))) !! j
            = None).
Proof.
  induction l as [|x l IH]; intros self ollama; [done|].
  cbn [foldl]. unfold remove_old at 2 4.
  destruct (active_conversations self !! x) as [c|]; [|apply IH].
  pose proof (ollama_delete_shrinks ollama
                (ConversationContext.ollama_conversation_id c)) as S.
  destruct (IH (Mk (delete x (active_conversations self)) (available_tools self))
              (snd (OllamaService.delete_conversation ollama
                      (ConversationContext.ollama_conversation_id c)))) as [I N].
  split.
  - rewrite I. apply (S x).
  - intros j H. apply N. by apply (S j).
Qed.

Lemma remove_old_closes (l : list str) :
  forall (self : AgentService.t) (ollama : OllamaService.t) (cid : str)
         (c : ConversationContext.t),
    NoDup l -> cid ∈ l ->
    active_conversations self !! cid = Some c ->
    OllamaService.is_initialized ollama = true ->
    OllamaModelManager.active_conversations
      (OllamaService.manager (snd (foldl remove_old (self, ollama) l)))
      !! ConversationContext.ollama_conversation_id c = None.
Proof.
  induction l as [|x l IH]; intros self ollama cid c ND In L I.
  - by apply elem_of_nil in In.
  - apply NoDup_cons in ND as [Nx ND]. cbn [foldl]. unfold remove_old at 2.
    apply elem_of_cons in In as [->|In].
    + rewrite L.
      apply (remove_old_ollama l). by apply ollama_delete_shrinks.
    + destruct (active_conversations self !! x) as [c0|] eqn:E.
      * apply (IH _ _ cid); try done.
        -- simpl. rewrite lookup_delete_ne; [done|]. intros ->. done.
        -- by rewrite (proj1 (ollama_delete_shrinks ollama _ x)).
      * by apply (IH _ _ cid).
Qed.

Lemma conversations_to_remove_NoDup (now : Z) (convs : gmap str ConversationContext.t) :
  NoDup (conversations_to_remove now convs).
Proof.
  unfold conversations_to_remove.
  pose proof (NoDup_fst_map_to_list convs) as ND.
  induction (map_to_list convs) as [|[k v] l IH]; simpl; [constructor|].
  simpl in ND. apply NoDup_cons in ND as [Nk ND].
  destruct (expired now v); [|by apply IH].
  simpl. apply NoDup_cons. split; [|by apply IH].
  intros ([k' v'] & Hin & Hx)%list_elem_of_omap. simpl in Hx.
  destruct (expired now v'); [|done]. injection Hx as ->.
  apply Nk. apply list_elem_of_fmap. by exists (k, v').
Qed.

(** X15. The sweep removes exactly the conversations that were last
    updated more than 24 hours ago. It closes the Ollama session of each
    one it removes (when the Ollama service is initialised), keeps every
    other conversation - unchanged when its history is within the bound
    of 500 messages - and leaves the tool registry alone. *)
Theorem sweep_outcome (now : Z) (self : AgentService.t) (ollama : OllamaService.t)
    (cid : str) (c : ConversationContext.t) :
  active_conversations self !! cid = Some c ->
  let '(self', ollama') := _cleanup_old_conversations now self ollama in
  available_tools self' = available_tools self
  /\ (expired now c = true ->
      active_conversations self' !! cid = None
      /\ (OllamaService.is_initialized ollama = true ->
          OllamaModelManager.active_conversations (OllamaService.manager ollama')
            !! ConversationContext.ollama_conversation_id c = None))
  /\ (expired now c = false ->
      (length (items (ConversationContext.messages c))
         <= MAX_MESSAGES_PER_CONVERSATION)%nat ->
      active_conversations self' !! cid = Some c).
Proof.
  intros L.
  pose proof (cleanup_lookup now self ollama cid) as K.
  pose proof (remove_old_closes (conversations_to_remove now (active_conversations self))
                (Mk (sweep_context now <$> active_conversations self)
                    (available_tools self)) ollama cid (sweep_context now c)
                (conversations_to_remove_NoDup _ _)) as Cl.
  assert (Tl : forall l s o, available_tools (fst (foldl remove_old (s, o) l))
                             = available_tools s).
  { induction l as [|x l IH]; intros s o; [done|].
    cbn [foldl]. unfold remove_old at 2.
    destruct (active_conversations s !! x); [|apply IH].
    by rewrite IH. }
  specialize (Tl (conversations_to_remove now (active_conversations self))
                (Mk (sweep_context now <$> active_conversations self)
                    (available_tools self)) ollama).
  unfold _cleanup_old_conversations in *.
  destruct (foldl remove_old _ _) as [self' ollama'].
  simpl in *. rewrite L in K. simpl in K.
  split; [done|]. split.
  - intros X. rewrite X in K. split; [done|].
    intros I. 
    assert (E : sweep_context now c = c) by (unfold sweep_context; by rewrite X).
    rewrite E in Cl. apply Cl; [|by rewrite lookup_fmap, L; simpl; rewrite E|done].
    apply elem_of_conversations_to_remove. eauto.
  - intros X B. rewrite X in K. by rewrite sweep_context_bounded in K.
Qed.

End ConversationStore.

Lemma get_recent_messages_limits_witness :
  let c :=
    ConversationContext.add_message 2
      (ConversationContext.add_message 1 Sample.conversation user (lit "a"))
      assistant (lit "b") in
  ConversationViews.get_recent_messages c (Some 1)
  = [MkMessage assistant (lit "b") 2 None].
Proof.
  intros c.
  refine (eq_trans
    (proj1 (proj1 (proj2 (proj2 (get_recent_messages_limits c))) 1 _)) _).
  - lia.
  - reflexivity.
Defined.

Lemma delete_conversation_outcome_witness :
  exists self' ollama',
    AgentService.delete_conversation Sample.agent Sample.ollama (lit "c1")
    = (true, self', ollama')
    /\ AgentService.active_conversations self' !! lit "c1" = None
    /\ OllamaModelManager.active_conversations (OllamaService.manager ollama')
         !! lit "o1" = None.
Proof.
  destruct (proj2 (delete_conversation_outcome Sample.agent Sample.ollama (lit "c1"))
              Sample.conversation eq_refl eq_refl)
    as (self' & ollama' & E & N & _ & _ & O).
  - by eexists.
  - exists self', ollama'. by repeat split.
Defined.

Lemma sweep_outcome_witness :
  AgentService.active_conversations
    (fst (AgentService._cleanup_old_conversations 100000 Sample.agent Sample.ollama))
    !! lit "c1" = None
  /\ OllamaModelManager.active_conversations
       (OllamaService.manager
          (snd (AgentService._cleanup_old_conversations 100000 Sample.agent
                  Sample.ollama))) !! lit "o1" = None.
Proof.
  pose proof (sweep_outcome 100000 Sample.agent Sample.ollama (lit "c1")
                Sample.conversation eq_refl) as H.
  destruct (AgentService._cleanup_old_conversations 100000 Sample.agent Sample.ollama)
    as [self' ollama'].
  destruct H as (_ & X & _). destruct (X eq_refl) as [N O].
  split; [exact N|exact (O eq_refl)].
Defined.

(** ** The tool registry of the agent service *)

Section MoreDictionaries.
Context {V : Type}.
Implicit Types (k : str) (d : list (str * V)).

Lemma dict_mem_cons k k0 (v0 : V) d :
  dict_mem k ((k0, v0) :: d) = (str_eqb k k0 || dict_mem k d)%bool.
Proof. unfold dict_mem. simpl. by destruct (str_eqb k k0). Qed.

Lemma dict_mem_keys k d : dict_mem k d = true <-> k ∈ map fst d.
Proof.
  induction d as [|[k0 v0] d IH].
  - split; [done|]. intros H. by apply elem_of_nil in H.
  - rewrite dict_mem_cons, orb_true_iff, str_eqb_eq, IH. simpl.
    by rewrite elem_of_cons.
Qed.

Lemma dict_set_keys k (v : V) d :
  map fst (dict_set k v d)
  = if dict_mem k d then map fst d else map fst d ++ [k].
Proof.
  induction d as [|[k0 v0] d IH]; [done|].
  rewrite dict_mem_cons. simpl.
  destruct (str_eqb k k0); simpl; [done|].
  rewrite IH. by destruct (dict_mem k d).
Qed.

Lemma dict_set_NoDup k (v : V) d :
  NoDup (map fst d) -> NoDup (map fst (dict_set k v d)).
Proof.
  intros N. rewrite dict_set_keys. destruct (dict_mem k d) eqn:M; [done|].
  apply NoDup_app. split; [done|]. split; [|apply NoDup_singleton].
  intros x In [->|In']%elem_of_cons; [|by apply elem_of_nil in In'].
  apply dict_mem_keys in In. congruence.
Qed.

Lemma dict_set_elem k (v : V) d kv :
  kv ∈ dict_set k v d -> kv = (k, v) \/ kv ∈ d.
Proof.
  induction d as [|[k0 v0] d IH]; simpl.
  - intros [->|In]%elem_of_cons; [by left|by apply elem_of_nil in In].
  - destruct (str_eqb k k0) eqn:E.
    + apply str_eqb_eq in E as <-.
      intros [->|In]%elem_of_cons; [by left|]. right. by apply elem_of_cons; right.
    + intros [->|In]%elem_of_cons; [right; by apply elem_of_cons; left|].
      destruct (IH In) as [->|In']; [by left|]. right. by apply elem_of_cons; right.
Qed.

Lemma dict_get_set_same k (v : V) d : dict_get k (dict_set k v d) = Some v.
Proof.
  induction d as [|[k0 v0] d IH]; simpl.
  - by rewrite str_eqb_refl.
  - destruct (str_eqb k k0) eqn:E; simpl; by rewrite E.
Qed.

Lemma dict_del_absent k d : dict_mem k d = false -> dict_del k d = d.
Proof.
  induction d as [|[k0 v0] d IH]; [done|].
  rewrite dict_mem_cons. intros [E M]%orb_false_iff. simpl.
  rewrite E. simpl. by rewrite IH.
Qed.

Lemma dict_del_sublist k d : sublist (dict_del k d) d.
Proof.
  induction d as [|[k0 v0] d IH]; simpl; [constructor|].
  destruct (negb (str_eqb k k0)); by constructor.
Qed.

End MoreDictionaries.

Section ToolRegistry.
Import AgentService.

Lemma ServerStatus_eqb_CONNECTED (s : ServerStatus) :
  ServerStatus_eqb s CONNECTED = true <-> s = CONNECTED.
Proof. by destruct s. Qed.

(** The schema that [list_all_tools] gives for a tool is a dictionary
    without the [$schema] field. *)
Lemma tool_info_schema (tool : Tool) :
  exists d, MCPConnectionManager.input_schema (MCPConnectionManager.tool_info tool)
            = VDict d
            /\ dict_mem (lit "$schema") d = false.
Proof.
  unfold MCPConnectionManager.tool_info. simpl.
  set (s0 := if truthy (tool_inputSchema tool) then tool_inputSchema tool
             else VDict []).
  destruct s0 as [|b|z|s|l|d|f]; simpl;
    try (by exists []);
    match goal with
    | |- context [dict_mem (lit "$schema") ?x] =>
        destruct (dict_mem (lit "$schema") x) eqn:M;
          [exists (dict_del (lit "$schema") x); split;
             [done|apply dict_mem_del_eq]
          |by exists x]
    end.
Qed.

Lemma registry_fold (P : AgentTool -> Prop) (tools : list AgentTool) :
  forall d : list (str * AgentTool),
    NoDup (map fst d) ->
    Forall (fun kv => fst kv = key (snd kv) /\ P (snd kv)) d ->
    Forall P tools ->
    NoDup (map fst (foldl (fun d tool => dict_set (key tool) tool d) d tools))
    /\ Forall (fun kv => fst kv = key (snd kv) /\ P (snd kv))
         (foldl (fun d tool => dict_set (key tool) tool d) d tools).
Proof.
  induction tools as [|tool tools IH]; intros d N F Ft; [done|].
  apply Forall_cons in Ft as [Pt Ft]. simpl.
  apply IH; [by apply dict_set_NoDup| |done].
  apply Forall_forall. intros kv [->|In]%dict_set_elem; [done|].
  rewrite Forall_forall in F. by apply F.
Qed.

Lemma registry_fold_mem (tools : list AgentTool) :
  forall (d : list (str * AgentTool)) (k : str),
    dict_mem k d = true \/ (exists tool, tool ∈ tools /\ key tool = k) ->
    dict_mem k (foldl (fun d tool => dict_set (key tool) tool d) d tools) = true.
Proof.
  induction tools as [|tool tools IH]; intros d k H; simpl.
  - destruct H as [H|(t0 & In & _)]; [done|]. by apply elem_of_nil in In.
  - apply IH. destruct H as [H|(t0 & In & K)].
    + left. destruct (decide (k = key tool)) as [->|Ne];
        [apply dict_mem_set_eq|]. by rewrite dict_mem_set_ne.
    + apply elem_of_cons in In as [->|In].
      * left. subst k. apply dict_mem_set_eq.
      * right. eauto.
Qed.

(** The tools that [refresh_mcp_tools] collects. *)
Lemma refreshed_tool (mgr : MCPConnectionManager.t) (tool : AgentTool) :
  tool ∈ flat_map
      (fun entry : Z * list MCPConnectionManager.ToolInfo =>
         match MCPConnectionManager.connections mgr !! fst entry with
         | Some connection =>
             if ServerStatus_eqb (MCPServerConnection.status connection) CONNECTED
             then map (formatted_tool (fst entry)
                         (name (MCPServerConnection.config connection)))
                      (snd entry)
             else []
         | None => []
         end)
      (map_to_list (MCPConnectionManager.list_all_tools mgr))
  <-> exists sid c t0,
        MCPConnectionManager.connections mgr !! sid = Some c
        /\ MCPServerConnection.status c = CONNECTED
        /\ t0 ∈ MCPServerConnection.available_tools c
        /\ tool = formatted_tool sid (name (MCPServerConnection.config c))
                    (MCPConnectionManager.tool_info t0).
Proof.
  rewrite list_elem_of_In, in_flat_map. split.
  - intros ([sid infos] & In & H). simpl in H.
    apply list_elem_of_In, elem_of_map_to_list in In.
    unfold MCPConnectionManager.list_all_tools in In.
    rewrite lookup_omap in In.
    destruct (MCPConnectionManager.connections mgr !! sid) as [c|] eqn:L;
      [|done].
    simpl in In.
    destruct (ServerStatus_eqb (MCPServerConnection.status c) CONNECTED) eqn:S;
      [|done].
    injection In as <-. apply ServerStatus_eqb_CONNECTED in S.
    apply list_elem_of_In in H. rewrite <- list_fmap_compose in H.
    apply list_elem_of_fmap in H as (t0 & -> & In0).
    exists sid, c, t0. by repeat split.
  - intros (sid & c & t0 & L & S & In0 & ->).
    exists (sid, map MCPConnectionManager.tool_info
                   (MCPServerConnection.available_tools c)).
    split.
    + apply list_elem_of_In, elem_of_map_to_list.
      unfold MCPConnectionManager.list_all_tools. rewrite lookup_omap, L. simpl.
      by rewrite S.
    + simpl. rewrite L, S. simpl. apply list_elem_of_In.
      apply list_elem_of_fmap. eexists. split; [reflexivity|].
      apply list_elem_of_fmap. eauto.
Qed.

(** X16. After [refresh_mcp_tools] the registry of the agent service
    holds each key once; every entry is a tool of a server that the
    connection registry holds as [CONNECTED], carries the id and the
    name of that server, and is filed under ["{server_id}_{name}"]. The
    conversations are not touched. *)
Theorem refresh_mcp_tools_registry (mgr : MCPConnectionManager.t) (self : t) :
  active_conversations (refresh_mcp_tools mgr self) = active_conversations self
  /\ NoDup (map fst (available_tools (refresh_mcp_tools mgr self)))
  /\ forall k tool,
       (k, tool) ∈ available_tools (refresh_mcp_tools mgr self) ->
       exists sid c t0,
         MCPConnectionManager.connections mgr !! sid = Some c
         /\ MCPServerConnection.status c = CONNECTED
         /\ t0 ∈ MCPServerConnection.available_tools c
         /\ tool = formatted_tool sid (name (MCPServerConnection.config c))
                     (MCPConnectionManager.tool_info t0)
         /\ k = str_of_int sid ++ lit "_" ++ tool_name t0.
Proof.
  split; [done|]. unfold refresh_mcp_tools. simpl.
  match goal with
  | |- context [foldl _ [] ?l] => set (tools := l)
  end.
  destruct (registry_fold
              (fun tool => exists sid c t0,
                 MCPConnectionManager.connections mgr !! sid = Some c
                 /\ MCPServerConnection.status c = CONNECTED
                 /\ t0 ∈ MCPServerConnection.available_tools c
                 /\ tool = formatted_tool sid
                             (name (MCPServerConnection.config c))
                             (MCPConnectionManager.tool_info t0))
              tools []) as [N F].
  - constructor.
  - constructor.
  - apply Forall_forall. intros tool In. by apply refreshed_tool.
  - split; [exact N|]. intros k tool In.
    rewrite Forall_forall in F. destruct (F _ In) as [K (sid & c & t0 & H)].
    simpl in K, H. exists sid, c, t0.
    destruct H as (L & S & In0 & ->). by repeat split.
Qed.

(** X17. Every tool of a connected server is in the registry after a
    refresh, under the key ["{server_id}_{name}"]. *)
Theorem refresh_mcp_tools_complete (mgr : MCPConnectionManager.t) (self : t)
    (sid : Z) (c : MCPServerConnection.t) (t0 : Tool) :
  MCPConnectionManager.connections mgr !! sid = Some c ->
  MCPServerConnection.status c = CONNECTED ->
  t0 ∈ MCPServerConnection.available_tools c ->
  dict_mem (str_of_int sid ++ lit "_" ++ tool_name t0)
    (available_tools (refresh_mcp_tools mgr self)) = true.
Proof.
  intros L S In. unfold refresh_mcp_tools. simpl.
  apply registry_fold_mem. right.
  exists (formatted_tool sid (name (MCPServerConnection.config c))
            (MCPConnectionManager.tool_info t0)).
  split; [|done]. apply refreshed_tool. eauto 10.
Qed.

(** X18. The conversion that the chat request uses: of a schema that is
    a dictionary it drops [$schema] and [additionalProperties] and
    nothing else; the other entries keep their values and their order,
    and no entry is added. *)
Theorem convert_mcp_tool_parameters (tool : AgentTool) (d : list (str * value)) :
  inputSchema tool = VDict d ->
  exists p,
    parameters_of (_convert_mcp_tool_to_openai tool) = Some p
    /\ sublist p d
    /\ dict_get (lit "$schema") p = None
    /\ dict_get (lit "additionalProperties") p = None
    /\ forall k, k <> lit "$schema" -> k <> lit "additionalProperties" ->
                 dict_get k p = dict_get k d.
Proof.
  intros E.
  assert (S : forall k x, strip_key k (VDict x) = VDict (dict_del k x)).
  { intros k x. unfold strip_key. destruct (dict_mem k x) eqn:M; [done|].
    by rewrite dict_del_absent. }
  exists (dict_del (lit "additionalProperties") (dict_del (lit "$schema") d)).
  unfold _convert_mcp_tool_to_openai.
  rewrite parameters_of_openai_tool, E, !S.
  split; [done|].
  split; [etransitivity; apply dict_del_sublist|].
  split; [rewrite dict_get_del_ne by lit_ne; apply dict_get_del_eq|].
  split; [apply dict_get_del_eq|].
  intros k N1 N2. by rewrite !dict_get_del_ne.
Qed.

Lemma get_tools_map (self : t) :
  get_tools_in_openai_format self
  = map (fun kv => _convert_mcp_tool_to_openai (snd kv)) (available_tools self).
Proof. unfold get_tools_in_openai_format. by destruct (available_tools self). Qed.

(** X19. What a refresh puts in the registry is ready for the chat
    request: every tool that [get_tools_in_openai_format] gives after a
    refresh has a dictionary as its parameters, without [$schema] and
    without [additionalProperties]. *)
Theorem refreshed_tools_are_stripped (mgr : MCPConnectionManager.t) (self : t) :
  Forall (fun v => exists p,
            parameters_of v = Some p
            /\ dict_mem (lit "$schema") p = false
            /\ dict_mem (lit "additionalProperties") p = false)
    (get_tools_in_openai_format (refresh_mcp_tools mgr self)).
Proof.
  assert (F : Forall (fun kv : str * AgentTool =>
                        fst kv = key (snd kv)
                        /\ exists d, inputSchema (snd kv) = VDict d)
                (available_tools (refresh_mcp_tools mgr self))).
  { unfold refresh_mcp_tools. simpl.
    apply (registry_fold (fun tool => exists d, inputSchema tool = VDict d));
      [constructor|constructor|].
    apply Forall_forall.
    intros tool (sid & c & t0 & _ & _ & _ & ->)%refreshed_tool.
    destruct (tool_info_schema t0) as (d & E & _). by exists d. }
  rewrite get_tools_map. apply Forall_fmap, Forall_forall. intros [k tool] In.
  rewrite Forall_forall in F. destruct (F _ In) as [_ (d & E)].
  simpl in E. unfold compose. cbn [snd]. unfold _convert_mcp_tool_to_openai.
  rewrite parameters_of_openai_tool, E.
  destruct (strip_key_dict (lit "$schema") d) as (d1 & -> & M1 & K1).
  destruct (strip_key_dict (lit "additionalProperties") d1) as (d2 & -> & M2 & K2).
  exists d2. split; [done|]. split; [|done]. rewrite K2; [done|lit_ne].
Qed.

(** X20. [_convert_to_openai_format] gives one function tool for each
    tool, in their order, and whatever the schema of the tool is (a
    dictionary, a model object, or anything else), the parameters of the
    result are a dictionary without [$schema] and
    [additionalProperties], with a [properties] entry and with a
    [required] entry that is a list. *)
Theorem convert_to_openai_format_well_formed (mcp_tools : list AgentTool) :
  Forall2 (fun tool v =>
             exists p l,
               v = openai_tool (at_name tool) (at_description tool) (VDict p)
               /\ dict_mem (lit "$schema") p = false
               /\ dict_mem (lit "additionalProperties") p = false
               /\ dict_mem (lit "properties") p = true
               /\ dict_get (lit "required") p = Some (VList l))
    mcp_tools (_convert_to_openai_format mcp_tools).
Proof.
  unfold _convert_to_openai_format. apply Forall2_fmap_r, Forall_Forall2_diag.
  apply Forall_forall. intros tool _.
  destruct (clean_schema_well_formed (inputSchema tool)) as (S1 & S2 & S3 & _).
  assert (R : exists l, dict_get (lit "required")
                          (clean_schema (inputSchema tool)) = Some (VList l)).
  { unfold clean_schema, ensure_properties.
    set (d := dict_del (lit "additionalProperties")
                (dict_del (lit "$schema") (schema_dict (inputSchema tool)))).
    assert (E : exists l, dict_get (lit "required") (ensure_required d)
                          = Some (VList l)).
    { unfold ensure_required.
      destruct (dict_get (lit "required") d) as [[|b|z|s|l|x|f]|] eqn:G;
        rewrite ?G, ?dict_get_set_same; eauto. }
    destruct (dict_mem (lit "properties") (ensure_required d)); [done|].
    by rewrite dict_get_set_ne by lit_ne. }
  destruct R as [l R]. exists (clean_schema (inputSchema tool)), l.
  by repeat split.
Qed.

End ToolRegistry.

(** *** The order of the servers *)

Section ToolRegistryOrder.
Import AgentService.

(** [refresh_mcp_tools] is [refresh_mcp_tools_in] for the order in which
    the map enumerates the connected servers. *)
Lemma refresh_mcp_tools_as_in (mgr : MCPConnectionManager.t) (self : t) :
  refresh_mcp_tools mgr self
  = refresh_mcp_tools_in
      (map fst (map_to_list (MCPConnectionManager.list_all_tools mgr))) mgr self.
Proof.
  unfold refresh_mcp_tools, refresh_mcp_tools_in. do 3 f_equal.
  assert (H : forall e, e ∈ map_to_list (MCPConnectionManager.list_all_tools mgr) ->
              MCPConnectionManager.list_all_tools mgr !! fst e = Some (snd e)).
  { intros [sid infos] In. by apply elem_of_map_to_list in In. }
  induction (map_to_list (MCPConnectionManager.list_all_tools mgr))
    as [|e l IH]; [done|].
  simpl. rewrite (H e) by apply list_elem_of_here. f_equal.
  apply IH. intros x In. apply H. by apply list_elem_of_further.
Qed.

(** The tools that [refresh_mcp_tools_in] collects. *)
Lemma refreshed_tool_in (ids : list Z) (mgr : MCPConnectionManager.t)
    (tool : AgentTool) :
  tool ∈ flat_map
      (fun server_id : Z =>
         match MCPConnectionManager.list_all_tools mgr !! server_id with
         | Some server_tools =>
             match MCPConnectionManager.connections mgr !! server_id with
             | Some connection =>
                 if ServerStatus_eqb (MCPServerConnection.status connection)
                      CONNECTED
                 then map (formatted_tool server_id
                             (name (MCPServerConnection.config connection)))
                          server_tools
                 else []
             | None => []
             end
         | None => []
         end)
      ids
  <-> exists sid c t0,
        sid ∈ ids
        /\ MCPConnectionManager.connections mgr !! sid = Some c
        /\ MCPServerConnection.status c = CONNECTED
        /\ t0 ∈ MCPServerConnection.available_tools c
        /\ tool = formatted_tool sid (name (MCPServerConnection.config c))
                    (MCPConnectionManager.tool_info t0).
Proof.
  rewrite list_elem_of_In, in_flat_map. split.
  - intros (sid & In & H). apply list_elem_of_In in In.
    unfold MCPConnectionManager.list_all_tools in H.
    rewrite lookup_omap in H.
    destruct (MCPConnectionManager.connections mgr !! sid) as [c|] eqn:L;
      [|done].
    simpl in H.
    destruct (ServerStatus_eqb (MCPServerConnection.status c) CONNECTED) eqn:S;
      [|done].
    apply ServerStatus_eqb_CONNECTED in S.
    apply list_elem_of_In in H. rewrite <- list_fmap_compose in H.
    apply list_elem_of_fmap in H as (t0 & -> & In0).
    exists sid, c, t0. by repeat split.
  - intros (sid & c & t0 & In & L & S & In0 & ->).
    exists sid. split; [by apply list_elem_of_In|].
    unfold MCPConnectionManager.list_all_tools. rewrite lookup_omap, L. simpl.
    rewrite S. simpl. apply list_elem_of_In.
    apply list_elem_of_fmap. eexists. split; [reflexivity|].
    apply list_elem_of_fmap. eauto.
Qed.

(** What holds of the registry after a refresh holds for every order of
    the servers, so also for the order of registration: each key occurs
    once, every entry is a tool of a [CONNECTED] server filed under
    ["{server_id}_{name}"], and every tool of a [CONNECTED] server among
    [ids] has its entry. *)
Lemma refresh_mcp_tools_in_registry (ids : list Z)
    (mgr : MCPConnectionManager.t) (self : t) :
  active_conversations (refresh_mcp_tools_in ids mgr self)
    = active_conversations self
  /\ NoDup (map fst (available_tools (refresh_mcp_tools_in ids mgr self)))
  /\ (forall k tool,
        (k, tool) ∈ available_tools (refresh_mcp_tools_in ids mgr self) ->
        exists sid c t0,
          sid ∈ ids
          /\ MCPConnectionManager.connections mgr !! sid = Some c
          /\ MCPServerConnection.status c = CONNECTED
          /\ t0 ∈ MCPServerConnection.available_tools c
          /\ tool = formatted_tool sid (name (MCPServerConnection.config c))
                      (MCPConnectionManager.tool_info t0)
          /\ k = str_of_int sid ++ lit "_" ++ tool_name t0)
  /\ (forall sid c t0,
        sid ∈ ids ->
        MCPConnectionManager.connections mgr !! sid = Some c ->
        MCPServerConnection.status c = CONNECTED ->
        t0 ∈ MCPServerConnection.available_tools c ->
        dict_mem (str_of_int sid ++ lit "_" ++ tool_name t0)
          (available_tools (refresh_mcp_tools_in ids mgr self)) = true).
Proof.
  split; [done|]. unfold refresh_mcp_tools_in. cbn [available_tools].
  match goal with
  | |- context [foldl _ [] ?l] => set (tools := l)
  end.
  destruct (registry_fold
              (fun tool => exists sid c t0,
                 sid ∈ ids
                 /\ MCPConnectionManager.connections mgr !! sid = Some c
                 /\ MCPServerConnection.status c = CONNECTED
                 /\ t0 ∈ MCPServerConnection.available_tools c
                 /\ tool = formatted_tool sid
                             (name (MCPServerConnection.config c))
                             (MCPConnectionManager.tool_info t0))
              tools []) as [N F].
  - constructor.
  - constructor.
  - apply Forall_forall. intros tool In. by apply refreshed_tool_in.
  - split; [exact N|]. split.
    + intros k tool In. rewrite Forall_forall in F.
      destruct (F _ In) as [K (sid & c & t0 & H)]. simpl in K, H.
      exists sid, c, t0. destruct H as (I & L & S & In0 & ->). by repeat split.
    + intros sid c t0 I L S In0. apply registry_fold_mem. right.
      exists (formatted_tool sid (name (MCPServerConnection.config c))
                (MCPConnectionManager.tool_info t0)).
      split; [|done]. apply refreshed_tool_in. eauto 10.
Qed.

End ToolRegistryOrder.

(** Where the order shows: two servers offer a tool of the same name.
    The registry has an entry for each, and a call of that name goes to
    the server that comes first. *)
Example same_tool_on_two_servers :
  map fst (AgentService.available_tools
             (AgentService.refresh_mcp_tools_in [1; 2] Cases.twin_servers
                Sample.agent))
  = [lit "1_echo"; lit "2_echo"]
  /\ at_server_id
       <$> AgentService.find_tool
             (AgentService.refresh_mcp_tools_in [1; 2] Cases.twin_servers
                Sample.agent) (lit "echo")
     = Some (Some 1)
  /\ at_server_id
       <$> AgentService.find_tool
             (AgentService.refresh_mcp_tools_in [2; 1] Cases.twin_servers
                Sample.agent) (lit "echo")
     = Some (Some 2).
Proof. by vm_compute. Qed.

Lemma refresh_mcp_tools_complete_witness :
  dict_mem (lit "1_echo")
    (AgentService.available_tools
       (AgentService.refresh_mcp_tools Sample.registry Sample.agent)) = true.
Proof.
  apply (refresh_mcp_tools_complete Sample.registry Sample.agent 1
           Sample.files_connected Sample.echo).
  - reflexivity.
  - reflexivity.
  - apply list_elem_of_here.
Defined.

Lemma convert_mcp_tool_parameters_witness :
  let d := [(lit "$schema", VStr (lit "http://json-schema.org/draft-07/schema#"));
            (lit "type", VStr (lit "object"));
            (lit "additionalProperties", VBool false);
            (lit "properties", VDict [])] in
  let tool := MkAgentTool (lit "echo") (VStr (lit "Echo the input")) (VDict d)
                (Some 1) (lit "files") (lit "1_echo") in
  exists p,
    AgentService.parameters_of (AgentService._convert_mcp_tool_to_openai tool)
      = Some p
    /\ dict_get (lit "type") p = Some (VStr (lit "object"))
    /\ dict_get (lit "$schema") p = None.
Proof.
  intros d tool.
  destruct (convert_mcp_tool_parameters tool d eq_refl)
    as (p & E & _ & S & _ & K).
  exists p. split; [exact E|]. split; [|exact S].
  rewrite K; [reflexivity|lit_ne|lit_ne].
Defined.

(** ** More on the execution of tool calls *)

Section ToolExecution.
Variable env : Env.
Import AgentService Calls.

Lemma connection_execute_tool_outcome (tr : Trace) (c : MCPServerConnection.t)
    (n : str) (a : list (str * value)) :
  match MCPServerConnection.execute_tool env tr c n a with
  | (Ret r, tr') =>
      (success r = true /\ error r = None
       /\ MCPServerConnection.status c = CONNECTED
       /\ MCPServerConnection.has_tool c n = true
       /\ exists cmd args,
            tr' = tr ++ [SessionCallTool cmd args n a]
            /\ session_call_tool env tr cmd args n a = Ret (result r))
      \/ (success r = false /\ result r = VNone /\ is_Some (error r)
          /\ exists evs, tr' = tr ++ evs)
  | (Raise e, tr') => tr' = tr
  | (Pending, tr') =>
      exists cmd args,
        tr' = tr ++ [SessionCallTool cmd args n a]
        /\ session_call_tool env tr cmd args n a = Pending
  end.
Proof.
  unfold MCPServerConnection.execute_tool.
  destruct (MCPServerConnection.status c) eqn:S; try done.
  destruct (MCPServerConnection.transport c) as [[cmd args [|]|u h]|];
    try done;
    destruct (MCPServerConnection.has_tool c n) eqn:H; simpl; try done.
  - destruct (session_call_tool env tr cmd args n a) as [v|e|] eqn:R; simpl.
    + left. split; [done|]. split; [done|]. split; [done|]. split; [done|].
      by exists cmd, args.
    + right. split; [done|]. split; [done|]. split; [by eexists|]. by eexists.
    + by exists cmd, args.
  - right. split; [done|]. split; [done|]. split; [by eexists|].
    exists []. by rewrite app_nil_r.
  - right. split; [done|]. split; [done|]. split; [by eexists|].
    exists []. by rewrite app_nil_r.
Qed.

(** X21. What the registry answers to a request to run a tool. It
    reports success only when the server is registered and [CONNECTED],
    offers the tool, and answered the one request that was made to it;
    the payload is that answer. A dictionary that reports failure has no
    payload and always carries an error text. When it raises, no request
    was made. *)
Theorem execute_tool_answer (tr : Trace) (mgr : MCPConnectionManager.t)
    (request : ToolExecutionRequest) :
  match MCPConnectionManager.execute_tool env tr mgr request with
  | (Ret r, tr') =>
      (success r = true /\ error r = None
       /\ exists c cmd args,
            MCPConnectionManager.connections mgr !! server_id request = Some c
            /\ MCPServerConnection.status c = CONNECTED
            /\ MCPServerConnection.has_tool c (req_tool_name request) = true
            /\ tr' = tr ++ [SessionCallTool cmd args (req_tool_name request)
                              (req_arguments request)]
            /\ session_call_tool env tr cmd args (req_tool_name request)
                 (req_arguments request) = Ret (result r))
      \/ (success r = false /\ result r = VNone /\ is_Some (error r))
  | (Raise e, tr') => tr' = tr
  | (Pending, tr') =>
      exists cmd args,
        session_call_tool env tr cmd args (req_tool_name request)
          (req_arguments request) = Pending
  end.
Proof.
  unfold MCPConnectionManager.execute_tool.
  destruct (MCPConnectionManager.connections mgr !! server_id request)
    as [c|] eqn:L.
  - pose proof (connection_execute_tool_outcome tr c (req_tool_name request)
                  (req_arguments request)) as H.
    destruct (MCPServerConnection.execute_tool env tr c _ _) as [[r|e|] tr'].
    + destruct H as [(S & E & St & Ht & cmd & args & T & R)|(S & V & E & _)].
      * left. split; [done|]. split; [done|]. by exists c, cmd, args.
      * by right.
    + done.
    + destruct H as (cmd & args & _ & R). by exists cmd, args.
  - right. split; [done|]. split; [done|]. by eexists.
Qed.

(** One dispatched call. *)
Lemma dispatch_outcome (tr : Trace) (mgr : MCPConnectionManager.t)
    (tool_info : AgentTool) (n : str) (a : list (str * value)) :
  exists r evs,
    dispatch env tr mgr tool_info n a = (r, tr ++ evs)
    /\ ((tr_success r = true /\ tr_error r = None /\ answered env tr evs r)
        \/ refused r).
Proof.
  unfold dispatch, refused. destruct (at_server_id tool_info) as [sid|].
  - unfold MCPConnectionManager.execute_tool.
    cbn [server_id req_tool_name req_arguments].
    destruct (MCPConnectionManager.connections mgr !! sid) as [c|].
    + pose proof (connection_execute_tool_outcome tr c n a) as H. simpl.
      destruct (MCPServerConnection.execute_tool env tr c n a) as [[r|e|] tr'];
        simpl.
      * destruct r as [s v e0]. simpl in H.
        destruct H as [(S & E & _ & _ & cmd & args & -> & R)
                      |(S & V & E & evs & ->)];
          subst s.
        -- eexists _, _. split; [reflexivity|]. left. simpl.
           split; [done|]. split; [done|].
           exists [], [], cmd, args, v. simpl.
           by rewrite app_nil_r.
        -- eexists _, _. split; [reflexivity|]. right. simpl.
           split; [done|]. split; [done|]. by eexists.
      * subst tr'. destruct (is_timeout e);
          eexists _, []; rewrite app_nil_r; (split; [reflexivity|]);
          right; simpl; (split; [done|]); (split; [by eexists|]); by eexists.
      * destruct H as (cmd & args & -> & _). eexists _, _.
        split; [reflexivity|]. right. simpl.
        split; [done|]. split; [by eexists|]. by eexists.
    + simpl. eexists _, []. rewrite app_nil_r. split; [reflexivity|].
      right. simpl. split; [done|]. split; [by eexists|]. by eexists.
  - eexists _, []. rewrite app_nil_r. split; [reflexivity|].
    right. simpl. split; [done|]. split; [by eexists|]. by eexists.
Qed.

Lemma execute_one_outcome (tr : Trace) (self : AgentService.t)
    (mgr : MCPConnectionManager.t) (call : value) :
  exists s evs,
    execute_one env tr self mgr call = (s, tr ++ evs)
    /\ match s with
       | Skipped r => refused r /\ evs = [] /\ dispatched call = None
       | Executed r =>
           ((tr_success r = true /\ tr_error r = None /\ answered env tr evs r)
            \/ refused r)
           /\ is_Some (dispatched call)
       | Escaped => evs = [] /\ escapes call = true
       end.
Proof.
  assert (S : forall r, refused r -> dispatched call = None ->
              execute_one env tr self mgr call = (Skipped r, tr) ->
              exists s evs,
                execute_one env tr self mgr call = (s, tr ++ evs)
                /\ match s with
                   | Skipped r => refused r /\ evs = [] /\ dispatched call = None
                   | Executed r =>
                       ((tr_success r = true /\ tr_error r = None
                         /\ answered env tr evs r)
                        \/ refused r)
                       /\ is_Some (dispatched call)
                   | Escaped => evs = [] /\ escapes call = true
                   end).
  { intros r R D E. exists (Skipped r), []. by rewrite app_nil_r. }
  assert (Rf : forall n a (text : str) (e : str),
             refused (MkToolResult n a (VStr text) false (Some e))).
  { intros n a text e. split; [done|]. split; by eexists. }
  destruct call as [|b|z|s|l|d|f];
    try (apply (S invalid_format); [apply Rf|done|done]).
  revert S. unfold escapes, dispatched, execute_one, valid_name, arguments_of.
  destruct (dict_get (lit "tool") d) as [[|b|z|[|c cs]|l|d'|f]|];
    destruct (default (VDict []) (dict_get (lit "arguments") d))
      as [|b'|z'|s'|l'|a|f'];
    intros S;
    try (eapply S; [| |reflexivity]; [apply Rf|reflexivity]);
    try (by exists Escaped, []; rewrite app_nil_r).
  destruct (find_tool self (c :: cs)) as [tool_info|].
  - destruct (dispatch_outcome tr mgr tool_info (c :: cs) a)
      as (r & evs & -> & H).
    exists (Executed r), evs. split; [done|]. split; [done|]. by eexists.
  - exists (Executed (not_found (c :: cs) a)), []. rewrite app_nil_r.
    split; [done|]. split; [right; apply Rf|]. by eexists.
Qed.

Lemma answered_later (tr evs1 evs2 : Trace) (r : ToolResult) :
  answered env (tr ++ evs1) evs2 r -> answered env tr (evs1 ++ evs2) r.
Proof.
  intros (evs0 & evs3 & cmd & args & v & -> & R & D).
  exists (evs1 ++ evs0), evs3, cmd, args, v.
  rewrite <- !app_assoc. rewrite <- app_assoc in R. done.
Qed.

Lemma answered_earlier (tr evs1 evs2 : Trace) (r : ToolResult) :
  answered env tr evs1 r -> answered env tr (evs1 ++ evs2) r.
Proof.
  intros (evs0 & evs3 & cmd & args & v & -> & R & D).
  exists evs0, (evs3 ++ evs2), cmd, args, v.
  by rewrite <- !app_assoc.
Qed.

Variables (now : Z) (mgr : MCPConnectionManager.t) (cid : str).

Lemma execute_loop_honest (calls : list value) :
  forall (tr : Trace) (self : AgentService.t) (acc : list ToolResult),
  exists o self' evs,
    execute_loop env now tr self mgr cid calls acc = (o, self', tr ++ evs)
    /\ forall rs, o = Some rs ->
         exists new,
           rs = acc ++ new
           /\ Forall (fun r =>
                        (tr_success r = true /\ tr_error r = None
                         /\ answered env tr evs r)
                        \/ refused r) new.
Proof.
  induction calls as [|call calls IH]; intros tr self acc.
  - exists (Some acc), self, []. simpl. rewrite app_nil_r. split; [done|].
    intros rs [= <-]. exists []. by rewrite app_nil_r.
  - destruct (execute_one_outcome tr self mgr call) as (s & evs1 & E & H).
    assert (K : forall r self1,
              ((tr_success r = true /\ tr_error r = None
                /\ answered env tr evs1 r) \/ refused r) ->
              exists o self' evs,
                execute_loop env now (tr ++ evs1) self1 mgr cid calls (acc ++ [r])
                  = (o, self', tr ++ evs)
                /\ forall rs, o = Some rs ->
                     exists new,
                       rs = acc ++ new
                       /\ Forall (fun r =>
                                    (tr_success r = true /\ tr_error r = None
                                     /\ answered env tr evs r)
                                    \/ refused r) new).
    { intros r self1 Hr.
      destruct (IH (tr ++ evs1) self1 (acc ++ [r]))
        as (o & self' & evs2 & El & F).
      exists o, self', (evs1 ++ evs2). rewrite El, <- app_assoc.
      split; [done|]. intros rs Eo. destruct (F rs Eo) as (new & -> & Fn).
      exists (r :: new). rewrite <- app_assoc. split; [done|].
      constructor.
      - destruct Hr as [(S1 & S2 & A)|R]; [left|by right].
        split; [done|]. split; [done|]. by apply answered_earlier.
      - eapply Forall_impl; [exact Fn|]. intros x [(S1 & S2 & A)|R];
          [left|by right].
        split; [done|]. split; [done|]. by apply answered_later. }
    simpl. rewrite E. destruct s as [r|r|].
    + destruct H as (R & -> & _). apply K. by right.
    + destruct H as [H _]. by apply K.
    + exists None, self, evs1. split; [done|]. done.
Qed.


End ToolExecution.

(** ** The calls of a reply, in order *)

Section CallsInOrder.
Variable env : Env.
Import AgentService Calls.

Lemma find_none_existsb {A} (f : A -> bool) (l : list A) :
  List.find f l = None <-> existsb f l = false.
Proof.
  induction l as [|x l IH]; simpl; [done|]. by destruct (f x).
Qed.

(** One call of a reply. *)
Lemma execute_one_call (tr : Trace) (self : AgentService.t)
    (mgr : MCPConnectionManager.t) (tc : ToolCall) :
  exists r evs,
    (execute_one env tr self mgr (ToolCall_dict tc) = (Skipped r, tr ++ evs)
     \/ execute_one env tr self mgr (ToolCall_dict tc) = (Executed r, tr ++ evs))
    /\ answers tc r
    /\ (tc_tool tc = [] ->
        r = MkToolResult (lit "invalid") (tc_arguments tc)
              (VStr (lit "Error: Tool name is required and must be a string"))
              false (Some (lit "Invalid tool name")))
    /\ (tc_tool tc <> [] -> offered self (tc_tool tc) = false ->
        r = MkToolResult (tc_tool tc) (tc_arguments tc)
              (VStr (lit "Error: Tool '" ++ tc_tool tc
                       ++ lit "' not found in available tools"))
              false (Some (lit "Tool not found")))
    /\ (if reaches self mgr tc
        then exists cmd args,
               evs = [SessionCallTool cmd args (tc_tool tc) (tc_arguments tc)]
               /\ served env tr evs tc r
        else evs = []).
Proof.
  destruct tc as [[|ch n] a i].
  - exists (invalid_name a), []. rewrite app_nil_r. split; [by left|].
    by repeat split.
  - unfold execute_one, ToolCall_dict, reaches, offered, answers, filed_as.
    cbn [tc_tool tc_arguments tc_id]. simpl dict_get. cbn [from_option].
    unfold Datatypes.id. cbv beta iota. unfold find_tool.
    destruct (List.find _ (available_tools self)) as [[k tool_info]|] eqn:F;
      cbn [fmap option_fmap option_map snd].
    + assert (O : existsb (fun kv : str * AgentTool =>
                             str_eqb (at_name (snd kv)) (ch :: n))
                    (available_tools self) = false -> False).
      { intros H. apply find_none_existsb in H. congruence. }
      unfold dispatch. destruct (at_server_id tool_info) as [sid|].
      * unfold MCPConnectionManager.execute_tool.
        cbn [server_id req_tool_name req_arguments].
        destruct (MCPConnectionManager.connections mgr !! sid) as [c|].
        -- unfold MCPServerConnection.execute_tool.
           destruct (MCPServerConnection.status c);
             cbn [ServerStatus_eqb andb];
             try (eexists _, []; rewrite app_nil_r;
                  split; [right; reflexivity|]; split; [done|];
                  split; [done|]; split; [by intros _ H; destruct (O H)|done]).
           destruct (MCPServerConnection.transport c) as [[cmd args [|]|u h]|];
             destruct (MCPServerConnection.has_tool c (ch :: n));
             cbn [negb andb Transports.call_tool];
             try (eexists _, []; rewrite app_nil_r;
                  split; [right; reflexivity|]; split; [done|];
                  split; [done|]; split; [by intros _ H; destruct (O H)|done]).
           destruct (session_call_tool env tr cmd args (ch :: n) a) as [v|e|] eqn:R;
             cbn [wait_for success error result is_timeout exn_cls];
             (eexists _, [_]; split; [right; reflexivity|]; split; [done|];
              split; [done|]; split; [by intros _ H; destruct (O H)|];
              exists cmd, args; split; [done|];
              exists [], [], cmd, args; rewrite app_nil_r;
              cbn [tc_tool tc_arguments]; rewrite R; by split).
        -- eexists _, []. rewrite app_nil_r. simpl.
           split; [right; reflexivity|]. split; [done|].
           split; [done|]. split; [by intros _ H; destruct (O H)|done].
      * eexists _, []. rewrite app_nil_r.
        split; [right; reflexivity|]. split; [done|].
        split; [done|]. split; [by intros _ H; destruct (O H)|done].
    + exists (not_found (ch :: n) a), []. rewrite app_nil_r.
      split; [by right|]. by repeat split.
Qed.

Lemma served_later (tr evs1 evs2 : Trace) (tc : ToolCall) (r : ToolResult) :
  served env (tr ++ evs1) evs2 tc r -> served env tr (evs1 ++ evs2) tc r.
Proof.
  intros (evs0 & evs3 & cmd & args & -> & R).
  exists (evs1 ++ evs0), evs3, cmd, args.
  rewrite <- !app_assoc. rewrite <- app_assoc in R. done.
Qed.

Lemma served_earlier (tr evs1 evs2 : Trace) (tc : ToolCall) (r : ToolResult) :
  served env tr evs1 tc r -> served env tr (evs1 ++ evs2) tc r.
Proof.
  intros (evs0 & evs3 & cmd & args & -> & R).
  exists evs0, (evs3 ++ evs2), cmd, args.
  by rewrite <- !app_assoc.
Qed.

Variables (now : Z) (mgr : MCPConnectionManager.t) (cid : str).

Lemma execute_loop_calls (tcs : list ToolCall) :
  forall (tr : Trace) (self : AgentService.t) (acc : list ToolResult),
  exists rs evs self',
    execute_loop env now tr self mgr cid (map ToolCall_dict tcs) acc
      = (Some (acc ++ rs), self', tr ++ evs)
    /\ Forall2
         (fun tc r =>
            answers tc r
            /\ (tc_tool tc = [] ->
                r = MkToolResult (lit "invalid") (tc_arguments tc)
                      (VStr (lit "Error: Tool name is required and must be a string"))
                      false (Some (lit "Invalid tool name")))
            /\ (tc_tool tc <> [] -> offered self (tc_tool tc) = false ->
                r = MkToolResult (tc_tool tc) (tc_arguments tc)
                      (VStr (lit "Error: Tool '" ++ tc_tool tc
                               ++ lit "' not found in available tools"))
                      false (Some (lit "Tool not found")))
            /\ (reaches self mgr tc = true -> served env tr evs tc r))
         tcs rs
    /\ Forall (fun e => is_call e = true) evs
    /\ omap called evs = map signature (List.filter (reaches self mgr) tcs).
Proof.
  induction tcs as [|tc tcs IH]; intros tr self acc.
  - exists [], [], self. simpl. rewrite !app_nil_r.
    split; [done|]. split; [constructor|]. split; [constructor|done].
  - destruct (execute_one_call tr self mgr tc) as (r & evs1 & E & A & N & U & S).
    assert (K : forall self1,
              available_tools self1 = available_tools self ->
              exists rs evs self',
                execute_loop env now (tr ++ evs1) self1 mgr cid
                  (map ToolCall_dict tcs) (acc ++ [r])
                  = (Some (acc ++ rs), self', tr ++ evs)
                /\ Forall2
                     (fun tc r =>
                        answers tc r
                        /\ (tc_tool tc = [] ->
                            r = MkToolResult (lit "invalid") (tc_arguments tc)
                                  (VStr (lit "Error: Tool name is required and must be a string"))
                                  false (Some (lit "Invalid tool name")))
                        /\ (tc_tool tc <> [] -> offered self (tc_tool tc) = false ->
                            r = MkToolResult (tc_tool tc) (tc_arguments tc)
                                  (VStr (lit "Error: Tool '" ++ tc_tool tc
                                           ++ lit "' not found in available tools"))
                                  false (Some (lit "Tool not found")))
                        /\ (reaches self mgr tc = true -> served env tr evs tc r))
                     (tc :: tcs) rs
                /\ Forall (fun e => is_call e = true) evs
                /\ omap called evs
                   = map signature (List.filter (reaches self mgr) (tc :: tcs))).
    { intros self1 T.
      destruct (IH (tr ++ evs1) self1 (acc ++ [r]))
        as (rs & evs2 & self' & El & F2 & Fe & Q).
      assert (R1 : forall x, reaches self1 mgr x = reaches self mgr x).
      { intros x. unfold reaches. by rewrite T. }
      assert (O1 : forall x, offered self1 x = offered self x).
      { intros x. unfold offered. by rewrite T. }
      exists (r :: rs), (evs1 ++ evs2), self'.
      rewrite El, <- !app_assoc. split; [done|]. split; [|split].
      - constructor.
        + split; [done|]. split; [done|]. split; [done|].
          intros Hr. rewrite Hr in S. destruct S as (cmd & args & _ & Sv).
          by apply served_earlier.
        + eapply Forall2_impl; [exact F2|].
          intros x y (A' & N' & U' & S'). split; [done|]. split; [done|].
          split; [by rewrite <- O1|].
          intros Hr. apply served_later. apply S'. by rewrite R1.
      - apply Forall_app. split; [|done].
        destruct (reaches self mgr tc).
        + destruct S as (cmd & args & -> & _). by repeat constructor.
        + subst evs1. constructor.
      - rewrite omap_app, Q. simpl.
        rewrite (filter_ext _ _ R1) by done.
        destruct (reaches self mgr tc).
        + destruct S as (cmd & args & -> & _). done.
        + by subst evs1. }
    cbn [map execute_loop]. destruct E as [E|E]; rewrite E; by apply K.
Qed.

(** C7. The tool calls of a reply, as the turn hands them over (the
    dictionaries of the [ToolCall] records of the reply).
    [_execute_tool_calls] works through them in their order and returns
    exactly one result for each call, in the order of the calls, filed
    under the name and the arguments of its call. A call without a tool
    name gets the local error result ["Invalid tool name"], a call to a
    tool that the registry does not have gets the local error result
    ["Tool not found"]. A call that reaches a tool server is executed:
    the request for it is made, and its result reports what the server
    did with it (the payload, the error, or the time-out). The requests
    made to the tool servers are exactly the requests for the calls
    that reach a server, one for each, in the order of the calls. No
    result reports a success that a server did not answer with. *)
Theorem tool_results_follow_calls
    (tr : Trace) (self : AgentService.t) (tcs : list ToolCall) :
  exists rs evs self',
    _execute_tool_calls env now tr self mgr cid (map ToolCall_dict tcs)
      = (rs, self', tr ++ evs)
    /\ length rs = length tcs
    /\ Forall2
         (fun tc r =>
            answers tc r
            /\ (tc_tool tc = [] ->
                r = MkToolResult (lit "invalid") (tc_arguments tc)
                      (VStr (lit "Error: Tool name is required and must be a string"))
                      false (Some (lit "Invalid tool name")))
            /\ (tc_tool tc <> [] -> offered self (tc_tool tc) = false ->
                r = MkToolResult (tc_tool tc) (tc_arguments tc)
                      (VStr (lit "Error: Tool '" ++ tc_tool tc
                               ++ lit "' not found in available tools"))
                      false (Some (lit "Tool not found")))
            /\ (reaches self mgr tc = true -> served env tr evs tc r))
         tcs rs
    /\ Forall (fun r =>
                 (tr_success r = true /\ tr_error r = None
                  /\ answered env tr evs r)
                 \/ refused r) rs
    /\ Forall (fun e => is_call e = true) evs
    /\ omap called evs = map signature (List.filter (reaches self mgr) tcs).
Proof.
  destruct (execute_loop_calls tcs tr self [])
    as (rs & evs & self' & E & F2 & Fe & Q).
  destruct (execute_loop_honest env now mgr cid (map ToolCall_dict tcs) tr self [])
    as (o & self2 & evs2 & E2 & H).
  rewrite E in E2. injection E2 as <- <- Ev. apply app_inv_head in Ev as <-.
  destruct (H rs eq_refl) as (new & [= <-] & Fh).
  exists rs, evs, self'. unfold _execute_tool_calls. rewrite E. simpl.
  split; [done|]. split; [symmetry; by eapply Forall2_length|].
  by repeat split.
Qed.

End CallsInOrder.

Section Recording.
Variables (env : Env) (now : Z) (mgr : MCPConnectionManager.t) (cid : str).
Import AgentService Calls.

Lemma update_context_id (self : AgentService.t) :
  update_context self cid (fun c => c) = self.
Proof.
  destruct self as [convs tools]. unfold update_context. simpl. f_equal.
  by apply alter_id.
Qed.

Lemma update_context_compose (self : AgentService.t)
    (f g : ConversationContext.t -> ConversationContext.t) :
  update_context (update_context self cid f) cid g
  = update_context self cid (fun c => g (f c)).
Proof.
  unfold update_context. simpl. f_equal.
  apply (alter_alter_eq g f).
Qed.

Lemma record_all_messages (c : ConversationContext.t) (rs : list ToolResult) :
  ConversationContext.messages (ConversationViews.record_all now c rs)
  = ConversationContext.messages c.
Proof.
  revert c. induction rs as [|r rs IH]; intros c; [done|].
  unfold ConversationViews.record_all in *. simpl. by rewrite IH.
Qed.

Lemma execute_loop_records (calls : list value) :
  forall (tr : Trace) (self : AgentService.t) (acc : list ToolResult),
  exists kept,
    snd (fst (execute_loop env now tr self mgr cid calls acc))
    = update_context self cid
        (fun c => ConversationViews.record_all now c kept)
    /\ forall rs,
         fst (fst (execute_loop env now tr self mgr cid calls acc)) = Some rs ->
         exists new, rs = acc ++ new /\ length new = length calls
                     /\ kept = validated calls new.
Proof.
  induction calls as [|call calls IH]; intros tr self acc.
  - exists []. simpl. split; [by rewrite update_context_id|].
    intros rs [= <-]. exists []. by rewrite app_nil_r.
  - destruct (execute_one_outcome env tr self mgr call) as (s & evs1 & E & H).
    simpl. rewrite E. destruct s as [r|r|].
    + destruct H as (_ & _ & D).
      destruct (IH (tr ++ evs1) self (acc ++ [r])) as (kept & Es & F).
      exists kept. split; [done|]. intros rs Eo.
      destruct (F rs Eo) as (new & -> & L & K).
      exists (r :: new). rewrite <- app_assoc. split; [done|].
      split; [simpl; by rewrite L|].
      unfold validated. simpl. by rewrite D.
    + destruct H as [_ [x D]].
      destruct (IH (tr ++ evs1)
                  (update_context self cid
                     (fun context =>
                        ConversationContext.add_tool_result now context r))
                  (acc ++ [r])) as (kept & Es & F).
      exists (r :: kept). split.
      * rewrite Es. apply update_context_compose.
      * intros rs Eo. destruct (F rs Eo) as (new & -> & L & K).
        exists (r :: new). rewrite <- app_assoc. split; [done|].
        split; [simpl; by rewrite L|].
        unfold validated. simpl. rewrite D. by rewrite K.
    + exists []. simpl. split; [by rewrite update_context_id|done].
Qed.

(** X23. Which results [_execute_tool_calls] keeps in the conversation.
    For calls that a turn can pass, it returns one result per call and
    adds to the tool results of the conversation those of the calls that
    pass the validation (a dictionary with a tool name and with
    arguments that are a dictionary), in their order; the results that
    the validation itself produces are returned but not kept. Nothing
    else changes: the messages of the conversation, the other
    conversations and the tool registry stay as they are. *)
Theorem tool_results_are_recorded (tr : Trace) (self : AgentService.t)
    (calls : list value) :
  Forall (fun call => escapes call = false) calls ->
  exists rs self' tr',
    _execute_tool_calls env now tr self mgr cid calls = (rs, self', tr')
    /\ length rs = length calls
    /\ self' = update_context self cid
                 (fun c => ConversationViews.record_all now c (validated calls rs))
    /\ ConversationContext.messages <$> active_conversations self' !! cid
       = ConversationContext.messages <$> active_conversations self !! cid
    /\ (forall j, j <> cid ->
          active_conversations self' !! j = active_conversations self !! j)
    /\ available_tools self' = available_tools self.
Proof.
  intros F.
  destruct (execute_loop_spec env now mgr cid calls tr self [] F)
    as (rs & evs & self' & E & _).
  destruct (execute_loop_records calls tr self []) as (kept & Es & K).
  rewrite E in Es, K. simpl in Es, K.
  destruct (K rs eq_refl) as (new & [= <-] & L & ->).
  unfold _execute_tool_calls. rewrite E. simpl.
  exists rs, self', (tr ++ evs). split; [done|]. split; [done|].
  split; [done|]. subst self'. unfold update_context. simpl.
  split; [|split; [|done]].
  - rewrite lookup_alter_eq.
    destruct (active_conversations self !! cid) as [c|]; [|done]. simpl.
    by rewrite record_all_messages.
  - intros j Ne. by rewrite lookup_alter_ne.
Qed.

(** X24. A tool server that does not answer does not hold up the turn.
    When the request to the server stays pending, the time limit of
    [MAX_TOOL_EXECUTION_TIME] seconds ends the wait and the call gets a
    result that reports the time-out; the request was made once. *)
Theorem tool_call_times_out (tr : Trace) (self : AgentService.t)
    (tool_info : AgentTool) (sid : Z) (c : MCPServerConnection.t)
    (cmd : str) (args : list str)
    (n : str) (a : list (str * value)) (i : option str) :
  n <> [] ->
  find_tool self n = Some tool_info ->
  at_server_id tool_info = Some sid ->
  MCPConnectionManager.connections mgr !! sid = Some c ->
  MCPServerConnection.status c = CONNECTED ->
  MCPServerConnection.transport c
    = Some (Transports.MCPStdioTransport cmd args true) ->
  MCPServerConnection.has_tool c n = true ->
  session_call_tool env tr cmd args n a = Pending ->
  exists self',
    _execute_tool_calls env now tr self mgr cid [ToolCall_dict (MkToolCall n a i)]
    = ([MkToolResult n a
          (VStr (lit "Tool execution timed out after 60 seconds"))
          false (Some (lit "Tool execution timeout"))],
       self', tr ++ [SessionCallTool cmd args n a]).
Proof.
  intros Ne Ft Sid L S T H P.
  destruct n as [|ch n]; [done|].
  unfold _execute_tool_calls, execute_loop, execute_one, ToolCall_dict.
  cbn [tc_tool tc_arguments tc_id]. simpl dict_get. cbn [from_option id].
  rewrite Ft. unfold dispatch. rewrite Sid.
  unfold MCPConnectionManager.execute_tool.
  cbn [server_id req_tool_name req_arguments]. rewrite L.
  unfold MCPServerConnection.execute_tool. rewrite S, T, H.
  cbn [negb Transports.call_tool]. unfold Datatypes.id. cbv beta iota.
  rewrite P. simpl. by eexists.
Qed.

End Recording.

Lemma tool_results_are_recorded_witness :
  exists rs self' tr' c,
    AgentService._execute_tool_calls Sample.env_ok 7 [] Sample.agent
      Sample.registry (lit "c1")
      [ToolCall_dict (MkToolCall (lit "echo") [] None); VStr (lit "echo")]
    = (rs, self', tr')
    /\ length rs = 2%nat
    /\ AgentService.active_conversations self' !! lit "c1" = Some c
    /\ length (items (ConversationContext.tool_results c)) = 1%nat.
Proof.
  destruct (tool_results_are_recorded Sample.env_ok 7 Sample.registry (lit "c1")
              [] Sample.agent
              [ToolCall_dict (MkToolCall (lit "echo") [] None); VStr (lit "echo")])
    as (rs & self' & tr' & E & L & S & _).
  - by repeat constructor.
  - exists rs, self', tr'.
    injection E as <- <- <-. eexists. split; [reflexivity|].
    split; [reflexivity|]. split; reflexivity.
Defined.

Lemma tool_call_times_out_witness :
  exists self',
    AgentService._execute_tool_calls Cases.env_slow 7 [] Sample.agent
      Sample.registry (lit "c1")
      [ToolCall_dict (MkToolCall (lit "echo") [] None)]
    = ([MkToolResult (lit "echo") []
          (VStr (lit "Tool execution timed out after 60 seconds"))
          false (Some (lit "Tool execution timeout"))],
       self', [SessionCallTool (lit "mcp-files") [] (lit "echo") []]).
Proof.
  apply (tool_call_times_out Cases.env_slow 7 Sample.registry (lit "c1") []
           Sample.agent Sample.echo_tool 1 Sample.files_connected
           (lit "mcp-files") [] (lit "echo") [] None).
  - lit_ne.
  - reflexivity.
  - reflexivity.
  - reflexivity.
  - reflexivity.
  - reflexivity.
  - reflexivity.
  - reflexivity.
Defined.

(** ** More on replies and turns *)

Section Replies.
Variable env : Env.
Import OllamaModelManager.

Lemma add_message_known (now : Z) (self : t) (cid : str)
    (context : ConversationContext) (r : Role) (text : str)
    (calls : option (list ToolCall)) :
  active_conversations self !! cid = Some context ->
  add_message now self cid r text calls
  = Mk (model_capabilities self)
       (<[cid := set_messages context
                   (messages context ++ [MkMessage r text now calls])]>
          (active_conversations self)).
Proof. intros L. unfold add_message. by rewrite L. Qed.

(** For a conversation that the manager holds, [generate_response]
    returns. *)
Lemma generate_response_returns (now : Z) (tr : Trace) (self : t)
    (cid text : str) (tools : option (list value)) (context : ConversationContext) :
  active_conversations self !! cid = Some context ->
  exists r self' tr',
    generate_response env now tr self cid text tools = (inr r, self', tr').
Proof.
  intros L. unfold generate_response. rewrite L.
  destruct (generate env now tr _ cid _ text tools) as [[[e|r] self'] tr'];
    by eexists _, _, _.
Qed.

(** X25. [generate_response] for a conversation that the manager holds
    always returns a reply, after at most one chat request whose last
    message is the user message. The user message is added to the
    conversation in every case. The reply of the model is added after
    it only when the reply is returned as it is; when an apology is
    returned in its place, the conversation ends with the user message.
    Nothing else changes. *)
Theorem generate_response_history (now : Z) (tr : Trace) (self : t)
    (cid text : str) (tools : option (list value)) (context : ConversationContext) :
  active_conversations self !! cid = Some context ->
  exists r self' evs tail,
    generate_response env now tr self cid text tools = (inr r, self', tr ++ evs)
    /\ (evs = []
        \/ exists chat t,
             evs = [ChatCompletion (model context) chat t]
             /\ last chat = Some (MkChatMessage (lit "user") text))
    /\ active_conversations self' !! cid
       = Some (set_messages context
                 (messages context ++ MkMessage user text now None :: tail))
    /\ ((tail = [] /\ exists e, r = apology e (model context))
        \/ tail = [MkMessage assistant (ar_content r) now (ar_tool_calls r)])
    /\ (forall j, j <> cid ->
          active_conversations self' !! j = active_conversations self !! j)
    /\ model_capabilities self' = model_capabilities self.
Proof.
  intros L. unfold generate_response. rewrite L.
  rewrite (add_message_known now self cid context user text None L).
  unfold generate. cbn [system_prompt model set_messages messages].
  destruct (system_prompt context) as [prompt|].
  - match goal with
    | |- context [chat_completion env tr ?m ?c ?t] =>
        set (chat := c); set (tl := t)
    end.
    assert (Lc : last chat = Some (MkChatMessage (lit "user") text)).
    { unfold chat. by rewrite !app_assoc, last_snoc. }
    destruct (chat_completion env tr (model context) chat tl) as [e|response].
    + eexists _, _, [_], []. split; [reflexivity|].
      split; [right; by eexists _, _|]. simpl.
      split; [by rewrite lookup_insert_eq|].
      split; [left; split; [done|by eexists]|].
      split; [|done]. intros j Ne. by rewrite lookup_insert_ne.
    + destruct ((needs_tools text && has_path text
                 && negb (has_calls (_parse_chat_response response (model context))))
                && negb (bool_decide (is_Some tools)))%bool.
      * eexists _, _, [_], []. split; [reflexivity|].
        split; [right; by eexists _, _|]. simpl.
        split; [by rewrite lookup_insert_eq|].
        split; [left; split; [done|by eexists]|].
        split; [|done]. intros j Ne. by rewrite lookup_insert_ne.
      * eexists _, _, [_], [_]. split; [reflexivity|].
        split; [right; by eexists _, _|].
        unfold add_message. simpl. rewrite lookup_insert_eq. simpl.
        split; [rewrite lookup_insert_eq; unfold set_messages; simpl;
                by rewrite <- app_assoc|].
        split; [by right|].
        split; [|done]. intros j Ne. by rewrite !lookup_insert_ne.
  - eexists _, _, [], []. rewrite app_nil_r. split; [reflexivity|].
    split; [by left|]. simpl.
    split; [by rewrite lookup_insert_eq|].
    split; [left; split; [done|by eexists]|].
    split; [|done]. intros j Ne. by rewrite lookup_insert_ne.
Qed.

(** X26. A question about files that the model answers in words. When
    the user message names one of the keywords and has a [/] in it, the
    reply of the model carries no tool call, and no list of tools was
    handed over, the reply of the model is lost: logging the names of
    the available tools fails, and [generate_response] returns an
    apology for that failure and does not add the reply to the
    conversation. *)
Theorem generate_response_loses_reply (now : Z) (tr : Trace) (self : t)
    (cid text prompt : str) (context : ConversationContext)
    (response : ChatResult) :
  active_conversations self !! cid = Some context ->
  system_prompt context = Some prompt ->
  needs_tools text = true ->
  has_path text = true ->
  (forall chat, chat_completion env tr (model context) chat None = inr response) ->
  has_calls (_parse_chat_response response (model context)) = false ->
  exists self' chat,
    generate_response env now tr self cid text None
    = (inr (apology not_iterable (model context)), self',
       tr ++ [ChatCompletion (model context) chat None])
    /\ active_conversations self' !! cid
       = Some (set_messages context
                 (messages context ++ [MkMessage user text now None])).
Proof.
  intros L P N H C Hc. unfold generate_response. rewrite L.
  rewrite (add_message_known now self cid context user text None L).
  unfold generate. cbn [system_prompt model set_messages messages].
  rewrite P, C, N, H, Hc. simpl.
  eexists _, _. split; [reflexivity|]. simpl. by rewrite lookup_insert_eq.
Qed.

(** Without a system prompt the model is never asked: the length
    of the prompt cannot be logged, and the reply is an apology for
    that, with no chat request made. *)
Lemma generate_response_without_prompt (now : Z) (tr : Trace) (self : t)
    (cid text : str) (tools : option (list value)) (context : ConversationContext) :
  active_conversations self !! cid = Some context ->
  system_prompt context = None ->
  exists self',
    generate_response env now tr self cid text tools
    = (inr (apology no_len (model context)), self', tr).
Proof.
  intros L P. unfold generate_response. rewrite L.
  rewrite (add_message_known now self cid context user text None L).
  unfold generate. cbn [system_prompt model set_messages messages].
  rewrite P. by eexists.
Qed.

(** What [OllamaService.send_message] raises. *)
Lemma ollama_send_message_raises (now : Z) (tr : Trace) (self : OllamaService.t)
    (cid text : str) (tools : option (list value))
    (e : exn) (self' : OllamaService.t) (tr' : Trace) :
  OllamaService.send_message env now tr self cid text tools = (inl e, self', tr') ->
  self' = self /\ tr' = tr
  /\ ((OllamaService.is_initialized self = false
       /\ e = OllamaService.not_initialized)
      \/ (OllamaService.is_initialized self = true
          /\ active_conversations (OllamaService.manager self) !! cid = None
          /\ e = OllamaService.http_exception 404
                   (lit "Conversation " ++ cid ++ lit " not found"))).
Proof.
  unfold OllamaService.send_message.
  destruct (OllamaService.is_initialized self) eqn:I; simpl.
  - destruct (active_conversations (OllamaService.manager self) !! cid)
      as [context|] eqn:L.
    + destruct (generate_response_returns now tr (OllamaService.manager self)
                  cid text tools context L) as (r & m' & tr1 & ->).
      done.
    + unfold generate_response. rewrite L. intros [= <- <- <-].
      split; [destruct self; simpl in *; by subst|]. split; [done|].
      right. by repeat split.
  - intros [= <- <- <-]. split; [done|]. split; [done|]. by left.
Qed.

(** X27. [OllamaService.send_message] raises in two cases only, both
    before any chat request and without changing anything: with status
    503 when the service is not initialised, and with status 404 when
    it does not hold the conversation. Its status 500 is never raised.
    Otherwise it returns the reply, and reports tool calls exactly when
    the reply carries some. *)
Theorem ollama_send_message_outcome (now : Z) (tr : Trace) (self : OllamaService.t)
    (cid text : str) (tools : option (list value)) :
  match OllamaService.send_message env now tr self cid text tools with
  | (inl e, self', tr') =>
      self' = self /\ tr' = tr
      /\ ((OllamaService.is_initialized self = false
           /\ exn_cls e = HTTPException 503)
          \/ (OllamaService.is_initialized self = true
              /\ active_conversations (OllamaService.manager self) !! cid = None
              /\ exn_cls e = HTTPException 404))
  | (inr r, self', tr') =>
      OllamaService.is_initialized self = true
      /\ is_Some (active_conversations (OllamaService.manager self) !! cid)
      /\ OllamaService.is_initialized self' = true
      /\ OllamaService.sr_conversation_id r = cid
      /\ (is_Some (OllamaService.sr_tool_calls r)
          <-> has_calls (OllamaService.sr_response r) = true)
  end.
Proof.
  pose proof (ollama_send_message_raises now tr self cid text tools) as R.
  destruct (OllamaService.send_message env now tr self cid text tools)
    as [[[e|r] self'] tr'] eqn:E.
  - destruct (R e self' tr' eq_refl) as (-> & -> & [[I ->]|(I & L & ->)]).
    + split; [done|]. split; [done|]. by left.
    + split; [done|]. split; [done|]. right. by repeat split.
  - clear R. revert E. unfold OllamaService.send_message.
    destruct (OllamaService.is_initialized self) eqn:I; simpl; [|done].
    unfold generate_response at 1.
    destruct (active_conversations (OllamaService.manager self) !! cid)
      as [context|] eqn:L; [|done].
    fold (generate_response env now tr (OllamaService.manager self) cid text tools).
    destruct (generate_response_returns now tr (OllamaService.manager self)
                cid text tools context L) as (r0 & m' & tr1 & G).
    unfold generate_response in G. rewrite L in G. rewrite G.
    intros [= <- <- <-]. simpl.
    split; [done|]. split; [by eexists|]. split; [done|]. split; [done|].
    unfold has_calls. destruct (ar_tool_calls r0) as [[|c cs]|]; simpl.
    + split; [by intros [x ?]|done].
    + split; [done|by eexists].
    + split; [by intros [x ?]|done].
Qed.

End Replies.

Section Turns.
Variable env : Env.
Import AgentService.

Lemma turn_context (now : Z) (self : AgentService.t) (cid message reply : str)
    (context : ConversationContext.t) (kept : list ToolResult) :
  active_conversations self !! cid = Some context ->
  exists c',
    active_conversations
      (update_context
         (update_context
            (update_context self cid
               (fun c => ConversationContext.set_updated_at c now))
            cid (fun c => ConversationViews.record_all now c kept))
         cid
         (fun c =>
            ConversationContext.add_message now
              (ConversationContext.add_message now c user message)
              assistant reply)) !! cid = Some c'
    /\ ConversationContext.messages c'
       = deque_append
           (deque_append (ConversationContext.messages context)
              (MkMessage user message now None))
           (MkMessage assistant reply now None)
    /\ ConversationContext.updated_at c' = now.
Proof.
  intros L. unfold update_context. simpl. rewrite !lookup_alter_eq, L. simpl.
  eexists. split; [reflexivity|]. simpl.
  by rewrite (record_all_messages now).
Qed.

(** X28. What a turn leaves in the history of the agent service. A turn
    that raises has made no request and has changed nothing. A turn
    that returns has added two messages to the conversation, in this
    order: the user message and the first reply of the model (the
    reply to a follow-up request is returned but not added); the other
    conversations and the tool registry are as before. *)
Theorem turn_history (now : Z) (tr : Trace) (self : AgentService.t)
    (ollama : OllamaService.t) (mgr : MCPConnectionManager.t)
    (cid message : str) :
  match send_message env now tr self ollama mgr cid message with
  | (inl e, self', ollama', tr') => self' = self /\ ollama' = ollama /\ tr' = tr
  | (inr turn, self', ollama', tr') =>
      exists context c',
        active_conversations self !! cid = Some context
        /\ active_conversations self' !! cid = Some c'
        /\ ConversationContext.messages c'
           = deque_append
               (deque_append (ConversationContext.messages context)
                  (MkMessage user message now None))
               (MkMessage assistant
                  (ar_content (OllamaService.sr_response (turn_response turn)))
                  now None)
        /\ ConversationContext.updated_at c' = now
        /\ (forall j, j <> cid ->
              active_conversations self' !! j = active_conversations self !! j)
        /\ available_tools self' = available_tools self
  end.
Proof.
  unfold send_message.
  destruct (active_conversations self !! cid) as [context|] eqn:L; [|done].
  match goal with
  | |- context [OllamaService.send_message env now tr ollama ?o message ?t] =>
      pose proof (ollama_send_message_raises env now tr ollama o message t) as R;
      destruct (OllamaService.send_message env now tr ollama o message t)
        as [[[e|response] ollama1] tr1]
  end.
  - by destruct (R e ollama1 tr1 eq_refl) as (-> & -> & _).
  - clear R.
    assert (F : forall (kept : list ToolResult) j, j <> cid ->
              active_conversations
                (update_context
                   (update_context
                      (update_context self cid
                         (fun c => ConversationContext.set_updated_at c now))
                      cid (fun c => ConversationViews.record_all now c kept))
                   cid
                   (fun c =>
                      ConversationContext.add_message now
                        (ConversationContext.add_message now c user message)
                        assistant
                        (ar_content (OllamaService.sr_response response)))) !! j
              = active_conversations self !! j).
    { intros kept j Ne. unfold update_context. simpl.
      by rewrite !lookup_alter_ne. }
    destruct (OllamaService.sr_tool_calls response) as [calls|].
    + unfold _execute_tool_calls.
      destruct (execute_loop_records env now mgr cid (map ToolCall_dict calls) tr1
                  (update_context self cid
                     (fun c => ConversationContext.set_updated_at c now)) [])
        as (kept & Es & _).
      destruct (execute_loop env now tr1 _ mgr cid (map ToolCall_dict calls) [])
        as [[o s1] t1].
      simpl in Es. subst s1.
      destruct (turn_context now self cid message
                  (ar_content (OllamaService.sr_response response))
                  context kept L) as (c' & E1 & E2 & E3).
      destruct (default [] o) as [|r rs].
      * simpl. exists context, c'. split; [done|]. split; [exact E1|].
        split; [done|]. split; [done|]. split; [apply F|done].
      * destruct (_get_followup_response env now t1 _ ollama1 cid (r :: rs))
          as [[f o2] t3].
        simpl. exists context, c'. split; [done|]. split; [exact E1|].
        split; [done|]. split; [done|]. split; [apply F|done].
    + destruct (turn_context now self cid message
                  (ar_content (OllamaService.sr_response response))
                  context [] L) as (c' & E1 & E2 & E3).
      rewrite (update_context_id cid) in E1.
      simpl. exists context, c'. split; [done|]. split; [exact E1|].
      split; [done|]. split; [done|]. split; [|done].
      intros j Ne. specialize (F [] j Ne).
      by rewrite (update_context_id cid) in F.
Qed.

End Turns.

Lemma generate_response_history_witness :
  exists r self' evs tail,
    OllamaModelManager.generate_response Sample.env_ok 5 []
      (OllamaService.manager Sample.ollama) (lit "o1") (lit "hello") None
    = (inr r, self', [] ++ evs)
    /\ OllamaModelManager.active_conversations self' !! lit "o1"
       = Some (OllamaModelManager.set_messages Sample.ollama_context
                 (OllamaModelManager.messages Sample.ollama_context
                    ++ MkMessage user (lit "hello") 5 None :: tail)).
Proof.
  destruct (generate_response_history Sample.env_ok 5 []
              (OllamaService.manager Sample.ollama) (lit "o1") (lit "hello") None
              Sample.ollama_context eq_refl)
    as (r & self' & evs & tail & E & _ & H & _).
  by exists r, self', evs, tail.
Defined.

Lemma generate_response_loses_reply_witness :
  exists self' chat,
    OllamaModelManager.generate_response Sample.env_ok 5 []
      (OllamaService.manager Sample.ollama) (lit "o1")
      (lit "Please list the files in /tmp") None
    = (inr (OllamaModelManager.apology OllamaModelManager.not_iterable
              (lit "qwen2.5:latest")),
       self', [] ++ [ChatCompletion (lit "qwen2.5:latest") chat None]).
Proof.
  destruct (generate_response_loses_reply Sample.env_ok 5 []
              (OllamaService.manager Sample.ollama) (lit "o1")
              (lit "Please list the files in /tmp")
              (lit "You are a helpful AI assistant.")
              Sample.ollama_context (Sample.reply (lit "Hello")))
    as (self' & chat & E & _).
  - reflexivity.
  - reflexivity.
  - reflexivity.
  - reflexivity.
  - intros chat. reflexivity.
  - reflexivity.
  - by exists self', chat.
Defined.

Lemma generate_response_without_prompt_witness :
  let context := OllamaModelManager.MkContext [] None (lit "qwen2.5:latest") 4000 in
  exists self',
    OllamaModelManager.generate_response Sample.env_ok 5 []
      (OllamaModelManager.Mk Sample.capabilities {[ lit "o2" := context ]})
      (lit "o2") (lit "hello") None
    = (inr (OllamaModelManager.apology OllamaModelManager.no_len
              (lit "qwen2.5:latest")),
       self', []).
Proof.
  intros context.
  apply (generate_response_without_prompt Sample.env_ok 5 []
           (OllamaModelManager.Mk Sample.capabilities {[ lit "o2" := context ]})
           (lit "o2") (lit "hello") None context).
  - reflexivity.
  - reflexivity.
Defined.

(** ** Model families and conversation statistics *)

Section Models.
Import OllamaModels.

Lemma starts_with_app_contains (a b s : str) :
  starts_with (a ++ b) s = true -> contains b s = true.
Proof.
  revert s. induction a as [|x a IH]; intros s; simpl.
  - intros H. destruct s; simpl; simpl in H; by rewrite H.
  - destruct s as [|y s]; [done|].
    intros [_ H]%andb_true_iff. apply IH in H. simpl. rewrite H.
    apply orb_true_r.
Qed.

Lemma contains_suffix (a b s : str) :
  contains (a ++ b) s = true -> contains b s = true.
Proof.
  induction s as [|c s IH].
  - simpl. rewrite orb_false_r. apply starts_with_app_contains.
  - intros H.
    change (starts_with (a ++ b) (c :: s) || contains (a ++ b) s = true)%bool in H.
    apply orb_true_iff in H as [H|H].
    + by apply starts_with_app_contains in H.
    + apply IH in H.
      change (starts_with b (c :: s) || contains b s = true)%bool.
      rewrite H. apply orb_true_r.
Qed.

Lemma family_of_codellama (text : str) :
  family_of text <> Some CODELLAMA
  /\ (contains (lit "codellama") text = true -> family_of text = Some LLAMA).
Proof.
  assert (C : contains (lit "codellama") text = true ->
              contains (lit "llama") text = true).
  { apply (contains_suffix (lit "code") (lit "llama")). }
  unfold family_of.
  destruct (contains (lit "llama") text); [by split|].
  destruct (contains (lit "codellama") text); [by discriminate C|].
  split; [|done].
  destruct (contains (lit "mistral") text); [done|].
  destruct (contains (lit "phi") text); [done|].
  destruct (contains (lit "deepseek") text); [done|].
  destruct (contains (lit "qwen") text); [done|].
  destruct (contains (lit "gemma") text); [done|].
  by destruct (contains (lit "neural") text).
Qed.

(** X29. [_detect_model_family] never answers [CODELLAMA], whatever
    the families and the name of the model are: a text that has
    [codellama] in it has [llama] in it, and that test comes first. A
    model without families whose name has [codellama] in it is taken
    for a [LLAMA] model. *)
Theorem detect_model_family_codellama (str_lower : str -> str)
    (families : list str) (model_name : str) :
  _detect_model_family str_lower families model_name <> Some CODELLAMA
  /\ (families = [] ->
      contains (lit "codellama") (str_lower model_name) = true ->
      _detect_model_family str_lower families model_name = Some LLAMA).
Proof.
  split.
  - unfold _detect_model_family.
    assert (F : first_family str_lower families <> Some CODELLAMA).
    { induction families as [|family rest IH]; [done|]. simpl.
      pose proof (proj1 (family_of_codellama (str_lower family))) as H.
      by destruct (family_of (str_lower family)). }
    destruct (first_family str_lower families); [done|].
    apply family_of_codellama.
  - intros -> H. unfold _detect_model_family. simpl.
    by apply family_of_codellama.
Qed.

Lemma Role_str_inj (a b : Role) : Role_str a = Role_str b -> a = b.
Proof. destruct a, b; try done; intros H; vm_compute in H; discriminate H. Qed.

Lemma role_eqb_eq (a b : Role) : role_eqb a b = true <-> a = b.
Proof. by destruct a, b. Qed.

Lemma count_role_get (d : list (str * nat)) (msg : ConversationMessage) (r : Role) :
  dict_get (Role_str r) (count_role d msg)
  = if role_eqb (role msg) r
    then Some (default 0%nat (dict_get (Role_str r) d) + 1)%nat
    else dict_get (Role_str r) d.
Proof.
  unfold count_role. destruct (role_eqb (role msg) r) eqn:E.
  - apply role_eqb_eq in E as ->. apply dict_get_set_same.
  - apply dict_get_set_ne. intros H%Role_str_inj.
    symmetry in H. apply role_eqb_eq in H. congruence.
Qed.

Lemma messages_by_role_get (msgs : list ConversationMessage) (r : Role) :
  forall d : list (str * nat),
    dict_get (Role_str r) (foldl count_role d msgs)
    = match role_count r msgs with
      | O => dict_get (Role_str r) d
      | S n => Some (default 0%nat (dict_get (Role_str r) d) + S n)%nat
      end.
Proof.
  induction msgs as [|msg msgs IH]; intros d; [done|].
  simpl. rewrite IH, count_role_get. unfold role_count. simpl.
  destruct (role_eqb (role msg) r); simpl.
  - fold (role_count r msgs). destruct (role_count r msgs); simpl; f_equal; lia.
  - done.
Qed.

Lemma role_count_total (msgs : list ConversationMessage) :
  (role_count system msgs + role_count user msgs + role_count assistant msgs
   = length msgs)%nat.
Proof.
  unfold role_count. induction msgs as [|msg msgs IH]; [done|]. simpl.
  destruct (role msg); simpl; lia.
Qed.

(** X30. The statistics of a conversation that the manager holds: the
    count filed under a role is the number of the messages of that
    role, a role without messages has no entry, and the counts add up
    to the message count. An unknown conversation has no statistics. *)
Theorem conversation_stats_counts (self : OllamaModelManager.t) (cid : str) :
  match OllamaModelManager.active_conversations self !! cid with
  | None => get_conversation_stats self cid = None
  | Some context =>
      exists st,
        get_conversation_stats self cid = Some st
        /\ message_count st = length (OllamaModelManager.messages context)
        /\ (forall r,
              dict_get (Role_str r) (by_role st)
              = match role_count r (OllamaModelManager.messages context) with
                | O => None
                | S n => Some (S n)
                end)
        /\ (role_count system (OllamaModelManager.messages context)
            + role_count user (OllamaModelManager.messages context)
            + role_count assistant (OllamaModelManager.messages context)
            = message_count st)%nat
  end.
Proof.
  unfold get_conversation_stats.
  destruct (OllamaModelManager.active_conversations self !! cid) as [context|];
    [|done].
  eexists. split; [reflexivity|]. simpl. split; [done|].
  split; [|apply role_count_total].
  intros r. unfold messages_by_role. rewrite messages_by_role_get. simpl.
  by destruct (role_count r (OllamaModelManager.messages context)).
Qed.

End Models.

Lemma detect_model_family_codellama_witness :
  OllamaModels._detect_model_family lower [] (lit "CodeLlama:7b")
  = Some OllamaModels.LLAMA.
Proof.
  apply (proj2 (detect_model_family_codellama lower [] (lit "CodeLlama:7b"))).
  - reflexivity.
  - reflexivity.
Defined.

Section NewConversations.
Import OllamaModels.

(** A conversation that [create_conversation] has just stored is the one
    it returns: it has no messages, its context length is never [0], and
    it replaces whatever was stored under the id; the other
    conversations stay. *)
Lemma create_conversation_fresh (preferences : ModelPreferences)
    (self : OllamaModelManager.t) (cid : str) (m prompt : option str) :
  let '(context, self') := create_conversation preferences self cid m prompt in
  OllamaModelManager.active_conversations self' !! cid = Some context
  /\ OllamaModelManager.messages context = []
  /\ OllamaModelManager.max_context_length context <> 0
  /\ (forall j, j <> cid ->
        OllamaModelManager.active_conversations self' !! j
        = OllamaModelManager.active_conversations self !! j)
  /\ message_count <$> get_conversation_stats self' cid = Some 0%nat.
Proof.
  unfold create_conversation, get_conversation_stats. simpl.
  rewrite lookup_insert_eq. simpl. split; [done|]. split; [done|].
  split.
  - destruct (context_length _) as [n|]; [|done].
    destruct (n =? 0) eqn:E; [done|]. by apply Z.eqb_neq.
  - split; [|done]. intros j Ne. by rewrite lookup_insert_ne.
Qed.

End NewConversations.
